(** * lifeCoaching-backend: a shallow embedding of [server.js]

    The server is an Express application with four routes.  Each route
    handler is embedded as a computation in a small monad that threads
    the trace of outside-world interactions (console, mail transport,
    payment gateway) and propagates JavaScript exceptions.  Request
    bodies are JSON values as produced by [bodyParser.json()].

    Layout:
    - [Crypto]   : what [crypto.createHmac('sha256', k).update(m).digest('hex')]
                   computes (FIPS 180-4 and RFC 2104), on byte strings;
    - [Js]       : JSON values and the coercions the handlers rely on;
    - [Eff]      : the exception-and-trace monad;
    - [Server]   : the start-up checks and the route handlers;
    - [IntegerEngine] : a concrete engine for the worked examples;
    - properties of the handlers, then worked examples. *)

From Stdlib Require Import ZArith List String Ascii Bool Lia.
Import ListNotations.

Set Warnings "-register-all".

Local Open Scope string_scope.

(* ================================================================== *)
(** ** Node's [crypto]: HMAC-SHA256 with hexadecimal output            *)
(* ================================================================== *)

Module Crypto.

Local Open Scope Z_scope.
Local Open Scope list_scope.

(** 32-bit words are integers reduced modulo [2^32]. *)
Definition wrap32 (x : Z) : Z := x mod 2 ^ 32.

Definition add32 (x y : Z) : Z := wrap32 (x + y).

Definition rotr (n x : Z) : Z :=
  Z.lor (Z.shiftr x n) (wrap32 (Z.shiftl x (32 - n))).

Definition not32 (x : Z) : Z := Z.lxor x (2 ^ 32 - 1).

Definition ch (x y z : Z) : Z := Z.lxor (Z.land x y) (Z.land (not32 x) z).

Definition maj (x y z : Z) : Z :=
  Z.lxor (Z.lxor (Z.land x y) (Z.land x z)) (Z.land y z).

Definition bsig0 (x : Z) : Z := Z.lxor (Z.lxor (rotr 2 x) (rotr 13 x)) (rotr 22 x).
Definition bsig1 (x : Z) : Z := Z.lxor (Z.lxor (rotr 6 x) (rotr 11 x)) (rotr 25 x).
Definition ssig0 (x : Z) : Z := Z.lxor (Z.lxor (rotr 7 x) (rotr 18 x)) (Z.shiftr x 3).
Definition ssig1 (x : Z) : Z := Z.lxor (Z.lxor (rotr 17 x) (rotr 19 x)) (Z.shiftr x 10).

(** The first [n] primes, by trial division; [fuel] bounds the search. *)
Fixpoint has_divisor (d : nat) (n : Z) : bool :=
  match d with
  | O | S O => false
  | S d' => (n mod Z.of_nat d =? 0) || has_divisor d' n
  end.

Definition is_prime (n : Z) : bool :=
  (2 <=? n) && negb (has_divisor (Z.to_nat (Z.sqrt n)) n).

Fixpoint primes_from (fuel count : nat) (candidate : Z) : list Z :=
  match fuel, count with
  | S fuel', S count' =>
      if is_prime candidate
      then candidate :: primes_from fuel' count' (candidate + 1)
      else primes_from fuel' count (candidate + 1)
  | _, _ => []
  end.

(** Integer cube root, one bit at a time from bit [bits - 1] down. *)
Fixpoint cube_root (bits : nat) (n acc : Z) : Z :=
  match bits with
  | O => acc
  | S bits' =>
      let trial := acc + 2 ^ Z.of_nat bits' in
      cube_root bits' n (if trial * trial * trial <=? n then trial else acc)
  end.

(** Round constants: the first 32 bits of the fractional parts of the
    cube roots of the first 64 primes. *)
Definition round_constants : list Z :=
  Eval vm_compute in
    map (fun p => wrap32 (cube_root 40 (p * 2 ^ 96) 0)) (primes_from 400 64 2).

(** Initial state: the same for the square roots of the first 8 primes. *)
Definition initial_state : list Z :=
  Eval vm_compute in
    map (fun p => wrap32 (Z.sqrt (p * 2 ^ 64))) (primes_from 400 8 2).

(** Bytes are integers in [0, 256). *)
Definition bytes_of_string (s : string) : list Z :=
  map (fun c => Z.of_N (N_of_ascii c)) (list_ascii_of_string s).

(** Big-endian encoding of [x] on [n] bytes. *)
Fixpoint be_bytes (n : nat) (x : Z) : list Z :=
  match n with
  | O => []
  | S n' => Z.shiftr x (8 * Z.of_nat n') mod 256 :: be_bytes n' x
  end.

(** Message padding: a [0x80] byte, zero bytes up to 56 modulo 64,
    then the bit length on eight bytes. *)
Definition pad (msg : list Z) : list Z :=
  let len := Z.of_nat (List.length msg) in
  let zeros := Z.to_nat ((55 - len) mod 64) in
  msg ++ 0x80 :: repeat 0 zeros ++ be_bytes 8 (8 * len).

(** Sixteen big-endian words from the first 64 bytes of a block. *)
Fixpoint words_of (n : nat) (bs : list Z) : list Z :=
  match n, bs with
  | S n', b0 :: b1 :: b2 :: b3 :: rest =>
      (((b0 * 256 + b1) * 256 + b2) * 256 + b3) :: words_of n' rest
  | _, _ => []
  end.

(** The message schedule, most recent word first while it is built. *)
Fixpoint extend_schedule (n : nat) (rev_w : list Z) : list Z :=
  match n with
  | O => rev_w
  | S n' =>
      let w2 := nth 1 rev_w 0 in
      let w7 := nth 6 rev_w 0 in
      let w15 := nth 14 rev_w 0 in
      let w16 := nth 15 rev_w 0 in
      let w := add32 (add32 (add32 (ssig1 w2) w7) (ssig0 w15)) w16 in
      extend_schedule n' (w :: rev_w)
  end.

Definition schedule (block : list Z) : list Z :=
  rev (extend_schedule 48 (rev (words_of 16 block))).

Record regs := Regs { ra : Z; rb : Z; rc : Z; rd : Z;
                      re : Z; rf : Z; rg : Z; rh : Z }.

Definition round (r : regs) (kw : Z * Z) : regs :=
  let '(k, w) := kw in
  let t1 := add32 (add32 (add32 (add32 (rh r) (bsig1 (re r)))
                                (ch (re r) (rf r) (rg r))) k) w in
  let t2 := add32 (bsig0 (ra r)) (maj (ra r) (rb r) (rc r)) in
  Regs (add32 t1 t2) (ra r) (rb r) (rc r) (add32 (rd r) t1) (re r) (rf r) (rg r).

Definition regs_of (h : list Z) : regs :=
  Regs (nth 0 h 0) (nth 1 h 0) (nth 2 h 0) (nth 3 h 0)
       (nth 4 h 0) (nth 5 h 0) (nth 6 h 0) (nth 7 h 0).

Definition list_of (r : regs) : list Z :=
  [ra r; rb r; rc r; rd r; re r; rf r; rg r; rh r].

Definition compress (h : list Z) (block : list Z) : list Z :=
  let r := fold_left round (combine round_constants (schedule block)) (regs_of h) in
  map (fun p => add32 (fst p) (snd p)) (combine h (list_of r)).

(** Blocks are consumed 64 bytes at a time; [fuel] bounds their number. *)
Fixpoint process (fuel : nat) (h : list Z) (bs : list Z) : list Z :=
  match fuel, bs with
  | S fuel', _ :: _ => process fuel' (compress h (firstn 64 bs)) (skipn 64 bs)
  | _, _ => h
  end.

Definition sha256 (msg : list Z) : list Z :=
  let padded := pad msg in
  flat_map (be_bytes 4) (process (List.length padded) initial_state padded).

Definition block_size : nat := 64.

(** RFC 2104.  Keys longer than a block are hashed first. *)
Definition hmac_sha256 (key msg : list Z) : list Z :=
  let k0 := if Nat.ltb block_size (List.length key) then sha256 key else key in
  let k := k0 ++ repeat 0 (block_size - List.length k0) in
  let ipad := map (Z.lxor 0x36) k in
  let opad := map (Z.lxor 0x5c) k in
  sha256 (opad ++ sha256 (ipad ++ msg)).

Definition hex_digit (d : Z) : ascii :=
  if d <? 10 then ascii_of_N (Z.to_N (48 + d)) else ascii_of_N (Z.to_N (87 + d)).

Fixpoint hex (bs : list Z) : string :=
  match bs with
  | [] => EmptyString
  | b :: rest => String (hex_digit (b / 16)) (String (hex_digit (b mod 16)) (hex rest))
  end.

(** [crypto.createHmac('sha256', key).update(data).digest('hex')] *)
Definition createHmac_sha256_hex (key data : string) : string :=
  hex (hmac_sha256 (bytes_of_string key) (bytes_of_string data)).

Definition sha256_hex (data : string) : string :=
  hex (sha256 (bytes_of_string data)).

End Crypto.

(* ================================================================== *)
(** ** JavaScript values and coercions                                 *)
(* ================================================================== *)

Module Js.

Inductive nullish := Undefined | Null.

(** The [TypeError]s the handlers can provoke. *)
Inductive type_error :=
| ReadOfNullish (base : nullish) (prop : string)   (* [x.prop] on [undefined] or [null] *)
| DestructureNullish (base : nullish) (prop : string) (* [const { prop } = x], likewise *)
| NotAFunction (prop : string)    (* calling [x.prop] where it is not callable *)
| NoPrimitive                     (* an object that cannot be converted to a primitive *)
| InvalidKey.                     (* [createHmac] called with a key that is not a string *)

(** What the source takes from the engine: the Number type (IEEE
    doubles, as parsed from JSON, so never [NaN]) with the operations
    the handlers apply to numbers, and the wording of error messages. *)
Class Engine := {
  number : Type;
  Number_toString : number -> string;          (* [`${n}`] *)
  Number_toFixed : nat -> number -> string;    (* [n.toFixed(digits)] *)
  Number_isZero : number -> bool;              (* [+0] or [-0], the falsy numbers *)
  Number_isPositive : number -> bool;          (* [n > 0] *)
  StringToNumber : string -> option number;    (* [None] stands for [NaN] *)
  TypeError_message : type_error -> string
}.

Section Values.
Context {E : Engine}.

(** A JSON value, or [undefined] for what a body does not carry.  A
    string is kept as the bytes of its UTF-8 encoding, which is what
    the digest is computed over; an object as the list of its own
    properties. *)
Inductive value :=
| VUndefined
| VNull
| VBool (b : bool)
| VNum (n : number)
| VStr (s : string)
| VArr (items : list value)
| VObj (fields : list (string * value)).

(** A thrown value: a [TypeError] raised by the engine, or an error
    object raised by a library call (mail transport, gateway SDK),
    of which the handlers only read [.message]. *)
Inductive exn :=
| TypeError (e : type_error)
| Thrown (message : value).

Inductive result (A : Type) :=
| Ok (a : A)
| Throw (e : exn).
Arguments Ok {A} a.
Arguments Throw {A} e.

Definition bind {A B} (r : result A) (k : A -> result B) : result B :=
  match r with
  | Ok a => k a
  | Throw e => Throw e
  end.

(** [error.message] *)
Definition message (e : exn) : value :=
  match e with
  | TypeError te => VStr (TypeError_message te)
  | Thrown m => m
  end.

(** Own data properties of an object, first binding of a key. *)
Fixpoint own (fields : list (string * value)) (k : string) : option value :=
  match fields with
  | [] => None
  | (k', v) :: rest => if String.eqb k' k then Some v else own rest k
  end.

(** [v.k] for the data property names the handlers read ([fullName],
    [email], [title], ...): none of them is a prototype member, so
    on anything but an object the read yields [undefined]. *)
Definition Get (v : value) (k : string) : result value :=
  match v with
  | VUndefined => Throw (TypeError (ReadOfNullish Undefined k))
  | VNull => Throw (TypeError (ReadOfNullish Null k))
  | VObj fields => Ok (match own fields k with Some x => x | None => VUndefined end)
  | _ => Ok VUndefined
  end.

(** [const { k } = v] *)
Definition destructure (v : value) (k : string) : result value :=
  match v with
  | VUndefined => Throw (TypeError (DestructureNullish Undefined k))
  | VNull => Throw (TypeError (DestructureNullish Null k))
  | _ => Get v k
  end.

Definition ToBoolean (v : value) : bool :=
  match v with
  | VUndefined | VNull => false
  | VBool b => b
  | VNum n => negb (Number_isZero n)
  | VStr s => negb (String.eqb s "")
  | VArr _ | VObj _ => true
  end.

(** [ToString], as applied by template literals.  An array is joined
    with commas ([null] and [undefined] elements print as nothing);
    a plain object prints as [[object Object]] unless it has an own
    [toString] property, which coming from JSON is never callable. *)
Fixpoint ToString (v : value) : result string :=
  match v with
  | VUndefined => Ok "undefined"
  | VNull => Ok "null"
  | VBool b => Ok (if b then "true" else "false")
  | VNum n => Ok (Number_toString n)
  | VStr s => Ok s
  | VArr items =>
      (fix join (l : list value) : result string :=
         match l with
         | [] => Ok ""
         | x :: rest =>
             let first :=
               match x with
               | VUndefined | VNull => Ok ""
               | _ => ToString x
               end in
             match rest with
             | [] => first
             | _ :: _ =>
                 bind first (fun s => bind (join rest) (fun r => Ok (s ++ "," ++ r)))
             end
         end) items
  | VObj fields =>
      match own fields "toString" with
      | Some _ => Throw (TypeError NoPrimitive)
      | None => Ok "[object Object]"
      end
  end.

(** [v > 0] *)
Definition greater_than_zero (v : value) : result bool :=
  let of_string s :=
    match StringToNumber s with
    | Some n => Number_isPositive n
    | None => false
    end in
  match v with
  | VUndefined | VNull => Ok false
  | VBool b => Ok b
  | VNum n => Ok (Number_isPositive n)
  | VStr s => Ok (of_string s)
  | VArr _ | VObj _ => bind (ToString v) (fun s => Ok (of_string s))
  end.

(** [v.length > 0] *)
Definition length_greater_than_zero (v : value) : result bool :=
  match v with
  | VUndefined => Throw (TypeError (ReadOfNullish Undefined "length"))
  | VNull => Throw (TypeError (ReadOfNullish Null "length"))
  | VBool _ | VNum _ => Ok false
  | VStr s => Ok (negb (String.eqb s ""))
  | VArr items => Ok (match items with [] => false | _ :: _ => true end)
  | VObj fields =>
      match own fields "length" with
      | Some len => greater_than_zero len
      | None => Ok false
      end
  end.

(** [v.toFixed(digits)] *)
Definition toFixed (v : value) (digits : nat) : result string :=
  match v with
  | VNum n => Ok (Number_toFixed digits n)
  | VUndefined => Throw (TypeError (ReadOfNullish Undefined "toFixed"))
  | VNull => Throw (TypeError (ReadOfNullish Null "toFixed"))
  | _ => Throw (TypeError (NotAFunction "toFixed"))
  end.

(** [s.replace(/\n/g, '<br>')] on a string. *)
Fixpoint replace_newlines (s : string) : string :=
  match s with
  | EmptyString => EmptyString
  | String c rest =>
      if Ascii.eqb c (ascii_of_nat 10)
      then "<br>" ++ replace_newlines rest
      else String c (replace_newlines rest)
  end.

(** [v.replace(/\n/g, '<br>')] *)
Definition replace (v : value) : result string :=
  match v with
  | VStr s => Ok (replace_newlines s)
  | VUndefined => Throw (TypeError (ReadOfNullish Undefined "replace"))
  | VNull => Throw (TypeError (ReadOfNullish Null "replace"))
  | _ => Throw (TypeError (NotAFunction "replace"))
  end.

(** [a !== b] where [a] is a string. *)
Definition strict_differs (a : string) (b : value) : bool :=
  match b with
  | VStr s => negb (String.eqb a s)
  | _ => true
  end.

Definition is_number (v : value) : bool :=
  match v with VNum _ => true | _ => false end.

Definition is_nullish (v : value) : bool :=
  match v with VUndefined | VNull => true | _ => false end.

End Values.

Arguments Ok {E A} a.
Arguments Throw {E A} e.

Declare Scope result_scope.
Delimit Scope result_scope with result.
Notation "x <- e ;; k" := (bind e (fun x => k))
  (at level 100, e at next level, right associativity) : result_scope.

End Js.

Import Js.

(* ================================================================== *)
(** ** Effects: exceptions and the trace of outside interactions       *)
(* ================================================================== *)

Module Eff.

Section Trace.
Context {E : Engine}.

(** The options object handed to [transporter.sendMail]. *)
Record mail := Mail {
  from : string;
  to : value;
  subject : string;
  html : string
}.

Inductive level := log | error | warn.

(** One entry per interaction, oldest first.  A mail or gateway
    entry records the attempt together with how the awaited promise
    settled. *)
Inductive event :=
| Console (l : level) (text : string) (args : list (value + exn))
| SendMail (mailOptions : mail) (outcome : option exn)
| OrdersCreate (options : value) (outcome : result value).

Definition trace := list event.

Definition M (A : Type) : Type := trace -> result A * trace.

Definition ret {A} (a : A) : M A := fun t => (Ok a, t).

Definition throw {A} (e : exn) : M A := fun t => (Throw e, t).

Definition mbind {A B} (m : M A) (k : A -> M B) : M B :=
  fun t =>
    match m t with
    | (Ok a, t') => k a t'
    | (Throw e, t') => (Throw e, t')
    end.

(** [try { m } catch (e) { h e }] *)
Definition try_catch {A} (m : M A) (h : exn -> M A) : M A :=
  fun t =>
    match m t with
    | (Ok a, t') => (Ok a, t')
    | (Throw e, t') => h e t'
    end.

Definition pure {A} (r : result A) : M A := fun t => (r, t).

Definition emit (ev : event) : M unit := fun t => (Ok tt, (t ++ [ev])%list).

Definition console_log (text : string) (args : list (value + exn)) : M unit :=
  emit (Console log text args).

Definition console_error (text : string) (args : list (value + exn)) : M unit :=
  emit (Console error text args).

Definition console_warn (text : string) (args : list (value + exn)) : M unit :=
  emit (Console warn text args).

Definition run {A} (m : M A) : result A * trace := m [].

(** The mails handed to the transport, in the order of the calls. *)
Fixpoint mails_attempted (t : trace) : list mail :=
  match t with
  | [] => []
  | SendMail m _ :: rest => m :: mails_attempted rest
  | _ :: rest => mails_attempted rest
  end.

(** The mails whose send resolved. *)
Fixpoint mails_delivered (t : trace) : list mail :=
  match t with
  | [] => []
  | SendMail m None :: rest => m :: mails_delivered rest
  | _ :: rest => mails_delivered rest
  end.

(** The option objects handed to [razorpay.orders.create]. *)
Fixpoint orders_requested (t : trace) : list value :=
  match t with
  | [] => []
  | OrdersCreate o _ :: rest => o :: orders_requested rest
  | _ :: rest => orders_requested rest
  end.

End Trace.

Declare Scope eff_scope.
Delimit Scope eff_scope with eff.
Notation "x <- e ;; k" := (mbind e (fun x => k))
  (at level 100, e at next level, right associativity) : eff_scope.
Notation "e ;;; k" := (mbind e (fun _ => k))
  (at level 100, right associativity) : eff_scope.

End Eff.

Import Eff.

(* ================================================================== *)
(** ** The server                                                      *)
(* ================================================================== *)

Module Server.

(** [process.env], restricted to the variables the server reads. *)
Record environ := Environ {
  RAZORPAY_KEY_ID : option string;
  RAZORPAY_SECRET : option string;
  EMAIL_USER : option string;
  EMAIL_PASSWORD : option string;
  PORT : option string
}.

(** [!process.env.X]: the variable is unset or empty. *)
Definition missing (x : option string) : bool :=
  match x with
  | None => true
  | Some s => String.eqb s ""
  end.

Definition dq : string := String (ascii_of_nat 34) EmptyString.
Definition nl : string := String (ascii_of_nat 10) EmptyString.

(** An HTML attribute [style=...] with its value between double quotes. *)
Definition style (css : string) : string := "style=" ++ dq ++ css ++ dq.

(** The lines of a multi-line template literal, joined by newlines. *)
Fixpoint lines (ls : list string) : string :=
  match ls with
  | [] => ""
  | [l] => l
  | l :: rest => l ++ nl ++ lines rest
  end.

Fixpoint join (ls : list string) : string :=
  match ls with
  | [] => ""
  | l :: rest => l ++ join rest
  end.

Section Templates.
Context {E : Engine}.
Local Open Scope result_scope.

Definition env_value (x : option string) : value :=
  match x with
  | Some s => VStr s
  | None => VUndefined
  end.

Fixpoint map_result {A B} (f : A -> result B) (l : list A) : result (list B) :=
  match l with
  | [] => Ok []
  | a :: rest =>
      b <- f a ;;
      bs <- map_result f rest ;;
      Ok (b :: bs)
  end.

(** One [<li>] of the cart, lines 131-136. *)
Definition item_html (item : value) : result string :=
  title <- Get item "title" ;;
  label <- (if ToBoolean title then Ok title else Get item "name") ;;
  label <- ToString label ;;
  price <- Get item "price" ;;
  price <- ToString price ;;
  quantity <- Get item "quantity" ;;
  times <- (if ToBoolean quantity
            then (q <- ToString quantity ;; Ok ("x " ++ q))
            else Ok "") ;;
  Ok (lines [
    "";
    "            <li>";
    "              <strong>" ++ label ++ "</strong> - ";
    "              ₹" ++ price ++ " " ++ times;
    "            </li>";
    "          " ]).

Definition items_block (items : string) : string :=
  lines [
    "";
    "        <h3 " ++ style "margin-top: 20px; color: #8e44ad;" ++ ">Items Purchased:</h3>";
    "        <ul " ++ style "padding-left: 20px;" ++ ">";
    "          " ++ items;
    "        </ul>";
    "      " ].

(** Lines 126-139. *)
Definition cartItemsHtml (cartItems : value) : result string :=
  if ToBoolean cartItems then
    nonempty <- length_greater_than_zero cartItems ;;
    if (nonempty : bool) then
      match cartItems with
      | VArr items =>
          lis <- map_result item_html items ;;
          Ok (items_block (join lis))
      | _ => Throw (TypeError (NotAFunction "map"))
      end
    else Ok ""
  else Ok "".

Definition booking_confirmation_html
           (fullName amount razorpayPaymentId cartItemsHtml : string) : string :=
  lines [
    "";
    "        <div " ++ style "font-family: Arial, sans-serif; max-width: 600px; margin: 0 auto; padding: 20px;" ++ ">";
    "          <h2 " ++ style "color: #8e44ad;" ++ ">Thank you for your booking!</h2>";
    "          <p>Dear " ++ fullName ++ ",</p>";
    "          <p>We are pleased to confirm your booking with Mrs. Shereen Life Coaching.</p>";
    "          <div " ++ style "background-color: #f8f4ff; padding: 15px; border-radius: 5px; margin: 20px 0;" ++ ">";
    "            <h3 " ++ style "margin-top: 0; color: #8e44ad;" ++ ">Booking Details:</h3>";
    "            <p><strong>Amount Paid:</strong> ₹" ++ amount ++ "</p>";
    "            <p><strong>Transaction ID:</strong> " ++ razorpayPaymentId ++ "</p>";
    "            " ++ cartItemsHtml;
    "          </div>";
    "          <p>Mrs. Shereen will contact you within 24 hours on your provided phone number to schedule your session.</p>";
    "          <p>Warm regards,<br>The Mrs. Shereen Life Coaching Team</p>";
    "        </div>";
    "      " ].

Definition booking_alert_html
           (fullName email phone amount razorpayPaymentId cartItemsHtml : string) : string :=
  lines [
    "";
    "        <div " ++ style "font-family: Arial, sans-serif; max-width: 600px; margin: 0 auto; padding: 20px;" ++ ">";
    "          <h2 " ++ style "color: #8e44ad;" ++ ">New Booking Received!</h2>";
    "          <div " ++ style "background-color: #f8f4ff; padding: 15px; border-radius: 5px; margin: 20px 0;" ++ ">";
    "            <p><strong>Name:</strong> " ++ fullName ++ "</p>";
    "            <p><strong>Email:</strong> " ++ email ++ "</p>";
    "            <p><strong>Phone:</strong> " ++ phone ++ "</p>";
    "            <p><strong>Amount Paid:</strong> ₹" ++ amount ++ "</p>";
    "            <p><strong>Transaction ID:</strong> " ++ razorpayPaymentId ++ "</p>";
    "            " ++ cartItemsHtml;
    "          </div>";
    "          <p>Please contact the customer within 24 hours to schedule their session.</p>";
    "        </div>";
    "      " ].

Definition contact_admin_html (name email subject message : string) : string :=
  lines [
    "";
    "        <div " ++ style "font-family: Arial, sans-serif; max-width: 600px; margin: 0 auto; padding: 20px;" ++ ">";
    "          <h2 " ++ style "color: #8e44ad;" ++ ">New Contact Form Submission</h2>";
    "          <div " ++ style "background-color: #f8f4ff; padding: 15px; border-radius: 5px; margin: 20px 0;" ++ ">";
    "            <p><strong>Name:</strong> " ++ name ++ "</p>";
    "            <p><strong>Email:</strong> " ++ email ++ "</p>";
    "            <p><strong>Subject:</strong> " ++ subject ++ "</p>";
    "            <p><strong>Message:</strong></p>";
    "            <div " ++ style "background-color: white; padding: 15px; border-radius: 5px;" ++ ">";
    "              " ++ message;
    "            </div>";
    "          </div>";
    "        </div>";
    "      " ].

Definition contact_user_html (name subject message : string) : string :=
  lines [
    "";
    "        <div " ++ style "font-family: Arial, sans-serif; max-width: 600px; margin: 0 auto; padding: 20px;" ++ ">";
    "          <h2 " ++ style "color: #8e44ad;" ++ ">Thank You for Your Message</h2>";
    "          <p>Dear " ++ name ++ ",</p>";
    "          <p>Thank you for reaching out to Mrs. Shereen Life Coaching. I have received your message and will get back to you shortly.</p>";
    "          <p>Here's a copy of your message:</p>";
    "          <div " ++ style "background-color: #f8f4ff; padding: 15px; border-radius: 5px; margin: 20px 0;" ++ ">";
    "            <p><strong>Subject:</strong> " ++ subject ++ "</p>";
    "            <p><strong>Message:</strong></p>";
    "            <div " ++ style "background-color: white; padding: 15px; border-radius: 5px;" ++ ">";
    "              " ++ message;
    "            </div>";
    "          </div>";
    "          <p>Warm regards,<br>Mrs. Shereen</p>";
    "        </div>";
    "      " ].

(** [`"who" <${process.env.EMAIL_USER}>`] *)
Definition sender (who : string) (env : environ) : result string :=
  user <- ToString (env_value (EMAIL_USER env)) ;;
  Ok (dq ++ who ++ dq ++ " <" ++ user ++ ">").

End Templates.

(** *** Module evaluation, lines 19-62 and the registrations after them *)

(** [import.meta.env], of which the server reads one variable. *)
Record meta_environ := MetaEnviron {
  VITE_BACKEND_URL : option string
}.

Inductive method := GET | POST.

Definition route : Type := method * string.

Section Startup.
Context {E : Engine}.
Local Open Scope eff_scope.

(** What the process finds when it starts: its environment, whether
    the host defines [import.meta.env] at all, whether the [build]
    directory exists next to the script, and how the framework settles
    the calls made during module evaluation.  [app_route] tells whether
    [app.get] or [app.post] throws on a path, [app_listen] whether
    [app.listen] throws on a port (as Node does, with a [RangeError],
    for a numeric port outside 0..65535); [None]: the call returned. *)
Record runtime := Runtime {
  process_env : environ;
  import_meta_env : option meta_environ;
  build_exists : bool;
  app_route : route -> option exn;
  app_listen : string + nat -> option exn
}.

Inductive startup_outcome :=
| Exited (code : nat)                                  (* [process.exit(code)] *)
| Uncaught (e : exn)                                   (* module evaluation threw *)
| Listening (port : string + nat) (routes : list route).

(** [process.env.PORT || 5000] *)
Definition listen_port (env : environ) : string + nat :=
  if missing (PORT env) then inr 5000
  else inl (match PORT env with Some s => s | None => "" end).

(** Lines 22-25. *)
Definition gateway_credentials_missing (env : environ) : bool :=
  missing (RAZORPAY_KEY_ID env) || missing (RAZORPAY_SECRET env).

(** Lines 28-30. *)
Definition mail_credentials_missing (env : environ) : bool :=
  missing (EMAIL_USER env) || missing (EMAIL_PASSWORD env).

Definition mail_warning : event :=
  Console error
    "⚠️ EMAIL_USER or EMAIL_PASSWORD is missing in .env, emails will not be sent" [].

(** [app.get(path, ...)] and [app.post(path, ...)] *)
Definition register (rt : runtime) (r : route) : M route :=
  fun t =>
    match app_route rt r with
    | None => (Ok r, t)
    | Some e => (Throw e, t)
    end.

(** [app.listen(PORT, ...)] *)
Definition listen (rt : runtime) (port : string + nat) : M unit :=
  fun t =>
    match app_listen rt port with
    | None => (Ok tt, t)
    | Some e => (Throw e, t)
    end.

(** [`${import.meta.env.VITE_BACKEND_URL}`] *)
Definition backend_url (rt : runtime) : M string :=
  pure (match import_meta_env rt with
        | None => Throw (TypeError (ReadOfNullish Undefined "VITE_BACKEND_URL"))
        | Some meta =>
            Ok (match VITE_BACKEND_URL meta with
                | Some url => url
                | None => "undefined"
                end)
        end).

(** Everything after the credential checks: the route registrations
    (three of them read [import.meta.env.VITE_BACKEND_URL]), the
    static fallback and [app.listen], in the order of the source; the
    first call that throws ends module evaluation.  The callbacks of
    [transporter.verify] and [app.listen] run later and are not part
    of module evaluation. *)
Definition register_and_listen (rt : runtime) : M (list route) :=
  key <- register rt (GET, "/api/razorpay-key") ;;
  base <- backend_url rt ;;
  create <- register rt (POST, base ++ "/api/create-order") ;;
  base <- backend_url rt ;;
  success <- register rt (POST, base ++ "/api/payment-success") ;;
  fallback <- (if build_exists rt
               then (any <- register rt (GET, "*") ;; ret [any])
               else (console_warn "⚠️  Build folder not found. React frontend not served." [] ;;;
                     ret [])) ;;
  base <- backend_url rt ;;
  contact <- register rt (POST, base ++ "/api/contact") ;;
  listen rt (listen_port (process_env rt)) ;;;
  ret (app [key; create; success] (app fallback [contact])).

Definition startup (rt : runtime) : startup_outcome * trace :=
  let env := process_env rt in
  if gateway_credentials_missing env then
    (Exited 1,
     [Console error "❌ RAZORPAY_KEY_ID or RAZORPAY_SECRET is missing in .env" []])
  else
    let warned := if mail_credentials_missing env then [mail_warning] else [] in
    match register_and_listen rt warned with
    | (Ok routes, t) => (Listening (listen_port env) routes, t)
    | (Throw e, t) => (Uncaught e, t)
    end.

End Startup.

Section Handlers.
Context {E : Engine}.

Record response := Response {
  status : nat;
  body : value
}.

(** The process environment, and the two outside services.  Each is
    an arbitrary function of what has happened so far and of what it
    is asked: [transport] tells how [transporter.sendMail] settles
    ([None]: resolved), [gateway] how [razorpay.orders.create] does. *)
Variable env : environ.
Variable transport : trace -> mail -> option exn.
Variable gateway : trace -> value -> result value.

(** [await transporter.sendMail(mailOptions)] *)
Definition sendMail (mailOptions : mail) : M unit :=
  fun t =>
    match transport t mailOptions with
    | None => (Ok tt, (t ++ [SendMail mailOptions None])%list)
    | Some e => (Throw e, (t ++ [SendMail mailOptions (Some e)])%list)
    end.

(** [await razorpay.orders.create(options)] *)
Definition orders_create (options : value) : M value :=
  fun t =>
    let outcome := gateway t options in
    (outcome, (t ++ [OrdersCreate options outcome])%list).

(** [res.json(v)] and [res.status(code).json(v)] *)
Definition json (v : value) : response := Response 200 v.
Definition status_json (code : nat) (v : value) : response := Response code v.

(** *** [GET /api/razorpay-key], lines 65-67 *)
Definition razorpay_key : M response :=
  ret (json (VObj [("key_id", env_value (RAZORPAY_KEY_ID env))])).

(** *** [POST /api/create-order], lines 70-95 *)

Definition order_options (amount currency receipt customerDetails : value)
  : result value :=
  (customerName <- Get customerDetails "fullName" ;;
   customerEmail <- Get customerDetails "email" ;;
   customerPhone <- Get customerDetails "phone" ;;
   Ok (VObj [ ("amount", amount);
              ("currency", currency);
              ("receipt", receipt);
              ("notes", VObj [ ("customerName", customerName);
                               ("customerEmail", customerEmail);
                               ("customerPhone", customerPhone) ]) ]))%result.

Local Open Scope eff_scope.

(** The [catch] block, lines 91-94. *)
Definition create_order_failed (error : exn) : M response :=
  console_error "❌ Order creation failed:" [inr error] ;;;
  ret (status_json 500
         (VObj [ ("error", VStr "Failed to create order");
                 ("details", message error) ])).

Definition create_order (req_body : value) : M response :=
  try_catch
    (amount <- pure (destructure req_body "amount") ;;
     currency <- pure (destructure req_body "currency") ;;
     receipt <- pure (destructure req_body "receipt") ;;
     customerDetails <- pure (destructure req_body "customerDetails") ;;
     cartItems <- pure (destructure req_body "cartItems") ;;
     console_log "📝 Creating order:"
       [inl (VObj [("amount", amount); ("currency", currency); ("receipt", receipt)])] ;;;
     options <- pure (order_options amount currency receipt customerDetails) ;;
     order <- orders_create options ;;
     id <- pure (Get order "id") ;;
     console_log "✅ Order created successfully:" [inl id] ;;;
     ret (json order))
    create_order_failed.

(** *** [POST /api/payment-success], lines 98-203 *)

(** Lines 115-118. *)
Definition generatedSignature (razorpayOrderId razorpayPaymentId : value)
  : result string :=
  match RAZORPAY_SECRET env with
  | None => Throw (TypeError InvalidKey)
  | Some secret =>
      (orderId <- ToString razorpayOrderId ;;
       paymentId <- ToString razorpayPaymentId ;;
       Ok (Crypto.createHmac_sha256_hex secret (orderId ++ "|" ++ paymentId)))%result
  end.

(** Lines 142-161. *)
Definition mailOptions
           (customerDetails amount razorpayPaymentId : value) (cartItemsHtml : string)
  : result mail :=
  (sender <- sender "Mrs. Shereen Life Coaching" env ;;
   to <- Get customerDetails "email" ;;
   fullName <- Get customerDetails "fullName" ;;
   fullName <- ToString fullName ;;
   amount <- toFixed amount 2 ;;
   razorpayPaymentId <- ToString razorpayPaymentId ;;
   Ok {| from := sender;
         to := to;
         subject := "Booking Confirmation - Mrs. Shereen Life Coaching";
         html := booking_confirmation_html fullName amount razorpayPaymentId
                   cartItemsHtml |})%result.

(** Lines 171-189. *)
Definition adminMailOptions
           (customerDetails amount razorpayPaymentId : value) (cartItemsHtml : string)
  : result mail :=
  (sender <- sender "Mrs. Shereen Booking System" env ;;
   fullName <- Get customerDetails "fullName" ;;
   fullName <- ToString fullName ;;
   email <- Get customerDetails "email" ;;
   email <- ToString email ;;
   phone <- Get customerDetails "phone" ;;
   phone <- ToString phone ;;
   amount <- toFixed amount 2 ;;
   razorpayPaymentId <- ToString razorpayPaymentId ;;
   Ok {| from := sender;
         to := env_value (EMAIL_USER env);
         subject := "New Booking Alert - Life Coaching";
         html := booking_alert_html fullName email phone amount razorpayPaymentId
                   cartItemsHtml |})%result.

(** Lines 125-198: what the handler does once the signature has been
    accepted. *)
Definition notify (customerDetails cartItems amount razorpayPaymentId : value)
  : M response :=
  cartItemsHtml <- pure (cartItemsHtml cartItems) ;;
  mailOptions <- pure (mailOptions customerDetails amount razorpayPaymentId
                         cartItemsHtml) ;;
  try_catch
    (sendMail mailOptions ;;;
     email <- pure (Get customerDetails "email") ;;
     console_log "✉️ Customer email sent to:" [inl email])
    (fun emailError =>
       console_error "❌ Failed to send customer email:" [inr emailError]) ;;;
  adminMailOptions <- pure (adminMailOptions customerDetails amount razorpayPaymentId
                              cartItemsHtml) ;;
  try_catch
    (sendMail adminMailOptions ;;;
     console_log "✉️ Admin notification email sent" [])
    (fun emailError =>
       console_error "❌ Failed to send admin email:" [inr emailError]) ;;;
  ret (json (VObj [("success", VBool true)])).

(** Lines 120-123. *)
Definition invalid_signature : M response :=
  console_error "❌ Invalid signature" [] ;;;
  ret (status_json 400
         (VObj [ ("success", VBool false);
                 ("message", VStr "Invalid signature") ])).

(** The [catch] block, lines 199-202. *)
Definition payment_success_failed (error : exn) : M response :=
  console_error "❌ Payment verification failed:" [inr error] ;;;
  ret (status_json 500
         (VObj [ ("success", VBool false);
                 ("error", VStr "Payment verification failed");
                 ("details", message error) ])).

Definition payment_success (req_body : value) : M response :=
  try_catch
    (razorpayPaymentId <- pure (destructure req_body "razorpayPaymentId") ;;
     razorpayOrderId <- pure (destructure req_body "razorpayOrderId") ;;
     razorpaySignature <- pure (destructure req_body "razorpaySignature") ;;
     customerDetails <- pure (destructure req_body "customerDetails") ;;
     cartItems <- pure (destructure req_body "cartItems") ;;
     amount <- pure (destructure req_body "amount") ;;
     console_log "💰 Payment success callback received:"
       [inl (VObj [("paymentId", razorpayPaymentId); ("orderId", razorpayOrderId)])] ;;;
     generatedSignature <- pure (generatedSignature razorpayOrderId razorpayPaymentId) ;;
     if strict_differs generatedSignature razorpaySignature
     then invalid_signature
     else notify customerDetails cartItems amount razorpayPaymentId)
    payment_success_failed.

(** *** [POST /api/contact], lines 218-281 *)

(** Lines 225-243. *)
Definition contactMailOptions (name email subject message : value) : result mail :=
  (sender <- sender "Contact Form" env ;;
   title <- ToString subject ;;
   name <- ToString name ;;
   email <- ToString email ;;
   subject <- ToString subject ;;
   message <- replace message ;;
   Ok {| from := sender;
         to := env_value (EMAIL_USER env);
         subject := "New Contact Form: " ++ title;
         html := contact_admin_html name email subject message |})%result.

(** Lines 246-266. *)
Definition userConfirmationOptions (name email subject message : value) : result mail :=
  (sender <- sender "Mrs. Shereen Life Coaching" env ;;
   name <- ToString name ;;
   subject <- ToString subject ;;
   message <- replace message ;;
   Ok {| from := sender;
         to := email;
         subject := "Thank You for Contacting Mrs. Shereen";
         html := contact_user_html name subject message |})%result.

(** The [catch] block, lines 277-280. *)
Definition contact_failed (error : exn) : M response :=
  console_error "❌ Failed to process contact form:" [inr error] ;;;
  ret (status_json 500
         (VObj [ ("success", VBool false);
                 ("message", VStr "Failed to send message");
                 ("details", message error) ])).

Definition contact (req_body : value) : M response :=
  try_catch
    (name <- pure (destructure req_body "name") ;;
     email <- pure (destructure req_body "email") ;;
     subject <- pure (destructure req_body "subject") ;;
     message <- pure (destructure req_body "message") ;;
     console_log "📝 Contact form submission received:"
       [inl (VObj [("name", name); ("email", email); ("subject", subject)])] ;;;
     contactMailOptions <- pure (contactMailOptions name email subject message) ;;
     userConfirmationOptions <-
       pure (userConfirmationOptions name email subject message) ;;
     sendMail contactMailOptions ;;;
     console_log "✉️ Contact form email sent to admin" [] ;;;
     sendMail userConfirmationOptions ;;;
     console_log "✉️ Confirmation email sent to user:" [inl email] ;;;
     ret (json (VObj [ ("success", VBool true);
                       ("message", VStr "Message sent successfully!") ])))
    contact_failed.

End Handlers.

End Server.

Import Server.

(* ================================================================== *)
(** ** A small engine for worked examples                              *)
(* ================================================================== *)

(** Numbers restricted to the integers (below 10^21, where [toFixed]
    still prints every digit), written in decimal; only strings of
    digits are read back as numbers.  The messages follow V8. *)
Module IntegerEngine.

Local Open Scope Z_scope.

Definition digit (d : Z) : string :=
  String (ascii_of_N (Z.to_N (48 + d))) EmptyString.

Fixpoint decimal_digits (fuel : nat) (n : Z) : string :=
  match fuel with
  | O => ""
  | S fuel' =>
      if n <? 10 then digit n
      else (decimal_digits fuel' (n / 10) ++ digit (n mod 10))%string
  end.

Definition decimal (z : Z) : string :=
  if z <? 0
  then ("-" ++ decimal_digits (Z.to_nat (- z)) (- z))%string
  else decimal_digits (S (Z.to_nat z)) z.

Fixpoint zeros (n : nat) : string :=
  match n with
  | O => ""
  | S n' => String "0" (zeros n')
  end.

Definition fixed (digits : nat) (z : Z) : string :=
  match digits with
  | O => decimal z
  | S _ => (decimal z ++ "." ++ zeros digits)%string
  end.

Fixpoint parse_digits (acc : Z) (s : string) : option Z :=
  match s with
  | EmptyString => Some acc
  | String c rest =>
      let d := Z.of_N (N_of_ascii c) - 48 in
      if (0 <=? d) && (d <=? 9) then parse_digits (10 * acc + d) rest else None
  end.

Definition where_of (base : nullish) : string :=
  match base with
  | Undefined => "undefined"
  | Null => "null"
  end.

(** The expression on which the server calls each method. *)
Definition receiver_of (prop : string) : string :=
  if String.eqb prop "toFixed" then "amount"
  else if String.eqb prop "map" then "cartItems"
  else "message".

Definition v8_message (e : type_error) : string :=
  match e with
  | ReadOfNullish base prop =>
      "Cannot read properties of " ++ where_of base ++ " (reading '" ++ prop ++ "')"
  | DestructureNullish base prop =>
      "Cannot destructure property '" ++ prop ++ "' of 'req.body' as it is "
        ++ where_of base ++ "."
  | NotAFunction prop => receiver_of prop ++ "." ++ prop ++ " is not a function"
  | NoPrimitive => "Cannot convert object to primitive value"
  | InvalidKey =>
      "The " ++ dq ++ "key" ++ dq ++ " argument must be of type string or an instance"
        ++ " of ArrayBuffer, Buffer, TypedArray, DataView, KeyObject, or CryptoKey."
        ++ " Received undefined"
  end%string.

#[export] Instance engine : Engine := {|
  number := Z;
  Number_toString := decimal;
  Number_toFixed := fixed;
  Number_isZero := Z.eqb 0;
  Number_isPositive := Z.ltb 0;
  StringToNumber := parse_digits 0;
  TypeError_message := v8_message
|}.

End IntegerEngine.

(* ================================================================== *)
(** ** Test vectors for the digest                                     *)
(* ================================================================== *)

Example sha256_empty :
  Crypto.sha256_hex "" = "e3b0c44298fc1c149afbf4c8996fb92427ae41e4649b934ca495991b7852b855".
Proof. vm_compute. reflexivity. Qed.

Example sha256_abc :
  Crypto.sha256_hex "abc" = "ba7816bf8f01cfea414140de5dae2223b00361a396177a9cb410ff61f20015ad".
Proof. vm_compute. reflexivity. Qed.

(** A message that fills exactly one block before padding. *)
Example sha256_one_block :
  Crypto.sha256_hex "yyyyyyyyyyyyyyyyyyyyyyyyyyyyyyyyyyyyyyyyyyyyyyyyyyyyyyyyyyyyyyyy"
  = "ffbf30ab94107b2c14d75cfb455ec94f200400ddc5ce304e0c21894090db055f".
Proof. vm_compute. reflexivity. Qed.

(** RFC 4231, test case 2. *)
Example hmac_rfc4231_case2 :
  Crypto.createHmac_sha256_hex "Jefe" "what do ya want for nothing?"
  = "5bdcc146bf60754e6a042426089575c75a003f089d2739839dec58b964ec3843".
Proof. vm_compute. reflexivity. Qed.

(** The digests are 64 hexadecimal characters whatever the key and data. *)
Lemma hex_length (bs : list Z) : String.length (Crypto.hex bs) = 2 * List.length bs.
Proof.
  induction bs as [|b bs IH]; simpl; [reflexivity|].
  rewrite IH. lia.
Qed.

Arguments Crypto.createHmac_sha256_hex : simpl never.
Arguments booking_confirmation_html : simpl never.
Arguments booking_alert_html : simpl never.
Arguments contact_admin_html : simpl never.
Arguments contact_user_html : simpl never.
Arguments items_block : simpl never.

(* ================================================================== *)
(** ** Text                                                            *)
(* ================================================================== *)

(** [s.startsWith(needle)] and [s.includes(needle)], on which the
    statements about the documents rest. *)
Fixpoint starts_with (needle s : string) : bool :=
  match needle, s with
  | EmptyString, _ => true
  | String _ _, EmptyString => false
  | String a needle', String b s' => Ascii.eqb a b && starts_with needle' s'
  end.

Fixpoint includes (needle s : string) : bool :=
  match s with
  | EmptyString => starts_with needle EmptyString
  | String _ rest => starts_with needle s || includes needle rest
  end.

Lemma string_app_assoc (a b c : string) : (a ++ b) ++ c = a ++ (b ++ c).
Proof. induction a as [|x a IH]; simpl; [reflexivity|]. now rewrite IH. Qed.

Lemma starts_with_app (needle rest : string) : starts_with needle (needle ++ rest) = true.
Proof.
  induction needle as [|a needle IH]; [reflexivity|].
  simpl. now rewrite Ascii.eqb_refl, IH.
Qed.

Lemma starts_with_longer (needle s rest : string) :
  starts_with needle s = true -> starts_with needle (s ++ rest) = true.
Proof.
  revert s. induction needle as [|a needle IH]; intros s; [reflexivity|].
  destruct s as [|b s]; simpl; [discriminate|].
  intros H. apply andb_true_iff in H. destruct H as [-> H]. now rewrite IH.
Qed.

Lemma includes_here (needle s : string) :
  starts_with needle s = true -> includes needle s = true.
Proof. destruct s; simpl; intros ->; reflexivity. Qed.

Lemma includes_after (needle before s : string) :
  includes needle s = true -> includes needle (before ++ s) = true.
Proof.
  intros H. induction before as [|a before IH]; simpl; [exact H|].
  rewrite IH. apply orb_true_r.
Qed.

Lemma includes_before (needle s rest : string) :
  includes needle s = true -> includes needle (s ++ rest) = true.
Proof.
  induction s as [|a s IH]; simpl.
  - intros H. apply includes_here. destruct needle; [reflexivity|discriminate].
  - intros H. apply orb_true_iff in H. destruct H as [H|H].
    + change (String a (s ++ rest)) with (String a s ++ rest).
      rewrite (starts_with_longer _ _ _ H). reflexivity.
    + rewrite (IH H). apply orb_true_r.
Qed.


(** A template cut around one of its lines. *)
Lemma lines_split (above : list string) (line : string) (below : list string) :
  above <> [] -> below <> [] ->
  lines (above ++ line :: below) = lines above ++ nl ++ line ++ nl ++ lines below.
Proof.
  intros Habove Hbelow.
  induction above as [|l above IH]; [contradiction|].
  destruct above as [|l' above].
  - cbn [app lines]. destruct below as [|b below]; [contradiction|].
    cbn [lines]. now rewrite ?string_app_assoc.
  - change (lines ((l :: l' :: above) ++ line :: below))
      with (l ++ nl ++ lines ((l' :: above) ++ line :: below)).
    rewrite IH by discriminate.
    change (lines (l :: l' :: above)) with (l ++ nl ++ lines (l' :: above)).
    now rewrite !string_app_assoc.
Qed.

(* ================================================================== *)
(** ** Properties of the handlers                                      *)
(* ================================================================== *)

Section Properties.
Context {E : Engine}.

(** The value a handler binds to [k] when it destructures the request
    body: [undefined] when the body has no such field. *)
Definition field (req_body : value) (k : string) : value :=
  match destructure req_body k with
  | Ok v => v
  | Throw _ => VUndefined
  end.

(** [v.k] as the handler reads it off the customer details:
    [undefined] when there is no such property. *)
Definition property (v : value) (k : string) : value :=
  match Get v k with
  | Ok x => x
  | Throw _ => VUndefined
  end.

Lemma destructure_field (req_body : value) (k : string) :
  is_nullish req_body = false ->
  destructure req_body k = Ok (field req_body k).
Proof.
  unfold field. destruct req_body; simpl; intros H; try discriminate; reflexivity.
Qed.

Lemma mails_attempted_app (t1 t2 : trace) :
  mails_attempted (t1 ++ t2)%list = (mails_attempted t1 ++ mails_attempted t2)%list.
Proof.
  induction t1 as [|ev t1 IH]; simpl; [reflexivity|].
  destruct ev; simpl; rewrite IH; reflexivity.
Qed.

Lemma mails_delivered_app (t1 t2 : trace) :
  mails_delivered (t1 ++ t2)%list = (mails_delivered t1 ++ mails_delivered t2)%list.
Proof.
  induction t1 as [|ev t1 IH]; simpl; [reflexivity|].
  destruct ev as [| m [e|] |]; simpl; rewrite IH; reflexivity.
Qed.

Lemma orders_requested_app (t1 t2 : trace) :
  orders_requested (t1 ++ t2)%list = (orders_requested t1 ++ orders_requested t2)%list.
Proof.
  induction t1 as [|ev t1 IH]; simpl; [reflexivity|].
  destruct ev; simpl; rewrite IH; reflexivity.
Qed.

Lemma strict_differs_false (a : string) (b : value) :
  strict_differs a b = false <-> b = VStr a.
Proof.
  destruct b; simpl; split; intros H; try discriminate.
  - apply negb_false_iff, String.eqb_eq in H. now subst.
  - injection H as ->. now rewrite String.eqb_refl.
Qed.

Lemma strict_differs_true (a : string) (b : value) :
  strict_differs a b = true <-> b <> VStr a.
Proof.
  rewrite <- not_false_iff_true, strict_differs_false. reflexivity.
Qed.

(** The sender line never fails to build: an unset [EMAIL_USER]
    prints as [undefined]. *)
Lemma sender_total (who : string) (env : environ) :
  exists line, sender who env = Ok line.
Proof.
  unfold sender. destruct (EMAIL_USER env); simpl; eexists; reflexivity.
Qed.

Section PaymentSuccess.
Variable env : environ.
Variable transport : trace -> mail -> option exn.

(** The first console line of the handler. *)
Definition callback_received (req_body : value) : event :=
  Console log "💰 Payment success callback received:"
    [inl (VObj [ ("paymentId", field req_body "razorpayPaymentId");
                 ("orderId", field req_body "razorpayOrderId") ])].

(** The digest the handler computes for a request, from the two
    identifiers it binds out of the body. *)
Definition computed_signature (req_body : value) : result string :=
  (razorpayPaymentId <- destructure req_body "razorpayPaymentId" ;;
   razorpayOrderId <- destructure req_body "razorpayOrderId" ;;
   generatedSignature env razorpayOrderId razorpayPaymentId)%result.

Lemma computed_signature_body (req_body : value) (expected : string) :
  computed_signature req_body = Ok expected ->
  is_nullish req_body = false.
Proof.
  destruct req_body; simpl; try reflexivity; discriminate.
Qed.

Lemma computed_signature_fields (req_body : value) :
  is_nullish req_body = false ->
  computed_signature req_body =
  generatedSignature env (field req_body "razorpayOrderId")
                         (field req_body "razorpayPaymentId").
Proof.
  intros Hbody. unfold computed_signature.
  rewrite !(destructure_field _ _ Hbody). reflexivity.
Qed.

(** The trace when the catch block is entered before the signature
    was computed: destructuring threw, or the digest did. *)
Definition before_check (req_body : value) : trace :=
  if is_nullish req_body then [] else [callback_received req_body].

(** The handler, split at the signature check. *)
Lemma payment_success_run (req_body : value) :
  run (payment_success env transport req_body) =
  match computed_signature req_body with
  | Throw e => payment_success_failed e (before_check req_body)
  | Ok expected =>
      if strict_differs expected (field req_body "razorpaySignature")
      then invalid_signature [callback_received req_body]
      else try_catch
             (notify env transport
                     (field req_body "customerDetails")
                     (field req_body "cartItems")
                     (field req_body "amount")
                     (field req_body "razorpayPaymentId"))
             payment_success_failed
             [callback_received req_body]
  end.
Proof.
  destruct (is_nullish req_body) eqn:Hbody.
  - unfold before_check. rewrite Hbody.
    destruct req_body; try discriminate; reflexivity.
  - rewrite (computed_signature_fields _ Hbody).
    unfold before_check. rewrite Hbody.
    unfold run, payment_success, try_catch, mbind, pure.
    rewrite !(destructure_field _ _ Hbody).
    unfold console_log, emit, callback_received. simpl.
    destruct (generatedSignature _ _ _) as [expected|e]; [|reflexivity].
    destruct (strict_differs expected _); reflexivity.
Qed.

(** What the caller observes: the status of the response. *)
Definition responded (r : result response * trace) : option nat :=
  match fst r with
  | Ok resp => Some (status resp)
  | Throw _ => None
  end.

Definition invalid_signature_response : response :=
  status_json 400 (VObj [ ("success", VBool false);
                          ("message", VStr "Invalid signature") ]).

Definition failure_response (e : exn) : response :=
  status_json 500 (VObj [ ("success", VBool false);
                          ("error", VStr "Payment verification failed");
                          ("details", message e) ]).

(** What each of the two isolated [try] blocks of lines 163-196
    leaves in the trace, given the trace so far. *)
Definition customer_events (t : trace) (m : mail) : list event :=
  match transport t m with
  | None =>
      [ SendMail m None;
        Console log "✉️ Customer email sent to:" [inl (to m)] ]
  | Some e =>
      [ SendMail m (Some e);
        Console error "❌ Failed to send customer email:" [inr e] ]
  end.

Definition admin_events (t : trace) (m : mail) : list event :=
  match transport t m with
  | None =>
      [ SendMail m None;
        Console log "✉️ Admin notification email sent" [] ]
  | Some e =>
      [ SendMail m (Some e);
        Console error "❌ Failed to send admin email:" [inr e] ]
  end.

Definition success : response := json (VObj [("success", VBool true)]).

Lemma mailOptions_to (customerDetails amount paymentId : value) (c : string) (m : mail) :
  mailOptions env customerDetails amount paymentId c = Ok m ->
  Get customerDetails "email" = Ok (to m).
Proof.
  unfold mailOptions, Js.bind.
  destruct (sender _ env); [|discriminate].
  destruct (Get customerDetails "email"); [|discriminate].
  destruct (Get customerDetails "fullName"); [|discriminate].
  destruct (ToString _); [|discriminate].
  destruct (toFixed amount 2); [|discriminate].
  destruct (ToString paymentId); [|discriminate].
  intros [= <-]. reflexivity.
Qed.

(** The notification phase, split at each step that can throw. *)
Lemma notify_run (customerDetails cartItems amount paymentId : value) (t : trace) :
  notify env transport customerDetails cartItems amount paymentId t =
  match cartItemsHtml cartItems with
  | Throw e => (Throw e, t)
  | Ok c =>
      match mailOptions env customerDetails amount paymentId c with
      | Throw e => (Throw e, t)
      | Ok m1 =>
          let t1 := (t ++ customer_events t m1)%list in
          match adminMailOptions env customerDetails amount paymentId c with
          | Throw e => (Throw e, t1)
          | Ok m2 => (Ok success, (t1 ++ admin_events t1 m2)%list)
          end
      end
  end.
Proof.
  unfold notify, mbind, pure.
  destruct (cartItemsHtml cartItems) as [c|e]; [|reflexivity].
  destruct (mailOptions env customerDetails amount paymentId c) as [m1|e] eqn:Hm1;
    [|reflexivity].
  apply mailOptions_to in Hm1.
  assert (Hcustomer :
    try_catch
      (fun t0 =>
         match sendMail transport m1 t0 with
         | (Ok _, t') =>
             match Get customerDetails "email" with
             | Ok email => console_log "✉️ Customer email sent to:" [inl email] t'
             | Throw e => (Throw e, t')
             end
         | (Throw e, t') => (Throw e, t')
         end)
      (fun emailError =>
         console_error "❌ Failed to send customer email:" [inr emailError]) t
    = (Ok tt, (t ++ customer_events t m1)%list)).
  { unfold try_catch, sendMail, customer_events, console_log, console_error, emit.
    rewrite Hm1.
    destruct (transport t m1); rewrite <- app_assoc; reflexivity. }
  rewrite Hcustomer. clear Hcustomer.
  destruct (adminMailOptions env customerDetails amount paymentId c) as [m2|e];
    [|reflexivity].
  unfold try_catch, sendMail, admin_events, console_log, console_error, emit, ret.
  destruct (transport _ m2); rewrite <- app_assoc; reflexivity.
Qed.

(** Once the signature is accepted the response is [200] or [500],
    never the [400] of a rejection. *)
Lemma after_check_response (customerDetails cartItems amount paymentId : value)
      (t : trace) :
  let r := try_catch (notify env transport customerDetails cartItems amount paymentId)
                     payment_success_failed t in
  fst r = Ok success \/ exists e, fst r = Ok (failure_response e).
Proof.
  unfold try_catch. rewrite notify_run.
  destruct (cartItemsHtml cartItems) as [c|e]; [|right; exists e; reflexivity].
  destruct (mailOptions _ _ _ _ _) as [m1|e]; [|right; exists e; reflexivity].
  cbv zeta.
  destruct (adminMailOptions _ _ _ _ _) as [m2|e]; [|right; exists e; reflexivity].
  left. reflexivity.
Qed.

Lemma after_check_not_400 (customerDetails cartItems amount paymentId : value)
      (t : trace) :
  responded (try_catch (notify env transport customerDetails cartItems amount paymentId)
                       payment_success_failed t) <> Some 400.
Proof.
  unfold responded.
  destruct (after_check_response customerDetails cartItems amount paymentId t)
    as [H|[e H]]; rewrite H; discriminate.
Qed.

(** C1.  The expected signature is the hexadecimal HMAC-SHA256, keyed
    by the configured secret, of the order id, a pipe and the payment
    id in that order.  The request is rejected with status 400
    unless the supplied signature is that very string: with it the
    handler goes on to the notification phase, with any other value
    (one character off is enough) it answers "Invalid signature". *)
Theorem signature_is_hmac_of_order_pipe_payment
        (secret orderId paymentId : string) (req_body : value) :
  RAZORPAY_SECRET env = Some secret ->
  field req_body "razorpayOrderId" = VStr orderId ->
  field req_body "razorpayPaymentId" = VStr paymentId ->
  let expected :=
    Crypto.hex (Crypto.hmac_sha256 (Crypto.bytes_of_string secret)
                  (Crypto.bytes_of_string (orderId ++ "|" ++ paymentId))) in
  let r := run (payment_success env transport req_body) in
  computed_signature req_body = Ok expected
  /\ (responded r <> Some 400 <-> field req_body "razorpaySignature" = VStr expected)
  /\ (field req_body "razorpaySignature" = VStr expected ->
      r = try_catch (notify env transport (field req_body "customerDetails")
                            (field req_body "cartItems") (field req_body "amount")
                            (VStr paymentId))
                    payment_success_failed [callback_received req_body])
  /\ (forall supplied : string,
         field req_body "razorpaySignature" = VStr supplied ->
         supplied <> expected ->
         r = (Ok invalid_signature_response,
              [callback_received req_body; Console error "❌ Invalid signature" []])).
Proof.
  intros Hsecret Horder Hpayment expected r.
  assert (Hbody : is_nullish req_body = false).
  { destruct req_body; try reflexivity; discriminate. }
  assert (Hsig : computed_signature req_body = Ok expected).
  { rewrite (computed_signature_fields _ Hbody), Horder, Hpayment.
    unfold generatedSignature. rewrite Hsecret. reflexivity. }
  assert (Hrun := payment_success_run req_body).
  fold r in Hrun. rewrite Hsig, Hpayment in Hrun.
  split; [exact Hsig|].
  destruct (strict_differs expected (field req_body "razorpaySignature")) eqn:Hcmp.
  - apply strict_differs_true in Hcmp.
    repeat split.
    + intros H. exfalso. apply H. rewrite Hrun. reflexivity.
    + intros H. contradiction.
    + intros H. contradiction.
    + intros supplied Hsupplied Hneq. exact Hrun.
  - apply strict_differs_false in Hcmp.
    repeat split.
    + intros _. exact Hcmp.
    + intros _. rewrite Hrun. apply after_check_not_400.
    + intros _. exact Hrun.
    + intros supplied Hsupplied Hneq. exfalso.
      rewrite Hsupplied in Hcmp. injection Hcmp as ->. now apply Hneq.
Qed.

(** C2.  When the supplied signature is not the computed digest the
    response is 400 with [{success: false, message: "Invalid
    signature"}] and [sendMail] is never called. *)
Theorem mismatched_signature_is_rejected_without_mail
        (req_body : value) (expected : string) :
  computed_signature req_body = Ok expected ->
  field req_body "razorpaySignature" <> VStr expected ->
  let r := run (payment_success env transport req_body) in
  fst r = Ok (Response 400 (VObj [ ("success", VBool false);
                                   ("message", VStr "Invalid signature") ]))
  /\ mails_attempted (snd r) = [].
Proof.
  intros Hsig Hneq r. subst r.
  rewrite payment_success_run, Hsig.
  apply strict_differs_true in Hneq. rewrite Hneq.
  split; reflexivity.
Qed.

(** What building the customer's option object requires, and a
    condition under which both objects are built: customer details
    whose three properties are strings (or absent), and a numeric
    amount. *)
Lemma mailOptions_requires (customerDetails amount paymentId : value) (c : string)
      (m : mail) :
  mailOptions env customerDetails amount paymentId c = Ok m ->
  is_nullish customerDetails = false /\ is_number amount = true.
Proof.
  unfold mailOptions. destruct (sender_total "Mrs. Shereen Life Coaching" env) as [line ->].
  unfold Js.bind.
  destruct (Get customerDetails "email") eqn:Hemail; [|discriminate].
  destruct (Get customerDetails "fullName"); [|discriminate].
  destruct (ToString _); [|discriminate].
  destruct (toFixed amount 2) eqn:Hfixed; [|discriminate].
  intros _. split.
  - destruct customerDetails; try reflexivity; discriminate.
  - destruct amount; try reflexivity; discriminate.
Qed.

Definition printable (v : value) : bool :=
  match v with
  | VArr _ | VObj _ => false
  | _ => true
  end.

Lemma ToString_printable (v : value) :
  printable v = true -> exists s, ToString v = Ok s.
Proof.
  destruct v; simpl; intros H; try discriminate; eexists; reflexivity.
Qed.

Lemma well_formed_payment_builds (fields : list (string * value)) (n : number)
      (paymentId : value) (c : string) :
  printable (property (VObj fields) "fullName") = true ->
  printable (property (VObj fields) "email") = true ->
  printable (property (VObj fields) "phone") = true ->
  printable paymentId = true ->
  exists m1 m2,
    mailOptions env (VObj fields) (VNum n) paymentId c = Ok m1
    /\ adminMailOptions env (VObj fields) (VNum n) paymentId c = Ok m2.
Proof.
  intros Hname Hemail Hphone Hid.
  destruct (ToString_printable _ Hname) as [name Hn].
  destruct (ToString_printable _ Hemail) as [email He].
  destruct (ToString_printable _ Hphone) as [phone Hp].
  destruct (ToString_printable _ Hid) as [id Hi].
  unfold mailOptions, adminMailOptions.
  destruct (sender_total "Mrs. Shereen Life Coaching" env) as [line1 ->].
  destruct (sender_total "Mrs. Shereen Booking System" env) as [line2 ->].
  unfold property in Hn, He, Hp. simpl in Hn, He, Hp |- *.
  rewrite Hn, He, Hp, Hi. simpl. eexists. eexists. split; reflexivity.
Qed.

(** An accepted request whose two option objects can be built: both
    are handed to the transport, in this order, and the answer is the
    success response, whatever the transport says. *)
Lemma accepted_run (req_body : value) (expected c : string) (m1 m2 : mail) :
  computed_signature req_body = Ok expected ->
  field req_body "razorpaySignature" = VStr expected ->
  cartItemsHtml (field req_body "cartItems") = Ok c ->
  mailOptions env (field req_body "customerDetails") (field req_body "amount")
              (field req_body "razorpayPaymentId") c = Ok m1 ->
  adminMailOptions env (field req_body "customerDetails") (field req_body "amount")
                   (field req_body "razorpayPaymentId") c = Ok m2 ->
  fst (run (payment_success env transport req_body)) = Ok success
  /\ mails_attempted (snd (run (payment_success env transport req_body))) = [m1; m2].
Proof.
  intros Hsig Hsupplied Hcart Hm1 Hm2.
  rewrite payment_success_run, Hsig.
  apply strict_differs_false in Hsupplied. rewrite Hsupplied.
  unfold try_catch. rewrite notify_run, Hcart, Hm1, Hm2. cbv zeta.
  split; [reflexivity|]. cbn [snd].
  rewrite !mails_attempted_app. unfold customer_events, admin_events.
  destruct (transport _ m1); destruct (transport _ m2); reflexivity.
Qed.

(** C3, as amended.  When the signature matches and the cart block and
    the two option objects can be built (no exception while formatting
    them), the response is 200 with [{success: true}] whatever the
    transport does with either mail, and both sends are attempted, the
    customer's first: a failed send stops neither the other send nor
    the response. *)
Theorem accepted_payment_succeeds_whatever_the_transport_does
        (req_body : value) (expected c : string) (m1 m2 : mail) :
  computed_signature req_body = Ok expected ->
  field req_body "razorpaySignature" = VStr expected ->
  cartItemsHtml (field req_body "cartItems") = Ok c ->
  mailOptions env (field req_body "customerDetails") (field req_body "amount")
              (field req_body "razorpayPaymentId") c = Ok m1 ->
  adminMailOptions env (field req_body "customerDetails") (field req_body "amount")
                   (field req_body "razorpayPaymentId") c = Ok m2 ->
  let r := run (payment_success env transport req_body) in
  fst r = Ok (Response 200 (VObj [("success", VBool true)]))
  /\ mails_attempted (snd r) = [m1; m2]
  /\ (forall m, In m (mails_delivered (snd r)) -> m = m1 \/ m = m2).
Proof.
  intros Hsig Hsupplied Hcart Hm1 Hm2 r. subst r.
  destruct (accepted_run _ _ _ _ _ Hsig Hsupplied Hcart Hm1 Hm2) as [Hresponse Hmails].
  split; [exact Hresponse|]. split; [exact Hmails|].
  intros m Hin.
  assert (Hsub : forall t, In m (mails_delivered t) -> In m (mails_attempted t)).
  { induction t as [|ev t IH]; [intros []|].
    destruct ev as [| m' [e|] |]; simpl; auto.
    intros [->|H]; auto. }
  apply Hsub in Hin. rewrite Hmails in Hin.
  destruct Hin as [<-|[<-|[]]]; auto.
Qed.

(** The condition of the theorem above is exactly what the success
    response takes: an accepted request is answered with it if and only
    if the block and the two option objects can be built. *)
Lemma accepted_success_iff_built (req_body : value) (expected : string) :
  computed_signature req_body = Ok expected ->
  field req_body "razorpaySignature" = VStr expected ->
  fst (run (payment_success env transport req_body)) = Ok success
  <-> exists c m1 m2,
        cartItemsHtml (field req_body "cartItems") = Ok c
        /\ mailOptions env (field req_body "customerDetails") (field req_body "amount")
                       (field req_body "razorpayPaymentId") c = Ok m1
        /\ adminMailOptions env (field req_body "customerDetails")
                            (field req_body "amount")
                            (field req_body "razorpayPaymentId") c = Ok m2.
Proof.
  intros Hsig Hsupplied. split.
  - rewrite payment_success_run, Hsig.
    apply strict_differs_false in Hsupplied. rewrite Hsupplied.
    unfold try_catch. rewrite notify_run.
    destruct (cartItemsHtml _) as [c|e] eqn:Hc; [|discriminate].
    destruct (mailOptions _ _ _ _ _) as [m1|e] eqn:Hm1; [|discriminate].
    cbv zeta.
    destruct (adminMailOptions _ _ _ _ _) as [m2|e] eqn:Hm2; [|discriminate].
    intros _. exists c, m1, m2. auto.
  - intros (c & m1 & m2 & Hc & Hm1 & Hm2).
    exact (proj1 (accepted_run _ _ _ _ _ Hsig Hsupplied Hc Hm1 Hm2)).
Qed.

Lemma toFixed_of_non_number (amount : value) (digits : nat) :
  is_number amount = false ->
  exists te, toFixed amount digits = Throw (TypeError te).
Proof.
  destruct amount; simpl; intros H; try discriminate; eexists; reflexivity.
Qed.

(** C9.  With a matching signature and an [amount] that is not a
    number, [amount.toFixed(2)] throws a [TypeError], so the
    customer's option object is never built: no mail is handed to
    the transport and the response is 500 with [success: false].
    When the steps before the formatting succeed the reported error
    is that [TypeError]. *)
Theorem non_numeric_amount_fails_before_any_mail
        (req_body : value) (expected : string) :
  computed_signature req_body = Ok expected ->
  field req_body "razorpaySignature" = VStr expected ->
  is_number (field req_body "amount") = false ->
  let r := run (payment_success env transport req_body) in
  exists te,
    toFixed (field req_body "amount") 2 = Throw (TypeError te)
    /\ mails_attempted (snd r) = []
    /\ (exists e,
           fst r = Ok (Response 500
                         (VObj [ ("success", VBool false);
                                 ("error", VStr "Payment verification failed");
                                 ("details", message e) ])))
    /\ (forall (c : string) (to fullName : value) (name : string),
           cartItemsHtml (field req_body "cartItems") = Ok c ->
           Get (field req_body "customerDetails") "email" = Ok to ->
           Get (field req_body "customerDetails") "fullName" = Ok fullName ->
           ToString fullName = Ok name ->
           fst r = Ok (Response 500
                         (VObj [ ("success", VBool false);
                                 ("error", VStr "Payment verification failed");
                                 ("details", message (TypeError te)) ]))).
Proof.
  intros Hsig Hsupplied Hamount r.
  destruct (toFixed_of_non_number _ 2 Hamount) as [te Hfixed].
  exists te. split; [exact Hfixed|].
  assert (Hbuild : forall c,
             exists e,
               mailOptions env (field req_body "customerDetails")
                           (field req_body "amount")
                           (field req_body "razorpayPaymentId") c = Throw e
               /\ (forall to fullName name,
                      Get (field req_body "customerDetails") "email" = Ok to ->
                      Get (field req_body "customerDetails") "fullName" = Ok fullName ->
                      ToString fullName = Ok name ->
                      e = TypeError te)).
  { intros c. unfold mailOptions.
    destruct (sender_total "Mrs. Shereen Life Coaching" env) as [line ->].
    unfold Js.bind.
    destruct (Get _ "email") as [to|e];
      [|exists e; split; [reflexivity|discriminate]].
    destruct (Get _ "fullName") as [fullName|e];
      [|exists e; split; [reflexivity|discriminate]].
    destruct (ToString fullName) as [name|e] eqn:Hname.
    - rewrite Hfixed. exists (TypeError te). split; reflexivity.
    - exists e. split; [reflexivity|].
      intros ? ? ? _ [= <-] H. rewrite Hname in H. discriminate. }
  subst r. rewrite payment_success_run, Hsig.
  apply strict_differs_false in Hsupplied. rewrite Hsupplied.
  unfold try_catch. rewrite notify_run.
  destruct (cartItemsHtml _) as [c|e].
  - destruct (Hbuild c) as [e [-> He]].
    repeat split.
    + exists e. reflexivity.
    + intros c' to fullName name [= <-] Hto Hfull Hname.
      rewrite (He _ _ _ Hto Hfull Hname). reflexivity.
  - repeat split.
    + exists e. reflexivity.
    + discriminate.
Qed.

End PaymentSuccess.

(** What the signature check decides for a request: [Ok true] to
    accept, [Ok false] to reject; it throws when no digest can be
    computed. *)
Definition signature_check (env : environ) (req_body : value) : result bool :=
  (expected <- computed_signature env req_body ;;
   Ok (negb (strict_differs expected (field req_body "razorpaySignature"))))%result.

Lemma rejected_iff_check_fails (env : environ) (transport : trace -> mail -> option exn)
      (req_body : value) :
  responded (run (payment_success env transport req_body)) = Some 400
  <-> signature_check env req_body = Ok false.
Proof.
  rewrite payment_success_run. unfold signature_check, Js.bind.
  destruct (computed_signature env req_body) as [expected|e].
  - destruct (strict_differs expected _); simpl.
    + split; reflexivity.
    + split; [|discriminate].
      intros H. exfalso. revert H. apply after_check_not_400.
  - split; discriminate.
Qed.

(** C5.  Two requests from which the handler reads the same order id,
    payment id and signature get the same decision, whatever their
    amount, cart and customer details (and whatever the transport
    does): the amount and the cart are not covered by the check. *)
Theorem signature_decision_ignores_amount_and_cart
        (env : environ) (transport1 transport2 : trace -> mail -> option exn)
        (req_body1 req_body2 : value) :
  destructure req_body1 "razorpayOrderId" = destructure req_body2 "razorpayOrderId" ->
  destructure req_body1 "razorpayPaymentId" = destructure req_body2 "razorpayPaymentId" ->
  destructure req_body1 "razorpaySignature" = destructure req_body2 "razorpaySignature" ->
  signature_check env req_body1 = signature_check env req_body2
  /\ (responded (run (payment_success env transport1 req_body1)) = Some 400
      <-> responded (run (payment_success env transport2 req_body2)) = Some 400).
Proof.
  intros Horder Hpayment Hsupplied.
  assert (Hcheck : signature_check env req_body1 = signature_check env req_body2).
  { unfold signature_check, computed_signature, field.
    rewrite Horder, Hpayment, Hsupplied. reflexivity. }
  split; [exact Hcheck|].
  rewrite !rejected_iff_check_fails, Hcheck. reflexivity.
Qed.

Section CartBlock.
Variable env : environ.
Variable transport : trace -> mail -> option exn.




Lemma customer_events_mails (t : trace) (m : mail) :
  mails_attempted (customer_events transport t m) = [m].
Proof. unfold customer_events. destruct (transport t m); reflexivity. Qed.

Lemma admin_events_mails (t : trace) (m : mail) :
  mails_attempted (admin_events transport t m) = [m].
Proof. unfold admin_events. destruct (transport t m); reflexivity. Qed.

Lemma before_check_mails (req_body : value) :
  mails_attempted (before_check req_body) = [].
Proof. unfold before_check. destruct (is_nullish req_body); reflexivity. Qed.

Lemma payment_success_failed_mails (e : exn) (t : trace) :
  mails_attempted (snd (payment_success_failed e t)) = mails_attempted t.
Proof.
  unfold payment_success_failed, mbind, console_error, emit, ret. cbn [snd].
  rewrite mails_attempted_app. simpl. apply app_nil_r.
Qed.

(** Every mail the handler hands to the transport is one of the two
    it built after accepting the signature, around the same block. *)
Lemma payment_success_mails (req_body : value) (m : mail) :
  In m (mails_attempted (snd (run (payment_success env transport req_body)))) ->
  exists expected block,
    computed_signature env req_body = Ok expected
    /\ field req_body "razorpaySignature" = VStr expected
    /\ cartItemsHtml (field req_body "cartItems") = Ok block
    /\ (mailOptions env (field req_body "customerDetails") (field req_body "amount")
                    (field req_body "razorpayPaymentId") block = Ok m
        \/ adminMailOptions env (field req_body "customerDetails")
                            (field req_body "amount")
                            (field req_body "razorpayPaymentId") block = Ok m).
Proof.
  rewrite payment_success_run.
  destruct (computed_signature env req_body) as [expected|e].
  2:{ rewrite payment_success_failed_mails, before_check_mails. intros []. }
  destruct (strict_differs expected _) eqn:Hcmp; [intros []|].
  apply strict_differs_false in Hcmp.
  unfold try_catch. rewrite notify_run.
  destruct (cartItemsHtml _) as [block|e].
  2:{ rewrite payment_success_failed_mails. intros []. }
  destruct (mailOptions _ _ _ _ _) as [m1|e] eqn:Hm1.
  2:{ rewrite payment_success_failed_mails. intros []. }
  cbv zeta.
  destruct (adminMailOptions _ _ _ _ _) as [m2|e] eqn:Hm2.
  - cbn [snd]. rewrite !mails_attempted_app, customer_events_mails, admin_events_mails.
    simpl. intros [<- | [<- | []]]; exists expected, block; auto.
  - rewrite payment_success_failed_mails, mails_attempted_app, customer_events_mails.
    simpl. intros [<- | []]. exists expected, block; auto.
Qed.



















End CartBlock.

Section CreateOrder.
Variable gateway : trace -> value -> result value.

(** The options object of lines 77-86, for a given request body. *)
Definition forwarded_options (req_body : value) : value :=
  VObj [ ("amount", field req_body "amount");
         ("currency", field req_body "currency");
         ("receipt", field req_body "receipt");
         ("notes",
          VObj [ ("customerName", property (field req_body "customerDetails") "fullName");
                 ("customerEmail", property (field req_body "customerDetails") "email");
                 ("customerPhone", property (field req_body "customerDetails") "phone")
               ]) ].

Definition creating_order (req_body : value) : event :=
  Console log "📝 Creating order:"
    [inl (VObj [ ("amount", field req_body "amount");
                 ("currency", field req_body "currency");
                 ("receipt", field req_body "receipt") ])].

Lemma order_options_cases (req_body : value) :
  order_options (field req_body "amount") (field req_body "currency")
                (field req_body "receipt") (field req_body "customerDetails")
  = if is_nullish (field req_body "customerDetails")
    then Throw (TypeError
                  (ReadOfNullish
                     (match field req_body "customerDetails" with
                      | VNull => Null
                      | _ => Undefined
                      end) "fullName"))
    else Ok (forwarded_options req_body).
Proof.
  unfold order_options, forwarded_options, property.
  destruct (field req_body "customerDetails"); reflexivity.
Qed.

(** The handler, split at each step that can throw. *)
Lemma create_order_run (req_body : value) :
  is_nullish req_body = false ->
  run (create_order gateway req_body) =
  let t0 := [creating_order req_body] in
  match order_options (field req_body "amount") (field req_body "currency")
                      (field req_body "receipt") (field req_body "customerDetails") with
  | Throw e => create_order_failed e t0
  | Ok options =>
      let t1 := (t0 ++ [OrdersCreate options (gateway t0 options)])%list in
      match gateway t0 options with
      | Throw e => create_order_failed e t1
      | Ok order =>
          match Get order "id" with
          | Throw e => create_order_failed e t1
          | Ok id =>
              (Ok (json order),
               (t1 ++ [Console log "✅ Order created successfully:" [inl id]])%list)
          end
      end
  end.
Proof.
  intros Hbody.
  unfold run, create_order, try_catch, mbind, pure.
  rewrite !(destructure_field _ _ Hbody).
  unfold console_log, emit, creating_order. simpl.
  destruct (order_options _ _ _ _) as [options|e]; [|reflexivity].
  unfold orders_create.
  destruct (gateway _ options) as [order|e]; [|reflexivity].
  destruct (Get order "id") as [id|e]; reflexivity.
Qed.

Lemma create_order_failed_orders (e : exn) (t : trace) :
  snd (create_order_failed e t)
  = (t ++ [Console error "❌ Order creation failed:" [inr e]])%list.
Proof. reflexivity. Qed.





(** The gateway is called exactly when the body is there and carries
    customer details. *)
Lemma create_order_calls_iff (req_body : value) :
  orders_requested (snd (run (create_order gateway req_body))) <> []
  <-> is_nullish req_body = false
      /\ is_nullish (field req_body "customerDetails") = false.
Proof.
  destruct (is_nullish req_body) eqn:Hbody.
  { split; [|intros [H _]; discriminate].
    intros H. exfalso. apply H. destruct req_body; try discriminate; reflexivity. }
  rewrite (create_order_run _ Hbody), order_options_cases. cbv zeta.
  destruct (is_nullish (field req_body "customerDetails")).
  { rewrite create_order_failed_orders. simpl. split; [intros H; now exfalso|].
    intros [_ H]. discriminate. }
  split; [auto|]. intros _.
  destruct (gateway _ _) as [order|e].
  - destruct (Get order "id").
    + cbn [snd]. rewrite !orders_requested_app. simpl. discriminate.
    + rewrite create_order_failed_orders, !orders_requested_app. simpl. discriminate.
  - rewrite create_order_failed_orders, !orders_requested_app. simpl. discriminate.
Qed.


End CreateOrder.

Section Contact.
Variable env : environ.
Variable transport : trace -> mail -> option exn.

Definition contact_received (req_body : value) : event :=
  Console log "📝 Contact form submission received:"
    [inl (VObj [ ("name", field req_body "name");
                 ("email", field req_body "email");
                 ("subject", field req_body "subject") ])].

Definition contact_success : response :=
  Response 200 (VObj [ ("success", VBool true);
                       ("message", VStr "Message sent successfully!") ]).

Definition contact_failure (e : exn) : response :=
  Response 500 (VObj [ ("success", VBool false);
                       ("message", VStr "Failed to send message");
                       ("details", message e) ]).

(** The two option objects of a request. *)
Definition admin_mail (req_body : value) : result mail :=
  contactMailOptions env (field req_body "name") (field req_body "email")
                     (field req_body "subject") (field req_body "message").

Definition user_mail (req_body : value) : result mail :=
  userConfirmationOptions env (field req_body "name") (field req_body "email")
                          (field req_body "subject") (field req_body "message").

Lemma contact_failed_run (e : exn) (t : trace) :
  contact_failed e t
  = (Ok (contact_failure e),
     (t ++ [Console error "❌ Failed to process contact form:" [inr e]])%list).
Proof. reflexivity. Qed.

(** The handler, split at each step that can throw. *)
Lemma contact_run (req_body : value) :
  is_nullish req_body = false ->
  run (contact env transport req_body) =
  let t0 := [contact_received req_body] in
  match admin_mail req_body with
  | Throw e => contact_failed e t0
  | Ok admin =>
      match user_mail req_body with
      | Throw e => contact_failed e t0
      | Ok user =>
          match transport t0 admin with
          | Some e => contact_failed e (t0 ++ [SendMail admin (Some e)])%list
          | None =>
              let t1 := (t0 ++ [ SendMail admin None;
                                 Console log "✉️ Contact form email sent to admin" []
                               ])%list in
              match transport t1 user with
              | Some e => contact_failed e (t1 ++ [SendMail user (Some e)])%list
              | None =>
                  (Ok contact_success,
                   (t1 ++ [ SendMail user None;
                            Console log "✉️ Confirmation email sent to user:"
                              [inl (field req_body "email")] ])%list)
              end
          end
      end
  end.
Proof.
  intros Hbody.
  unfold run, contact, try_catch, mbind, pure, admin_mail, user_mail.
  rewrite !(destructure_field _ _ Hbody).
  unfold console_log, emit, contact_received. simpl.
  destruct (contactMailOptions _ _ _ _ _) as [admin|e]; [|reflexivity].
  destruct (userConfirmationOptions _ _ _ _ _) as [user|e]; [|reflexivity].
  unfold sendMail.
  destruct (transport _ admin) as [e|]; [reflexivity|]. simpl.
  destruct (transport _ user) as [e|]; reflexivity.
Qed.

Lemma sender_line (who : string) :
  sender who env
  = Ok (dq ++ who ++ dq ++ " <"
           ++ match EMAIL_USER env with Some u => u | None => "undefined" end ++ ">").
Proof. unfold sender. destruct (EMAIL_USER env); reflexivity. Qed.

Lemma admin_mail_from (req_body : value) (admin : mail) :
  admin_mail req_body = Ok admin ->
  exists rest, from admin = dq ++ "Contact Form" ++ rest.
Proof.
  unfold admin_mail, contactMailOptions. rewrite sender_line. unfold Js.bind.
  destruct (ToString (field req_body "subject")); [|discriminate].
  destruct (ToString (field req_body "name")); [|discriminate].
  destruct (ToString (field req_body "email")); [|discriminate].
  destruct (replace _); [|discriminate].
  intros [= <-]. eexists. reflexivity.
Qed.

Lemma user_mail_from (req_body : value) (user : mail) :
  user_mail req_body = Ok user ->
  exists rest, from user = dq ++ "Mrs. Shereen Life Coaching" ++ rest.
Proof.
  unfold user_mail, userConfirmationOptions. rewrite sender_line. unfold Js.bind.
  destruct (ToString (field req_body "name")); [|discriminate].
  destruct (ToString (field req_body "subject")); [|discriminate].
  destruct (replace _); [|discriminate].
  intros [= <-]. eexists. reflexivity.
Qed.

(** The two mails of a request are never the same object: their
    sender lines differ. *)
Lemma admin_mail_is_not_user_mail (req_body : value) (admin user : mail) :
  admin_mail req_body = Ok admin ->
  user_mail req_body = Ok user ->
  admin <> user.
Proof.
  intros Hadmin Huser Heq. subst user.
  destruct (admin_mail_from _ _ Hadmin) as [rest1 H1].
  destruct (user_mail_from _ _ Huser) as [rest2 H2].
  rewrite H1 in H2. simpl in H2. discriminate.
Qed.

(** Every mail the handler hands to the transport is one of the two
    option objects of the request. *)
Lemma contact_mails (req_body : value) (m : mail) :
  In m (mails_attempted (snd (run (contact env transport req_body)))) ->
  admin_mail req_body = Ok m \/ user_mail req_body = Ok m.
Proof.
  destruct (is_nullish req_body) eqn:Hbody.
  { destruct req_body; try discriminate; intros []. }
  rewrite (contact_run _ Hbody). cbv zeta.
  destruct (admin_mail req_body) as [admin|e0]; [|intros []].
  destruct (user_mail req_body) as [user|e0]; [|intros []].
  destruct (transport _ admin) as [e1|].
  { rewrite contact_failed_run. cbn [snd]. simpl. intros [<-|[]]. now left. }
  destruct (transport _ user) as [e2|].
  { rewrite contact_failed_run. cbn [snd]. simpl. intros [<-|[<-|[]]]; auto. }
  cbn [snd]. simpl. intros [<-|[<-|[]]]; auto.
Qed.

(** A body from which the admin notification can be built carries a
    message, so it is an object. *)
Lemma admin_mail_body (req_body : value) (admin : mail) :
  admin_mail req_body = Ok admin -> is_nullish req_body = false.
Proof.
  destruct req_body; try reflexivity;
    unfold admin_mail, contactMailOptions; rewrite sender_line; discriminate.
Qed.

(** The handler hands something to the transport exactly when both
    option objects could be built. *)
Lemma contact_attempts_iff_built (req_body : value) :
  mails_attempted (snd (run (contact env transport req_body))) <> []
  <-> exists admin user, admin_mail req_body = Ok admin /\ user_mail req_body = Ok user.
Proof.
  destruct (is_nullish req_body) eqn:Hbody.
  { split.
    - intros H. exfalso. apply H. destruct req_body; try discriminate; reflexivity.
    - intros (admin & _ & Hadmin & _). apply admin_mail_body in Hadmin. congruence. }
  rewrite (contact_run _ Hbody). cbv zeta.
  destruct (admin_mail req_body) as [admin|e0].
  2:{ rewrite contact_failed_run. cbn [snd]. split; [intros H; now exfalso|].
      intros (a & u & H & _). discriminate. }
  destruct (user_mail req_body) as [user|e0].
  2:{ rewrite contact_failed_run. cbn [snd]. split; [intros H; now exfalso|].
      intros (a & u & _ & H). discriminate. }
  split; [intros _; eauto|]. intros _.
  destruct (transport _ admin) as [e1|].
  { rewrite contact_failed_run. cbn [snd]. simpl. discriminate. }
  destruct (transport _ user) as [e2|].
  { rewrite contact_failed_run. cbn [snd]. simpl. discriminate. }
  cbn [snd]. simpl. discriminate.
Qed.


(** The rendering in the specification's words: the message cut at
    every newline, the pieces joined with [<br>]. *)
Fixpoint split_at_newlines (s : string) : list string :=
  match s with
  | EmptyString => [""]
  | String c rest =>
      if Ascii.eqb c (ascii_of_nat 10)
      then "" :: split_at_newlines rest
      else match split_at_newlines rest with
           | [] => [String c ""]
           | piece :: pieces => String c piece :: pieces
           end
  end.

Fixpoint join_with (sep : string) (pieces : list string) : string :=
  match pieces with
  | [] => ""
  | [piece] => piece
  | piece :: rest => piece ++ sep ++ join_with sep rest
  end.

Definition newlines_as_br (s : string) : string :=
  join_with "<br>" (split_at_newlines s).

Lemma split_at_newlines_not_nil (s : string) : split_at_newlines s <> [].
Proof.
  destruct s as [|c rest]; simpl; [discriminate|].
  destruct (Ascii.eqb c (ascii_of_nat 10)); [discriminate|].
  destruct (split_at_newlines rest); discriminate.
Qed.

Lemma join_with_cons_char (sep : string) (c : ascii) (piece : string)
      (pieces : list string) :
  join_with sep (String c piece :: pieces) = String c (join_with sep (piece :: pieces)).
Proof. destruct pieces; reflexivity. Qed.

(** The code's replacement computes the claim's rendering. *)
Lemma replace_newlines_spec (s : string) : replace_newlines s = newlines_as_br s.
Proof.
  unfold newlines_as_br.
  induction s as [|c rest IH]; [reflexivity|].
  cbn [replace_newlines split_at_newlines].
  destruct (Ascii.eqb c (ascii_of_nat 10)).
  - rewrite IH.
    destruct (split_at_newlines rest) as [|piece pieces] eqn:Hsplit.
    + exfalso. exact (split_at_newlines_not_nil _ Hsplit).
    + reflexivity.
  - rewrite IH.
    destruct (split_at_newlines rest) as [|piece pieces] eqn:Hsplit.
    + exfalso. exact (split_at_newlines_not_nil _ Hsplit).
    + now rewrite join_with_cons_char.
Qed.

(** No newline is left, and a message without newlines is shown as it is. *)
Fixpoint has_newline (s : string) : bool :=
  match s with
  | EmptyString => false
  | String c rest => Ascii.eqb c (ascii_of_nat 10) || has_newline rest
  end.

Lemma replace_newlines_leaves_none (s : string) :
  has_newline (replace_newlines s) = false.
Proof.
  induction s as [|c rest IH]; [reflexivity|].
  cbn [replace_newlines].
  destruct (Ascii.eqb c (ascii_of_nat 10)) eqn:Hc; simpl.
  - exact IH.
  - now rewrite Hc, IH.
Qed.

Lemma replace_newlines_without_newline (s : string) :
  has_newline s = false -> replace_newlines s = s.
Proof.
  induction s as [|c rest IH]; [reflexivity|].
  cbn [replace_newlines has_newline]. intros H.
  apply orb_false_iff in H. destruct H as [-> H].
  now rewrite IH.
Qed.

Lemma contactMailOptions_html (name email subject : value) (s : string) (m : mail) :
  contactMailOptions env name email subject (VStr s) = Ok m ->
  exists name' email' subject',
    ToString name = Ok name' /\ ToString email = Ok email'
    /\ ToString subject = Ok subject'
    /\ html m = contact_admin_html name' email' subject' (replace_newlines s).
Proof.
  unfold contactMailOptions. rewrite sender_line. unfold Js.bind.
  destruct (ToString subject) as [subject'|]; [|discriminate].
  destruct (ToString name) as [name'|]; [|discriminate].
  destruct (ToString email) as [email'|]; [|discriminate].
  simpl. intros [= <-]. exists name', email', subject'. repeat split.
Qed.

Lemma userConfirmationOptions_html (name email subject : value) (s : string) (m : mail) :
  userConfirmationOptions env name email subject (VStr s) = Ok m ->
  exists name' subject',
    ToString name = Ok name' /\ ToString subject = Ok subject'
    /\ html m = contact_user_html name' subject' (replace_newlines s).
Proof.
  unfold userConfirmationOptions. rewrite sender_line. unfold Js.bind.
  destruct (ToString name) as [name'|]; [|discriminate].
  destruct (ToString subject) as [subject'|]; [|discriminate].
  simpl. intros [= <-]. exists name', subject'. repeat split.
Qed.

(** The inner box of the two documents, in which the message is shown. *)
Definition message_box_open : string :=
  "<div style=" ++ dq ++ "background-color: white; padding: 15px; border-radius: 5px;"
    ++ dq ++ ">".

Definition message_box (shown : string) : string :=
  message_box_open ++ nl ++ "              " ++ shown ++ nl ++ "            </div>".

Lemma contact_admin_html_around (name email subject shown : string) :
  exists before after,
    contact_admin_html name email subject shown = before ++ message_box shown ++ after.
Proof.
  unfold contact_admin_html, message_box.
  match goal with
  | |- exists _ _, lines ?l = _ =>
      exists (lines (firstn 8 l) ++ nl ++ "            "), (nl ++ lines (skipn 11 l));
      change l with (firstn 8 l ++ nth 8 l "" :: skipn 9 l)%list
  end.
  rewrite lines_split by discriminate. rewrite !string_app_assoc. reflexivity.
Qed.

Lemma contact_user_html_around (name subject shown : string) :
  exists before after,
    contact_user_html name subject shown = before ++ message_box shown ++ after.
Proof.
  unfold contact_user_html, message_box.
  match goal with
  | |- exists _ _, lines ?l = _ =>
      exists (lines (firstn 9 l) ++ nl ++ "            "), (nl ++ lines (skipn 12 l));
      change l with (firstn 9 l ++ nth 9 l "" :: skipn 10 l)%list
  end.
  rewrite lines_split by discriminate. rewrite !string_app_assoc. reflexivity.
Qed.

Lemma includes_in_message_box (shown before after : string) :
  includes shown (before ++ message_box shown ++ after) = true.
Proof.
  apply includes_after, includes_before. unfold message_box.
  do 3 apply includes_after. apply includes_here, starts_with_app.
Qed.

(** A form whose message is a string and whose other fields are
    primitives yields both option objects. *)
Lemma well_formed_inquiry_builds (req_body : value) (s : string) :
  field req_body "message" = VStr s ->
  printable (field req_body "name") = true ->
  printable (field req_body "email") = true ->
  printable (field req_body "subject") = true ->
  exists admin user, admin_mail req_body = Ok admin /\ user_mail req_body = Ok user.
Proof.
  intros Hmessage Hname Hemail Hsubject.
  destruct (ToString_printable _ Hname) as [name Hn].
  destruct (ToString_printable _ Hemail) as [email He].
  destruct (ToString_printable _ Hsubject) as [subject Hs].
  unfold admin_mail, user_mail, contactMailOptions, userConfirmationOptions.
  rewrite !sender_line, Hmessage, Hn, He, Hs. simpl.
  eexists. eexists. split; reflexivity.
Qed.

(** C10.  For a request whose [message] is a string, the admin
    notification and the user's confirmation both show, inside the
    inner box of their document, the message cut at every newline and
    joined again with [<br>]: each newline character has become [<br>]
    and nothing else has changed (no newline is left, and a message
    without newlines is shown as it is).  Every mail the handler hands
    to the transport for such a request is one of these two; and when
    the other fields are primitives both are built and the notification
    is handed to the transport. *)
Theorem contact_mails_show_message_with_br (req_body : value) (s : string) :
  field req_body "message" = VStr s ->
  let shown := join_with "<br>" (split_at_newlines s) in
  let box :=
    "<div style=" ++ dq ++ "background-color: white; padding: 15px; border-radius: 5px;"
      ++ dq ++ ">" ++ nl ++ "              " ++ shown ++ nl ++ "            </div>" in
  (forall m,
      admin_mail req_body = Ok m
      \/ user_mail req_body = Ok m
      \/ In m (mails_attempted (snd (run (contact env transport req_body)))) ->
      (exists before after, html m = before ++ box ++ after)
      /\ includes shown (html m) = true)
  /\ (printable (field req_body "name") = true ->
      printable (field req_body "email") = true ->
      printable (field req_body "subject") = true ->
      exists admin user rest,
        admin_mail req_body = Ok admin
        /\ user_mail req_body = Ok user
        /\ mails_attempted (snd (run (contact env transport req_body))) = admin :: rest)
  /\ has_newline shown = false
  /\ (has_newline s = false -> shown = s).
Proof.
  intros Hmessage shown box.
  assert (Hshown : shown = replace_newlines s).
  { subst shown. symmetry. apply replace_newlines_spec. }
  assert (Hbox : box = message_box shown).
  { subst box. unfold message_box, message_box_open.
    now rewrite !string_app_assoc. }
  rewrite Hbox, Hshown. clear Hbox Hshown box shown.
  assert (Hadmin : forall m,
             admin_mail req_body = Ok m ->
             exists before after,
               html m = before ++ message_box (replace_newlines s) ++ after).
  { unfold admin_mail. rewrite Hmessage. intros m H.
    destruct (contactMailOptions_html _ _ _ _ _ H) as (n & e & su & _ & _ & _ & ->).
    apply contact_admin_html_around. }
  assert (Huser : forall m,
             user_mail req_body = Ok m ->
             exists before after,
               html m = before ++ message_box (replace_newlines s) ++ after).
  { unfold user_mail. rewrite Hmessage. intros m H.
    destruct (userConfirmationOptions_html _ _ _ _ _ H) as (n & su & _ & _ & ->).
    apply contact_user_html_around. }
  split; [|split; [|split]].
  - intros m Hm.
    assert (Haround : exists before after,
               html m = before ++ message_box (replace_newlines s) ++ after).
    { destruct Hm as [H|[H|H]]; [now apply Hadmin | now apply Huser |].
      destruct (contact_mails _ _ H) as [H'|H']; [now apply Hadmin | now apply Huser]. }
    split; [exact Haround|].
    destruct Haround as (before & after & ->). apply includes_in_message_box.
  - intros Hname Hemail Hsubject.
    destruct (well_formed_inquiry_builds _ _ Hmessage Hname Hemail Hsubject)
      as (admin & user & Ha & Hu).
    exists admin, user.
    assert (Hbody := admin_mail_body _ _ Ha).
    rewrite (contact_run _ Hbody). cbv zeta. rewrite Ha, Hu.
    destruct (transport _ admin) as [e1|].
    { rewrite contact_failed_run. eexists. repeat split. }
    destruct (transport _ user) as [e2|].
    { rewrite contact_failed_run. eexists. repeat split. }
    eexists. repeat split.
  - apply replace_newlines_leaves_none.
  - apply replace_newlines_without_newline.
Qed.


End Contact.

(** *** Start-up *)

(** The prefix of the three routes built from [import.meta.env]. *)
Definition backend (meta : meta_environ) : string :=
  match VITE_BACKEND_URL meta with
  | Some url => url
  | None => "undefined"
  end.

(** The routes of a server that got as far as listening, in the order
    of their registration. *)
Definition served_routes (meta : meta_environ) (build : bool) : list route :=
  [ (GET, "/api/razorpay-key");
    (POST, backend meta ++ "/api/create-order");
    (POST, backend meta ++ "/api/payment-success") ]
  ++ (if build then [(GET, "*")] else [])
  ++ [ (POST, backend meta ++ "/api/contact") ].

(** The framework goes along with module evaluation: none of the
    registrations throws, and neither does [app.listen]. *)
Definition host_accepts (rt : runtime) (meta : meta_environ) : Prop :=
  Forall (fun r => app_route rt r = None) (served_routes meta (build_exists rt))
  /\ app_listen rt (listen_port (process_env rt)) = None.

(** The same runtime with both mail credentials supplied. *)
Definition with_mail (rt : runtime) (user password : string) : runtime :=
  {| process_env :=
       {| RAZORPAY_KEY_ID := RAZORPAY_KEY_ID (process_env rt);
          RAZORPAY_SECRET := RAZORPAY_SECRET (process_env rt);
          EMAIL_USER := Some user;
          EMAIL_PASSWORD := Some password;
          PORT := PORT (process_env rt) |};
     import_meta_env := import_meta_env rt;
     build_exists := build_exists rt;
     app_route := app_route rt;
     app_listen := app_listen rt |}.

Lemma missing_false (x : option string) :
  missing x = false <-> exists s, x = Some s /\ s <> "".
Proof.
  destruct x as [s|]; simpl; split.
  - intros H. exists s. split; [reflexivity|]. intros ->. discriminate.
  - intros (s' & [= <-] & Hs). destruct (String.eqb s "") eqn:Heq; [|reflexivity].
    apply String.eqb_eq in Heq. contradiction.
  - discriminate.
  - intros (s & H & _). discriminate.
Qed.

(** What was printed before does not change what module evaluation
    does next. *)
Lemma register_and_listen_from (rt : runtime) (t : trace) :
  register_and_listen rt t
  = (fst (register_and_listen rt []), (t ++ snd (register_and_listen rt []))%list).
Proof.
  unfold register_and_listen, mbind, register, listen, backend_url, pure, ret,
    console_warn, emit.
  destruct (app_route rt (GET, "/api/razorpay-key")); [now rewrite app_nil_r|].
  destruct (import_meta_env rt) as [meta|]; [|now rewrite app_nil_r].
  destruct (app_route rt (POST, _)); [now rewrite app_nil_r|].
  destruct (app_route rt (POST, _)); [now rewrite app_nil_r|].
  destruct (build_exists rt).
  - destruct (app_route rt (GET, "*")); [now rewrite app_nil_r|].
    destruct (app_route rt (POST, _)); [now rewrite app_nil_r|].
    destruct (app_listen rt _); now rewrite app_nil_r.
  - destruct (app_route rt (POST, _)); [reflexivity|].
    destruct (app_listen rt _); reflexivity.
Qed.

(** Module evaluation gets through exactly when the host defines
    [import.meta.env] and the framework accepts every call. *)
Lemma register_and_listen_ok (rt : runtime) (routes : list route) :
  fst (register_and_listen rt []) = Ok routes
  <-> exists meta,
        import_meta_env rt = Some meta
        /\ host_accepts rt meta
        /\ routes = served_routes meta (build_exists rt).
Proof.
  unfold host_accepts, served_routes, backend.
  unfold register_and_listen, mbind, register, listen, backend_url, pure, ret,
    console_warn, emit.
  split.
  - destruct (app_route rt (GET, "/api/razorpay-key")) eqn:H1; [discriminate|].
    destruct (import_meta_env rt) as [meta|]; [|discriminate].
    destruct (app_route rt (POST, _)) eqn:H2; [discriminate|].
    destruct (app_route rt (POST, _)) eqn:H3 in |- *; [discriminate|].
    destruct (build_exists rt).
    + destruct (app_route rt (GET, "*")) eqn:H4; [discriminate|].
      destruct (app_route rt (POST, _)) eqn:H5 in |- *; [discriminate|].
      destruct (app_listen rt _) eqn:H6; [discriminate|].
      cbn [fst]. intros [= <-]. exists meta. repeat split.
      repeat (constructor; [assumption|]). constructor.
    + destruct (app_route rt (POST, _)) eqn:H5 in |- *; [discriminate|].
      destruct (app_listen rt _) eqn:H6; [discriminate|].
      cbn [fst]. intros [= <-]. exists meta. repeat split.
      repeat (constructor; [assumption|]). constructor.
  - intros (meta & -> & [Hroutes Hlisten] & ->).
    destruct (build_exists rt); simpl in Hroutes.
    + inversion Hroutes as [|? ? H1 Hr1]; subst. inversion Hr1 as [|? ? H2 Hr2]; subst.
      inversion Hr2 as [|? ? H3 Hr3]; subst. inversion Hr3 as [|? ? H4 Hr4]; subst.
      inversion Hr4 as [|? ? H5 Hr5]; subst.
      rewrite H1, H2, H3, H4, H5, Hlisten. reflexivity.
    + inversion Hroutes as [|? ? H1 Hr1]; subst. inversion Hr1 as [|? ? H2 Hr2]; subst.
      inversion Hr2 as [|? ? H3 Hr3]; subst. inversion Hr3 as [|? ? H4 Hr4]; subst.
      rewrite H1, H2, H3, H4, Hlisten. reflexivity.
Qed.

(** What module evaluation prints when it gets through. *)
Lemma register_and_listen_trace (rt : runtime) (routes : list route) :
  fst (register_and_listen rt []) = Ok routes ->
  snd (register_and_listen rt [])
  = if build_exists rt then []
    else [Console warn "⚠️  Build folder not found. React frontend not served." []].
Proof.
  unfold register_and_listen, mbind, register, listen, backend_url, pure, ret,
    console_warn, emit.
  destruct (app_route rt (GET, "/api/razorpay-key")); [discriminate|].
  destruct (import_meta_env rt) as [meta|]; [|discriminate].
  destruct (app_route rt (POST, _)); [discriminate|].
  destruct (app_route rt (POST, _)); [discriminate|].
  destruct (build_exists rt).
  - destruct (app_route rt (GET, "*")); [discriminate|].
    destruct (app_route rt (POST, _)); [discriminate|].
    destruct (app_listen rt _); [discriminate|reflexivity].
  - destruct (app_route rt (POST, _)); [discriminate|].
    destruct (app_listen rt _); [discriminate|reflexivity].
Qed.

(** Start-up once the gateway credentials are there. *)
Lemma startup_run (rt : runtime) :
  gateway_credentials_missing (process_env rt) = false ->
  startup rt
  = let warned := if mail_credentials_missing (process_env rt)
                  then [mail_warning] else [] in
    (match fst (register_and_listen rt []) with
     | Ok routes => Listening (listen_port (process_env rt)) routes
     | Throw e => Uncaught e
     end,
     (warned ++ snd (register_and_listen rt []))%list).
Proof.
  intros Hgateway. unfold startup. rewrite Hgateway. cbv zeta.
  rewrite register_and_listen_from.
  destruct (fst (register_and_listen rt [])); reflexivity.
Qed.

(** The mail credentials play no part in what follows the checks. *)
Lemma register_and_listen_with_mail (rt : runtime) (user password : string) :
  register_and_listen (with_mail rt user password) = register_and_listen rt.
Proof. reflexivity. Qed.

(** C8.  A gateway credential that is absent (unset, or empty, which
    [!] does not tell apart) makes start-up print one error line and
    exit with status 1: nothing is registered and nothing listens.
    With both gateway credentials set, an absent mail credential never
    makes the process exit: it prints the warning line and goes on
    exactly as it does when both mail credentials are supplied, so it
    ends up listening, on the same port with the same routes, exactly
    when the fully configured process does, that is when the host
    defines [import.meta.env] and the framework accepts the routes and
    the port. *)
Theorem startup_credential_checks (rt : runtime) :
  let env := process_env rt in
  (missing (RAZORPAY_KEY_ID env) = true \/ missing (RAZORPAY_SECRET env) = true ->
   exists code,
     code <> 0
     /\ startup rt
        = (Exited code,
           [Console error "❌ RAZORPAY_KEY_ID or RAZORPAY_SECRET is missing in .env" []]))
  /\ (missing (RAZORPAY_KEY_ID env) = false ->
      missing (RAZORPAY_SECRET env) = false ->
      missing (EMAIL_USER env) = true \/ missing (EMAIL_PASSWORD env) = true ->
      (forall code, fst (startup rt) <> Exited code)
      /\ (forall user password,
             user <> "" -> password <> "" ->
             startup rt
             = (fst (startup (with_mail rt user password)),
                Console error
                  "⚠️ EMAIL_USER or EMAIL_PASSWORD is missing in .env, emails will not be sent"
                  []
                  :: snd (startup (with_mail rt user password))))
      /\ (forall meta,
             import_meta_env rt = Some meta ->
             host_accepts rt meta ->
             startup rt
             = (Listening (listen_port env) (served_routes meta (build_exists rt)),
                Console error
                  "⚠️ EMAIL_USER or EMAIL_PASSWORD is missing in .env, emails will not be sent"
                  []
                  :: (if build_exists rt then []
                      else [Console warn
                              "⚠️  Build folder not found. React frontend not served."
                              []])))
      /\ ((exists port routes, fst (startup rt) = Listening port routes)
          <-> exists meta, import_meta_env rt = Some meta /\ host_accepts rt meta)).
Proof.
  intros env. subst env. split.
  - intros Hmissing. unfold startup, gateway_credentials_missing.
    assert (H : missing (RAZORPAY_KEY_ID (process_env rt))
                || missing (RAZORPAY_SECRET (process_env rt)) = true).
    { apply orb_true_iff. exact Hmissing. }
    rewrite H. exists 1. split; [discriminate|reflexivity].
  - intros Hkey Hsecret Hmail.
    assert (Hgateway : gateway_credentials_missing (process_env rt) = false).
    { unfold gateway_credentials_missing. now rewrite Hkey, Hsecret. }
    assert (Hwarned : mail_credentials_missing (process_env rt) = true).
    { unfold mail_credentials_missing. apply orb_true_iff. exact Hmail. }
    rewrite (startup_run _ Hgateway), Hwarned. cbv zeta. cbn [fst snd app].
    split; [|split; [|split]].
    + intros code. destruct (fst (register_and_listen rt [])); discriminate.
    + intros user password Huser Hpassword.
      assert (Hgateway' :
                gateway_credentials_missing (process_env (with_mail rt user password))
                = false) by exact Hgateway.
      rewrite (startup_run _ Hgateway'), register_and_listen_with_mail.
      assert (Hset : mail_credentials_missing (process_env (with_mail rt user password))
                     = false).
      { unfold mail_credentials_missing, with_mail. cbn.
        apply orb_false_iff. split.
        - destruct (String.eqb user "") eqn:Hu; [|reflexivity].
          apply String.eqb_eq in Hu. contradiction.
        - destruct (String.eqb password "") eqn:Hp; [|reflexivity].
          apply String.eqb_eq in Hp. contradiction. }
      rewrite Hset. reflexivity.
    + intros meta Hmeta Haccepts.
      assert (Hok : fst (register_and_listen rt [])
                    = Ok (served_routes meta (build_exists rt))).
      { apply register_and_listen_ok. exists meta. auto. }
      rewrite (register_and_listen_trace _ _ Hok), Hok. reflexivity.
    + split.
      * intros (port & routes & H).
        destruct (fst (register_and_listen rt [])) as [routes'|e] eqn:Hrun;
          [|discriminate].
        apply register_and_listen_ok in Hrun.
        destruct Hrun as (meta & Hmeta & Haccepts & _). exists meta. auto.
      * intros (meta & Hmeta & Haccepts).
        assert (Hok : fst (register_and_listen rt [])
                      = Ok (served_routes meta (build_exists rt))).
        { apply register_and_listen_ok. exists meta. auto. }
        rewrite Hok. eexists. eexists. reflexivity.
Qed.

End Properties.

(* ================================================================== *)
(** ** Worked examples                                                 *)
(* ================================================================== *)

Import IntegerEngine.

(** The configuration and the requests of the examples: the secret and
    the identifiers are those of the specification's test vector. *)
Definition example_env : environ :=
  Environ (Some "rzp_test_key") (Some "s") (Some "coach@example.com")
          (Some "app-password") None.

Definition delivers : trace -> mail -> option exn := fun _ _ => None.

Definition smtp_down : trace -> mail -> option exn :=
  fun _ _ => Some (Thrown (VStr "connect ECONNREFUSED")).

Definition example_signature : string :=
  "742a38a9b459999e738a2d54e89b9f64b144535a09efaf21054dc143460d16c7".

Definition ada : value :=
  VObj [ ("fullName", VStr "Ada"); ("email", VStr "ada@example.com");
         ("phone", VStr "5550100") ].

Definition one_session : value :=
  VArr [ VObj [ ("title", VStr "Session"); ("price", VNum 500%Z);
                ("quantity", VNum 2%Z) ] ].

(** A payment confirmation for [order_1] and [pay_1]. *)
Definition signed (signature : string) (rest : list (string * value)) : value :=
  VObj (("razorpayPaymentId", VStr "pay_1")
          :: ("razorpayOrderId", VStr "order_1")
          :: ("razorpaySignature", VStr signature)
          :: rest).

Definition paid : value :=
  signed example_signature
         [ ("customerDetails", ada); ("cartItems", one_session);
           ("amount", VNum 1000%Z) ].

(** The same payment with the last character of the signature changed. *)
Definition tampered : value :=
  signed "742a38a9b459999e738a2d54e89b9f64b144535a09efaf21054dc143460d16c8"
         [ ("customerDetails", ada); ("cartItems", one_session);
           ("amount", VNum 1000%Z) ].

(** A correctly signed payment whose body carries no [amount]. *)
Definition paid_without_amount : value :=
  signed example_signature [ ("customerDetails", ada) ].

(** A correctly signed payment whose [amount] is a string. *)
Definition paid_with_text_amount : value :=
  signed example_signature [ ("customerDetails", ada); ("amount", VStr "1000") ].

(** A correctly signed payment with another amount and nothing else. *)
Definition paid_bare : value :=
  signed example_signature [ ("amount", VNum 1%Z) ].

(** The specification's vector: key [s], message [order_1|pay_1]. *)
Example hmac_of_the_specification_vector :
  Crypto.createHmac_sha256_hex "s" "order_1|pay_1" = example_signature.
Proof. vm_compute. reflexivity. Qed.

Lemma signature_is_hmac_of_order_pipe_payment_witness :
  RAZORPAY_SECRET example_env = Some "s"
  /\ field paid "razorpayOrderId" = VStr "order_1"
  /\ field paid "razorpayPaymentId" = VStr "pay_1"
  /\ computed_signature example_env paid = Ok example_signature
  /\ (responded (run (payment_success example_env delivers paid)) <> Some 400
      <-> field paid "razorpaySignature" = VStr example_signature).
Proof.
  refine (conj eq_refl (conj eq_refl (conj eq_refl _))).
  destruct (signature_is_hmac_of_order_pipe_payment
              example_env delivers "s" "order_1" "pay_1" paid
              eq_refl eq_refl eq_refl) as (Hdigest & Hiff & _).
  rewrite <- hmac_of_the_specification_vector.
  split; [exact Hdigest | exact Hiff].
Defined.

Lemma example_computed_signature (signature : string) (rest : list (string * value)) :
  computed_signature example_env (signed signature rest) = Ok example_signature.
Proof. rewrite <- hmac_of_the_specification_vector. reflexivity. Qed.

Lemma tampered_signature_differs :
  field tampered "razorpaySignature" <> VStr example_signature.
Proof. discriminate. Qed.

Lemma mismatched_signature_is_rejected_without_mail_witness :
  computed_signature example_env tampered = Ok example_signature
  /\ field tampered "razorpaySignature" <> VStr example_signature
  /\ fst (run (payment_success example_env delivers tampered))
     = Ok (Response 400 (VObj [ ("success", VBool false);
                                ("message", VStr "Invalid signature") ]))
  /\ mails_attempted (snd (run (payment_success example_env delivers tampered))) = [].
Proof.
  split; [apply example_computed_signature|].
  split; [exact tampered_signature_differs|].
  exact (mismatched_signature_is_rejected_without_mail
           example_env delivers tampered example_signature
           (example_computed_signature _ _) tampered_signature_differs).
Defined.

(** The claim of C3 as it stands fails here: the signature is the right
    one, yet the answer is 500, because the body has no [amount] to
    format. *)
Lemma valid_signature_without_amount_is_answered_500 :
  computed_signature example_env paid_without_amount = Ok example_signature
  /\ field paid_without_amount "razorpaySignature" = VStr example_signature
  /\ fst (run (payment_success example_env delivers paid_without_amount))
     = Ok (Response 500
             (VObj [ ("success", VBool false);
                     ("error", VStr "Payment verification failed");
                     ("details",
                      VStr "Cannot read properties of undefined (reading 'toFixed')") ]))
  /\ fst (run (payment_success example_env delivers paid_without_amount))
     <> Ok (Response 200 (VObj [("success", VBool true)]))
  /\ mails_attempted (snd (run (payment_success example_env delivers paid_without_amount)))
     = [].
Proof.
  split; [apply example_computed_signature|].
  split; [reflexivity|].
  rewrite payment_success_run.
  unfold paid_without_amount. rewrite example_computed_signature.
  split; [reflexivity|]. split; [discriminate|reflexivity].
Qed.

Lemma accepted_payment_succeeds_whatever_the_transport_does_witness :
  exists c m1 m2,
    computed_signature example_env paid = Ok example_signature
    /\ field paid "razorpaySignature" = VStr example_signature
    /\ cartItemsHtml (field paid "cartItems") = Ok c
    /\ mailOptions example_env (field paid "customerDetails") (field paid "amount")
                   (field paid "razorpayPaymentId") c = Ok m1
    /\ adminMailOptions example_env (field paid "customerDetails") (field paid "amount")
                        (field paid "razorpayPaymentId") c = Ok m2
    /\ fst (run (payment_success example_env smtp_down paid))
       = Ok (Response 200 (VObj [("success", VBool true)]))
    /\ mails_attempted (snd (run (payment_success example_env smtp_down paid))) = [m1; m2].
Proof.
  eexists. eexists. eexists.
  split; [apply example_computed_signature|].
  split; [reflexivity|].
  split; [reflexivity|].
  split; [reflexivity|].
  split; [reflexivity|].
  destruct (accepted_payment_succeeds_whatever_the_transport_does
              example_env smtp_down paid example_signature _ _ _
              (example_computed_signature _ _) eq_refl eq_refl eq_refl eq_refl)
    as (Hresponse & Hmails & _).
  split; [exact Hresponse | exact Hmails].
Defined.

Lemma non_numeric_amount_fails_before_any_mail_witness :
  computed_signature example_env paid_with_text_amount = Ok example_signature
  /\ field paid_with_text_amount "razorpaySignature" = VStr example_signature
  /\ is_number (field paid_with_text_amount "amount") = false
  /\ mails_attempted (snd (run (payment_success example_env delivers paid_with_text_amount)))
     = []
  /\ exists e,
       fst (run (payment_success example_env delivers paid_with_text_amount))
       = Ok (Response 500
               (VObj [ ("success", VBool false);
                       ("error", VStr "Payment verification failed");
                       ("details", message e) ])).
Proof.
  split; [apply example_computed_signature|].
  split; [reflexivity|]. split; [reflexivity|].
  destruct (non_numeric_amount_fails_before_any_mail
              example_env delivers paid_with_text_amount example_signature
              (example_computed_signature _ _) eq_refl eq_refl)
    as (te & _ & Hmails & Hresponse & _).
  split; [exact Hmails | exact Hresponse].
Defined.

Lemma signature_decision_ignores_amount_and_cart_witness :
  destructure paid "razorpayOrderId" = destructure paid_bare "razorpayOrderId"
  /\ destructure paid "razorpayPaymentId" = destructure paid_bare "razorpayPaymentId"
  /\ destructure paid "razorpaySignature" = destructure paid_bare "razorpaySignature"
  /\ signature_check example_env paid = signature_check example_env paid_bare
  /\ (responded (run (payment_success example_env delivers paid)) = Some 400
      <-> responded (run (payment_success example_env smtp_down paid_bare)) = Some 400).
Proof.
  refine (conj eq_refl (conj eq_refl (conj eq_refl _))).
  exact (signature_decision_ignores_amount_and_cart
           example_env delivers smtp_down paid paid_bare eq_refl eq_refl eq_refl).
Defined.

(** The two mails of the example payment. *)
Definition example_block : string :=
  items_block
    (lines [ "";
             "            <li>";
             "              <strong>Session</strong> - ";
             "              ₹500 x 2";
             "            </li>";
             "          " ]).

Definition example_confirmation : mail :=
  {| from := dq ++ "Mrs. Shereen Life Coaching" ++ dq ++ " <coach@example.com>";
     to := VStr "ada@example.com";
     subject := "Booking Confirmation - Mrs. Shereen Life Coaching";
     html := booking_confirmation_html "Ada" "1000.00" "pay_1" example_block |}.

Definition example_alert : mail :=
  {| from := dq ++ "Mrs. Shereen Booking System" ++ dq ++ " <coach@example.com>";
     to := VStr "coach@example.com";
     subject := "New Booking Alert - Life Coaching";
     html := booking_alert_html "Ada" "ada@example.com" "5550100" "1000.00" "pay_1"
               example_block |}.

(** The two documents are, byte for byte, what the template literals
    of lines 146-160 and 175-188 yield for these values: the digests
    are those of that text. *)
Example example_confirmation_digest :
  Crypto.sha256_hex (html example_confirmation)
  = "5c1095bf80531d3f87123ae4cd0727d940ea77fc90dfcdb4914461826af5ee73".
Proof. vm_compute. reflexivity. Qed.

Example example_alert_digest :
  Crypto.sha256_hex (html example_alert)
  = "06378e148a46fbde1534c65f98618fcad7d5223b0aa824d94575af7183f52915".
Proof. vm_compute. reflexivity. Qed.

Lemma example_mails (transport : trace -> mail -> option exn) :
  mails_attempted (snd (run (payment_success example_env transport paid)))
  = [example_confirmation; example_alert].
Proof.
  apply (accepted_run example_env transport paid example_signature example_block).
  - apply example_computed_signature.
  - reflexivity.
  - reflexivity.
  - reflexivity.
  - reflexivity.
Qed.





(** A contact message of two lines. *)
Definition inquiry : value :=
  VObj [ ("name", VStr "Ada"); ("email", VStr "ada@example.com");
         ("subject", VStr "Booking");
         ("message", VStr ("Hello" ++ nl ++ "Is Tuesday free?")) ].

Example inquiry_message_shown : newlines_as_br ("Hello" ++ nl ++ "Is Tuesday free?")
                                = "Hello<br>Is Tuesday free?".
Proof. reflexivity. Qed.

Lemma contact_mails_show_message_with_br_witness :
  field inquiry "message" = VStr ("Hello" ++ nl ++ "Is Tuesday free?")
  /\ exists admin user rest,
       admin_mail example_env inquiry = Ok admin
       /\ user_mail example_env inquiry = Ok user
       /\ mails_attempted (snd (run (contact example_env delivers inquiry))) = admin :: rest
       /\ includes "Hello<br>Is Tuesday free?" (html admin) = true
       /\ includes "Hello<br>Is Tuesday free?" (html user) = true.
Proof.
  split; [reflexivity|].
  destruct (contact_mails_show_message_with_br
              example_env delivers inquiry ("Hello" ++ nl ++ "Is Tuesday free?") eq_refl)
    as (Hshown & Hbuilt & _).
  destruct (Hbuilt eq_refl eq_refl eq_refl) as (admin & user & rest & Ha & Hu & Hrest).
  exists admin, user, rest.
  split; [exact Ha|]. split; [exact Hu|]. split; [exact Hrest|].
  split.
  - exact (proj2 (Hshown admin (or_introl Ha))).
  - exact (proj2 (Hshown user (or_intror (or_introl Hu)))).
Defined.

(** Both mails of the inquiry are built, and carry the message with its
    line break as [<br>]. *)
Example inquiry_mails :
  exists admin user,
    admin_mail example_env inquiry = Ok admin
    /\ user_mail example_env inquiry = Ok user
    /\ html admin
       = contact_admin_html "Ada" "ada@example.com" "Booking" "Hello<br>Is Tuesday free?"
    /\ html user = contact_user_html "Ada" "Booking" "Hello<br>Is Tuesday free?".
Proof. eexists. eexists. repeat split. Qed.

(** When the transport refuses the admin notification, the user's
    confirmation is never attempted. *)
Example inquiry_with_smtp_down :
  exists admin,
    admin_mail example_env inquiry = Ok admin
    /\ mails_attempted (snd (run (contact example_env smtp_down inquiry))) = [admin]
    /\ fst (run (contact example_env smtp_down inquiry))
       = Ok (Response 500 (VObj [ ("success", VBool false);
                                  ("message", VStr "Failed to send message");
                                  ("details", VStr "connect ECONNREFUSED") ])).
Proof. eexists. repeat split. Qed.




(** The specification's order: 50000 INR, receipt [rcpt_1]. *)
Definition order_request : value :=
  VObj [ ("amount", VNum 50000%Z); ("currency", VStr "INR");
         ("receipt", VStr "rcpt_1"); ("customerDetails", ada) ].

Definition gateway_order : value :=
  VObj [ ("id", VStr "order_1"); ("entity", VStr "order");
         ("amount", VNum 50000%Z); ("currency", VStr "INR");
         ("receipt", VStr "rcpt_1"); ("status", VStr "created") ].

Definition gateway_accepts : trace -> value -> result value :=
  fun _ _ => Ok gateway_order.

Example order_request_forwarded :
  orders_requested (snd (run (create_order gateway_accepts order_request)))
  = [ VObj [ ("amount", VNum 50000%Z); ("currency", VStr "INR");
             ("receipt", VStr "rcpt_1");
             ("notes", VObj [ ("customerName", VStr "Ada");
                              ("customerEmail", VStr "ada@example.com");
                              ("customerPhone", VStr "5550100") ]) ] ]
  /\ fst (run (create_order gateway_accepts order_request))
     = Ok (Response 200 gateway_order).
Proof. split; reflexivity. Qed.




(** Node's check of the port in [listen], for the ports of the
    examples (a number, or a string of decimal digits): above 65535 the
    call throws a [RangeError]. *)
Definition bad_port (received : string) : exn :=
  Thrown (VStr ("options.port should be >= 0 and < 65536. Received " ++ received ++ ".")).

Definition node_port_check (port : string + nat) : option exn :=
  match port with
  | inr n =>
      if (65535 <? Z.of_nat n)%Z
      then Some (bad_port ("type number (" ++ decimal (Z.of_nat n) ++ ")"))
      else None
  | inl s =>
      match parse_digits 0 s with
      | Some n => if (65535 <? n)%Z
                  then Some (bad_port ("type string ('" ++ s ++ "')"))
                  else None
      | None => None
      end
  end.

(** Start-up on a host that defines [import.meta.env] and accepts every
    route, without mail credentials, and start-up without the gateway
    secret. *)
Definition host (env : environ) : runtime :=
  {| process_env := env;
     import_meta_env := Some (MetaEnviron (Some ""));
     build_exists := true;
     app_route := fun _ => None;
     app_listen := node_port_check |}.

Definition env_without_mail_credentials : environ :=
  Environ (Some "rzp_test_key") (Some "s") None None None.

Example startup_without_mail_credentials :
  startup (host env_without_mail_credentials)
  = (Listening (inr 5000)
               [ (GET, "/api/razorpay-key"); (POST, "/api/create-order");
                 (POST, "/api/payment-success"); (GET, "*"); (POST, "/api/contact") ],
     [mail_warning]).
Proof. reflexivity. Qed.

Example startup_without_gateway_secret :
  fst (startup (host (Environ (Some "rzp_test_key") None (Some "coach@example.com")
                              (Some "app-password") None)))
  = Exited 1.
Proof. reflexivity. Qed.

(** Plain Node defines no [import.meta.env]: there the first route
    built from it is never registered, with or without mail
    credentials. *)
Definition plain_node (env : environ) : runtime :=
  {| process_env := env;
     import_meta_env := None;
     build_exists := false;
     app_route := fun _ => None;
     app_listen := node_port_check |}.

Example startup_on_plain_node :
  startup (plain_node example_env)
  = (Uncaught (TypeError (ReadOfNullish Undefined "VITE_BACKEND_URL")), []).
Proof. reflexivity. Qed.

(** A port above 65535: every route is registered, then [listen]
    throws and module evaluation ends there. *)
Definition host_with_port_70000 : runtime :=
  host (Environ (Some "rzp_test_key") (Some "s") (Some "coach@example.com")
                (Some "app-password") (Some "70000")).

Example startup_with_port_70000 :
  startup host_with_port_70000
  = (Uncaught
       (Thrown (VStr "options.port should be >= 0 and < 65536. Received type string ('70000').")),
     []).
Proof. reflexivity. Qed.

Lemma startup_credential_checks_witness :
  startup (host env_without_mail_credentials)
  = (Listening (inr 5000)
               [ (GET, "/api/razorpay-key"); (POST, "/api/create-order");
                 (POST, "/api/payment-success"); (GET, "*"); (POST, "/api/contact") ],
     [Console error
        "⚠️ EMAIL_USER or EMAIL_PASSWORD is missing in .env, emails will not be sent" []])
  /\ startup (host env_without_mail_credentials)
     = (fst (startup (with_mail (host env_without_mail_credentials)
                                "coach@example.com" "app-password")),
        Console error
          "⚠️ EMAIL_USER or EMAIL_PASSWORD is missing in .env, emails will not be sent" []
          :: snd (startup (with_mail (host env_without_mail_credentials)
                                     "coach@example.com" "app-password")))
  /\ exists code,
       code <> 0
       /\ startup (host (Environ None (Some "s") None None None))
          = (Exited code,
             [Console error "❌ RAZORPAY_KEY_ID or RAZORPAY_SECRET is missing in .env" []]).
Proof.
  destruct (startup_credential_checks (host env_without_mail_credentials))
    as (_ & Hmail).
  destruct (Hmail eq_refl eq_refl (or_introl eq_refl))
    as (_ & Hsame & Hlistening & _).
  split; [|split].
  - apply (Hlistening (MetaEnviron (Some "")) eq_refl).
    split; [|reflexivity]. repeat constructor.
  - apply Hsame; discriminate.
  - destruct (startup_credential_checks (host (Environ None (Some "s") None None None)))
      as (Hexit & _).
    exact (Hexit (or_introl eq_refl)).
Defined.

(* ================================================================== *)
(** ** Further properties of the handlers                              *)
(* ================================================================== *)

Section FurtherProperties.
Context {E : Engine}.

Lemma orders_requested_customer_events (transport : trace -> mail -> option exn)
      (t : trace) (m : mail) :
  orders_requested (customer_events transport t m) = [].
Proof. unfold customer_events. destruct (transport t m); reflexivity. Qed.

Lemma orders_requested_admin_events (transport : trace -> mail -> option exn)
      (t : trace) (m : mail) :
  orders_requested (admin_events transport t m) = [].
Proof. unfold admin_events. destruct (transport t m); reflexivity. Qed.

Lemma orders_requested_before_check (req_body : value) :
  orders_requested (before_check req_body) = [].
Proof. unfold before_check. destruct (is_nullish req_body); reflexivity. Qed.

Definition verification_failed_line (e : exn) : event :=
  Console error "❌ Payment verification failed:" [inr e].

(** Every run of the payment handler, with the catch block spelled out:
    the six ways it can go. *)
Lemma payment_success_unfolded (env : environ) (transport : trace -> mail -> option exn)
      (req_body : value) :
  run (payment_success env transport req_body) =
  let cb := callback_received req_body in
  match computed_signature env req_body with
  | Throw e =>
      (Ok (failure_response e), (before_check req_body ++ [verification_failed_line e])%list)
  | Ok expected =>
      if strict_differs expected (field req_body "razorpaySignature")
      then (Ok invalid_signature_response, [cb; Console error "❌ Invalid signature" []])
      else
        match cartItemsHtml (field req_body "cartItems") with
        | Throw e => (Ok (failure_response e), [cb; verification_failed_line e])
        | Ok c =>
            match mailOptions env (field req_body "customerDetails")
                              (field req_body "amount")
                              (field req_body "razorpayPaymentId") c with
            | Throw e => (Ok (failure_response e), [cb; verification_failed_line e])
            | Ok m1 =>
                let t1 := (cb :: customer_events transport [cb] m1)%list in
                match adminMailOptions env (field req_body "customerDetails")
                                       (field req_body "amount")
                                       (field req_body "razorpayPaymentId") c with
                | Throw e =>
                    (Ok (failure_response e), (t1 ++ [verification_failed_line e])%list)
                | Ok m2 => (Ok success, (t1 ++ admin_events transport t1 m2)%list)
                end
            end
        end
  end.
Proof.
  rewrite payment_success_run. cbv zeta.
  destruct (computed_signature env req_body) as [expected|e]; [|reflexivity].
  destruct (strict_differs expected _); [reflexivity|].
  unfold try_catch. rewrite notify_run.
  destruct (cartItemsHtml _) as [c|e]; [|reflexivity].
  destruct (mailOptions _ _ _ _ _) as [m1|e]; [|reflexivity].
  cbv zeta.
  destruct (adminMailOptions _ _ _ _ _) as [m2|e]; reflexivity.
Qed.

(** X1.  Whatever the body and the configuration, and however the
    outside calls settle (each resolves, or throws an error object),
    each POST handler ends with a response (no exception escapes its
    [try]): 200 or 500 for order creation and for the contact form,
    200, 400 or 500 for the payment confirmation. *)
Theorem handlers_always_respond
        (env : environ) (transport : trace -> mail -> option exn)
        (gateway : trace -> value -> result value) (req_body : value) :
  (exists resp,
      fst (run (create_order gateway req_body)) = Ok resp
      /\ (status resp = 200 \/ status resp = 500))
  /\ (exists resp,
         fst (run (payment_success env transport req_body)) = Ok resp
         /\ (status resp = 200 \/ status resp = 400 \/ status resp = 500))
  /\ (exists resp,
         fst (run (contact env transport req_body)) = Ok resp
         /\ (status resp = 200 \/ status resp = 500)).
Proof.
  split; [|split].
  - destruct (is_nullish req_body) eqn:Hbody.
    + destruct req_body; try discriminate; eexists; split; try reflexivity; auto.
    + rewrite (create_order_run _ _ Hbody). cbv zeta.
      destruct (order_options _ _ _ _) as [options|e];
        [|eexists; split; [reflexivity|auto]].
      destruct (gateway _ options) as [order|e];
        [|eexists; split; [reflexivity|auto]].
      destruct (Get order "id"); eexists; split; try reflexivity; auto.
  - rewrite payment_success_unfolded. cbv zeta.
    destruct (computed_signature env req_body) as [expected|e];
      [|eexists; split; [reflexivity|auto]].
    destruct (strict_differs expected _); [eexists; split; [reflexivity|auto]|].
    destruct (cartItemsHtml _) as [c|e]; [|eexists; split; [reflexivity|auto]].
    destruct (mailOptions _ _ _ _ _) as [m1|e]; [|eexists; split; [reflexivity|auto]].
    destruct (adminMailOptions _ _ _ _ _) as [m2|e];
      eexists; split; try reflexivity; auto.
  - destruct (is_nullish req_body) eqn:Hbody.
    + destruct req_body; try discriminate; eexists; split; try reflexivity; auto.
    + rewrite (contact_run _ _ _ Hbody). cbv zeta.
      destruct (admin_mail env req_body) as [admin|e];
        [|eexists; split; [reflexivity|auto]].
      destruct (user_mail env req_body) as [user|e];
        [|eexists; split; [reflexivity|auto]].
      destruct (transport _ admin); [eexists; split; [reflexivity|auto]|].
      destruct (transport _ user); eexists; split; try reflexivity; auto.
Qed.

(** X2.  Each handler keeps to its own outside service: order creation
    never hands a mail to the transport, and neither the payment
    confirmation nor the contact form ever calls the gateway. *)
Theorem handlers_keep_to_their_service
        (env : environ) (transport : trace -> mail -> option exn)
        (gateway : trace -> value -> result value) (req_body : value) :
  mails_attempted (snd (run (create_order gateway req_body))) = []
  /\ orders_requested (snd (run (payment_success env transport req_body))) = []
  /\ orders_requested (snd (run (contact env transport req_body))) = [].
Proof.
  split; [|split].
  - destruct (is_nullish req_body) eqn:Hbody.
    + destruct req_body; try discriminate; reflexivity.
    + rewrite (create_order_run _ _ Hbody). cbv zeta.
      destruct (order_options _ _ _ _) as [options|e]; [|reflexivity].
      destruct (gateway _ options) as [order|e]; [|reflexivity].
      destruct (Get order "id"); reflexivity.
  - rewrite payment_success_unfolded. cbv zeta.
    destruct (computed_signature env req_body) as [expected|e].
    2:{ cbn [snd]. rewrite orders_requested_app, orders_requested_before_check.
        reflexivity. }
    destruct (strict_differs expected _); [reflexivity|].
    destruct (cartItemsHtml _) as [c|e]; [|reflexivity].
    destruct (mailOptions _ _ _ _ _) as [m1|e]; [|reflexivity].
    destruct (adminMailOptions _ _ _ _ _) as [m2|e]; cbn [snd];
      rewrite orders_requested_app; cbn [orders_requested];
      rewrite orders_requested_customer_events, ?orders_requested_admin_events;
      reflexivity.
  - destruct (is_nullish req_body) eqn:Hbody.
    + destruct req_body; try discriminate; reflexivity.
    + rewrite (contact_run _ _ _ Hbody). cbv zeta.
      destruct (admin_mail env req_body) as [admin|e]; [|reflexivity].
      destruct (user_mail env req_body) as [user|e]; [|reflexivity].
      destruct (transport _ admin); [reflexivity|].
      destruct (transport _ user); reflexivity.
Qed.

(** X3.  What the payment handler answers, and which mails it hands to
    the transport, do not depend on how the transport settles any send:
    two runs on the same body and configuration with different
    transports give the same response and attempt the same mails. *)
Theorem payment_response_ignores_transport
        (env : environ) (transport1 transport2 : trace -> mail -> option exn)
        (req_body : value) :
  fst (run (payment_success env transport1 req_body))
  = fst (run (payment_success env transport2 req_body))
  /\ mails_attempted (snd (run (payment_success env transport1 req_body)))
     = mails_attempted (snd (run (payment_success env transport2 req_body))).
Proof.
  rewrite !payment_success_unfolded. cbv zeta.
  destruct (computed_signature env req_body) as [expected|e]; [|split; reflexivity].
  destruct (strict_differs expected _); [split; reflexivity|].
  destruct (cartItemsHtml _) as [c|e]; [|split; reflexivity].
  destruct (mailOptions _ _ _ _ _) as [m1|e]; [|split; reflexivity].
  destruct (adminMailOptions _ _ _ _ _) as [m2|e]; (split; [reflexivity|]);
    cbn [snd]; rewrite !mails_attempted_app; cbn [mails_attempted];
    rewrite !customer_events_mails, ?admin_events_mails; reflexivity.
Qed.

(** X4.  In the payment handler a send that throws is never silent: the
    trace holds a [console.error] line carrying that very error, the
    customer's or the admin's according to the mail. *)
Theorem failed_payment_mail_is_logged
        (env : environ) (transport : trace -> mail -> option exn)
        (req_body : value) (m : mail) (e : exn) :
  In (SendMail m (Some e)) (snd (run (payment_success env transport req_body))) ->
  In (Console error "❌ Failed to send customer email:" [inr e])
     (snd (run (payment_success env transport req_body)))
  \/ In (Console error "❌ Failed to send admin email:" [inr e])
        (snd (run (payment_success env transport req_body))).
Proof.
  rewrite payment_success_unfolded. cbv zeta.
  assert (Hcustomer : forall t m1,
             In (SendMail m (Some e)) (customer_events transport t m1) ->
             In (Console error "❌ Failed to send customer email:" [inr e])
                (customer_events transport t m1)).
  { intros t m1. unfold customer_events.
    destruct (transport t m1); simpl; intros [H|[H|[]]]; try discriminate.
    injection H as _ ->. auto. }
  assert (Hadmin : forall t m2,
             In (SendMail m (Some e)) (admin_events transport t m2) ->
             In (Console error "❌ Failed to send admin email:" [inr e])
                (admin_events transport t m2)).
  { intros t m2. unfold admin_events.
    destruct (transport t m2); simpl; intros [H|[H|[]]]; try discriminate.
    injection H as _ ->. auto. }
  destruct (computed_signature env req_body) as [expected|e0].
  2:{ cbn [snd]. unfold before_check.
      destruct (is_nullish req_body); simpl; intros H;
        repeat (destruct H as [H|H]; try discriminate); destruct H. }
  destruct (strict_differs expected _).
  { simpl. intros [H|[H|[]]]; discriminate. }
  destruct (cartItemsHtml _) as [c|e0].
  2:{ simpl. intros [H|[H|[]]]; discriminate. }
  destruct (mailOptions _ _ _ _ _) as [m1|e0].
  2:{ simpl. intros [H|[H|[]]]; discriminate. }
  destruct (adminMailOptions _ _ _ _ _) as [m2|e0]; cbn [snd]; intros Hin.
  - apply in_app_or in Hin. destruct Hin as [[H|Hin]|Hin]; [discriminate| |].
    + left. apply in_or_app. left. right. now apply Hcustomer.
    + right. apply in_or_app. right. now apply Hadmin.
  - apply in_app_or in Hin. destruct Hin as [[H|Hin]|[H|[]]]; try discriminate.
    left. apply in_or_app. left. right. now apply Hcustomer.
Qed.

(** X5.  The payment handler hands at most two mails to the transport,
    and it answers [{success: true}] exactly when it has handed over
    both; a rejected signature leaves none. *)
Theorem payment_success_means_two_mails
        (env : environ) (transport : trace -> mail -> option exn) (req_body : value) :
  let r := run (payment_success env transport req_body) in
  List.length (mails_attempted (snd r)) <= 2
  /\ (fst r = Ok (Response 200 (VObj [("success", VBool true)]))
      <-> List.length (mails_attempted (snd r)) = 2)
  /\ (responded r = Some 400 -> mails_attempted (snd r) = []).
Proof.
  intros r. subst r. rewrite payment_success_unfolded. cbv zeta.
  destruct (computed_signature env req_body) as [expected|e].
  2:{ cbn [fst snd]. rewrite mails_attempted_app, before_check_mails. simpl.
      split; [lia|]. split; [split; discriminate|discriminate]. }
  destruct (strict_differs expected _).
  { simpl. split; [lia|]. split; [split; discriminate|reflexivity]. }
  destruct (cartItemsHtml _) as [c|e].
  2:{ simpl. split; [lia|]. split; [split; discriminate|discriminate]. }
  destruct (mailOptions _ _ _ _ _) as [m1|e].
  2:{ simpl. split; [lia|]. split; [split; discriminate|discriminate]. }
  destruct (adminMailOptions _ _ _ _ _) as [m2|e]; cbn [fst snd];
    rewrite mails_attempted_app; cbn [mails_attempted];
    rewrite customer_events_mails, ?admin_events_mails; simpl.
  - split; [lia|]. split; [split; reflexivity|discriminate].
  - split; [lia|]. split; [split; discriminate|discriminate].
Qed.

(** X6.  The admin's option object is built only after the customer's
    send.  So when the customer's object can be built and the admin's
    cannot (a [phone] that cannot be printed, say), the customer's mail
    has already been handed to the transport, no admin mail follows,
    and the caller is answered 500 with the error of the failed
    formatting. *)
Theorem customer_mail_can_precede_a_500
        (env : environ) (transport : trace -> mail -> option exn)
        (req_body : value) (expected c : string) (m1 : mail) (e : exn) :
  computed_signature env req_body = Ok expected ->
  field req_body "razorpaySignature" = VStr expected ->
  cartItemsHtml (field req_body "cartItems") = Ok c ->
  mailOptions env (field req_body "customerDetails") (field req_body "amount")
              (field req_body "razorpayPaymentId") c = Ok m1 ->
  adminMailOptions env (field req_body "customerDetails") (field req_body "amount")
                   (field req_body "razorpayPaymentId") c = Throw e ->
  let r := run (payment_success env transport req_body) in
  mails_attempted (snd r) = [m1]
  /\ fst r = Ok (Response 500 (VObj [ ("success", VBool false);
                                      ("error", VStr "Payment verification failed");
                                      ("details", message e) ]))
  /\ (transport [callback_received req_body] m1 = None ->
      mails_delivered (snd r) = [m1]).
Proof.
  intros Hsig Hsupplied Hc Hm1 Hm2 r. subst r.
  rewrite payment_success_unfolded, Hsig. cbv zeta.
  apply strict_differs_false in Hsupplied. rewrite Hsupplied, Hc, Hm1, Hm2.
  cbn [fst snd]. rewrite mails_attempted_app, mails_delivered_app.
  cbn [mails_attempted mails_delivered]. rewrite customer_events_mails.
  split; [reflexivity|]. split; [reflexivity|].
  intros Hsent. unfold customer_events. rewrite Hsent. reflexivity.
Qed.

Lemma map_result_Forall2 {A B : Type} (f : A -> result B) (l : list A) (lis : list B) :
  map_result f l = Ok lis <-> Forall2 (fun a b => f a = Ok b) l lis.
Proof.
  revert lis. induction l as [|a l IH]; intros lis; simpl.
  - split.
    + intros [= <-]. constructor.
    + intros H. inversion H. reflexivity.
  - unfold Js.bind. split.
    + destruct (f a) as [b|e] eqn:Hb; [|discriminate].
      destruct (map_result f l) as [bs|e] eqn:Hbs; [|discriminate].
      intros [= <-]. constructor; [exact Hb|]. now apply IH.
    + intros H. inversion H as [|a' b l' bs Hb Hrest]; subst.
      rewrite Hb. apply IH in Hrest. rewrite Hrest. reflexivity.
Qed.

Lemma map_result_throws {A B : Type} (f : A -> result B) (l : list A) (a : A) (e : exn) :
  In a l -> f a = Throw e -> exists e', map_result f l = Throw e'.
Proof.
  induction l as [|x l IH]; [intros []|].
  intros [->|Hin] Ha; simpl; unfold Js.bind.
  - rewrite Ha. eexists. reflexivity.
  - destruct (f x); [|eexists; reflexivity].
    destruct (IH Hin Ha) as [e' ->]. eexists. reflexivity.
Qed.

(** X7.  For a list, the block succeeds exactly when every item can be
    rendered, and then it holds one entry per item, in the order of the
    cart: the entries concatenated inside the "Items Purchased" list
    (nothing at all for the empty list). *)
Theorem cart_block_lists_every_item_in_order (items : list value) (block : string) :
  cartItemsHtml (VArr items) = Ok block
  <-> exists lis,
        Forall2 (fun item li => item_html item = Ok li) items lis
        /\ block = match items with
                   | [] => ""
                   | _ :: _ => items_block (join lis)
                   end.
Proof.
  unfold cartItemsHtml. simpl.
  destruct items as [|item items].
  - split.
    + intros [= <-]. exists []. split; [constructor|reflexivity].
    + intros (lis & _ & ->). reflexivity.
  - unfold Js.bind at 1. split.
    + destruct (map_result item_html (item :: items)) as [lis|e] eqn:Hlis;
        [|discriminate].
      intros [= <-]. exists lis. split; [|reflexivity].
      now apply map_result_Forall2.
    + intros (lis & Hall & ->). apply map_result_Forall2 in Hall.
      rewrite Hall. reflexivity.
Qed.

(** X8.  One item that cannot be rendered spoils the whole request: with
    a matching signature and a cart that contains [null] (or any entry
    on which rendering throws), no mail is handed to the transport and
    the answer is 500. *)
Theorem unrenderable_cart_item_fails_the_payment
        (env : environ) (transport : trace -> mail -> option exn)
        (req_body : value) (expected : string) (items : list value)
        (item : value) (e : exn) :
  computed_signature env req_body = Ok expected ->
  field req_body "razorpaySignature" = VStr expected ->
  field req_body "cartItems" = VArr items ->
  In item items ->
  item_html item = Throw e ->
  let r := run (payment_success env transport req_body) in
  mails_attempted (snd r) = []
  /\ exists e',
       fst r = Ok (Response 500 (VObj [ ("success", VBool false);
                                        ("error", VStr "Payment verification failed");
                                        ("details", message e') ])).
Proof.
  intros Hsig Hsupplied Hcart Hin Hitem r. subst r.
  rewrite payment_success_unfolded, Hsig. cbv zeta.
  apply strict_differs_false in Hsupplied. rewrite Hsupplied, Hcart.
  assert (Hblock : exists e', cartItemsHtml (VArr items) = Throw e').
  { unfold cartItemsHtml. simpl.
    destruct items as [|x items]; [destruct Hin|].
    destruct (map_result_throws item_html _ _ _ Hin Hitem) as [e' He'].
    unfold Js.bind at 1. rewrite He'. eexists. reflexivity. }
  destruct Hblock as [e' ->]. split; [reflexivity|]. exists e'. reflexivity.
Qed.

Lemma item_html_of_null : item_html VNull = Throw (TypeError (ReadOfNullish Null "title")).
Proof. reflexivity. Qed.

(** What an entry shows of an item: [title] unless it is falsy (absent,
    empty, [0], [null], [false]), in which case [name]; and the
    quantity only when it is truthy. *)
Definition shown_label (item : value) : value :=
  if ToBoolean (property item "title") then property item "title"
  else property item "name".

Definition shown_quantity (item : value) : option value :=
  if ToBoolean (property item "quantity") then Some (property item "quantity")
  else None.

Lemma Get_property (v : value) (k : string) :
  is_nullish v = false -> Get v k = Ok (property v k).
Proof.
  unfold property. destruct v; simpl; intros H; try discriminate; reflexivity.
Qed.

Lemma item_html_shown (item : value) :
  is_nullish item = false ->
  item_html item =
  (label <- ToString (shown_label item) ;;
   price <- ToString (property item "price") ;;
   times <- match shown_quantity item with
            | Some quantity => (q <- ToString quantity ;; Ok ("x " ++ q))
            | None => Ok ""
            end ;;
   Ok (lines [ "";
               "            <li>";
               "              <strong>" ++ label ++ "</strong> - ";
               "              ₹" ++ price ++ " " ++ times;
               "            </li>";
               "          " ]))%result.
Proof.
  intros Hitem. unfold item_html, shown_label, shown_quantity.
  rewrite !(Get_property _ _ Hitem). cbn [Js.bind].
  destruct (ToBoolean (property item "title")); cbn [Js.bind];
    destruct (ToString _); cbn [Js.bind]; try reflexivity;
    destruct (ToString (property item "price")); cbn [Js.bind]; try reflexivity;
    destruct (ToBoolean (property item "quantity")); reflexivity.
Qed.

(** X9.  An entry depends on its item only through the label shown
    ([title], or [name] when [title] is falsy), the price and the
    quantity shown: a [name] beside a truthy [title] is ignored, and a
    quantity of [0] renders like no quantity at all. *)
Theorem cart_entry_depends_on_label_price_quantity (item1 item2 : value) :
  is_nullish item1 = false ->
  is_nullish item2 = false ->
  shown_label item1 = shown_label item2 ->
  property item1 "price" = property item2 "price" ->
  shown_quantity item1 = shown_quantity item2 ->
  item_html item1 = item_html item2.
Proof.
  intros H1 H2 Hlabel Hprice Hquantity.
  rewrite (item_html_shown _ H1), (item_html_shown _ H2).
  rewrite Hlabel, Hprice, Hquantity. reflexivity.
Qed.

(** *** The shape of the digest *)

Lemma be_bytes_length (n : nat) (x : Z) : List.length (Crypto.be_bytes n x) = n.
Proof. induction n as [|n IH]; simpl; [reflexivity|now rewrite IH]. Qed.

Definition is_byte (b : Z) : Prop := (0 <= b < 256)%Z.

Lemma be_bytes_are_bytes (n : nat) (x : Z) : Forall is_byte (Crypto.be_bytes n x).
Proof.
  induction n as [|n IH]; simpl; constructor; [|exact IH].
  unfold is_byte. apply Z.mod_pos_bound. lia.
Qed.

Lemma compress_length (h block : list Z) :
  List.length h = 8 -> List.length (Crypto.compress h block) = 8.
Proof.
  intros Hh. unfold Crypto.compress.
  rewrite length_map, length_combine, Hh. reflexivity.
Qed.

Lemma process_length (fuel : nat) (h bs : list Z) :
  List.length h = 8 -> List.length (Crypto.process fuel h bs) = 8.
Proof.
  revert h bs. induction fuel as [|fuel IH]; intros h bs Hh; simpl; [exact Hh|].
  destruct bs; [exact Hh|]. apply IH. now apply compress_length.
Qed.

Lemma words_as_bytes (ws : list Z) :
  List.length (flat_map (Crypto.be_bytes 4) ws) = 4 * List.length ws
  /\ Forall is_byte (flat_map (Crypto.be_bytes 4) ws).
Proof.
  induction ws as [|w ws [IHlen IHall]]; [split; [reflexivity|constructor]|].
  cbn [flat_map]. split.
  - rewrite length_app, be_bytes_length, IHlen. simpl. lia.
  - apply Forall_app. split; [apply be_bytes_are_bytes|exact IHall].
Qed.

(** A SHA-256 digest is 32 bytes, whatever the message. *)
Lemma sha256_is_32_bytes (msg : list Z) :
  List.length (Crypto.sha256 msg) = 32 /\ Forall is_byte (Crypto.sha256 msg).
Proof.
  unfold Crypto.sha256. cbv zeta.
  destruct (words_as_bytes
              (Crypto.process (List.length (Crypto.pad msg)) Crypto.initial_state
                              (Crypto.pad msg))) as [Hlen Hall].
  split; [|exact Hall].
  rewrite Hlen, process_length; reflexivity.
Qed.

Definition is_lower_hex (c : ascii) : bool :=
  let n := nat_of_ascii c in
  ((48 <=? n) && (n <=? 57) || (97 <=? n) && (n <=? 102))%nat.

Fixpoint all_chars (p : ascii -> bool) (s : string) : bool :=
  match s with
  | EmptyString => true
  | String c rest => p c && all_chars p rest
  end.

Lemma hex_digit_is_lower_hex (d : Z) :
  (0 <= d < 16)%Z -> is_lower_hex (Crypto.hex_digit d) = true.
Proof.
  intros Hd.
  replace d with (Z.of_nat (Z.to_nat d)) by lia.
  assert (Hn : (Z.to_nat d < 16)%nat) by lia.
  revert Hn. generalize (Z.to_nat d). intros n Hn.
  do 16 (destruct n as [|n]; [reflexivity|]). lia.
Qed.

Lemma hex_is_lower_hex (bs : list Z) :
  Forall is_byte bs -> all_chars is_lower_hex (Crypto.hex bs) = true.
Proof.
  induction 1 as [|b bs Hb _ IH]; [reflexivity|].
  cbn [Crypto.hex all_chars]. unfold is_byte in Hb.
  rewrite !hex_digit_is_lower_hex, IH; [reflexivity| |].
  - apply Z.mod_pos_bound. lia.
  - split; [apply Z.div_pos; lia|apply Z.div_lt_upper_bound; lia].
Qed.

Lemma createHmac_sha256_hex_shape (key data : string) :
  String.length (Crypto.createHmac_sha256_hex key data) = 64
  /\ all_chars is_lower_hex (Crypto.createHmac_sha256_hex key data) = true.
Proof.
  unfold Crypto.createHmac_sha256_hex, Crypto.hmac_sha256. cbv zeta.
  match goal with
  | |- context [Crypto.hex (Crypto.sha256 ?m)] =>
      destruct (sha256_is_32_bytes m) as [Hlen Hall]
  end.
  split; [rewrite hex_length, Hlen; reflexivity|now apply hex_is_lower_hex].
Qed.

Lemma generatedSignature_shape (env : environ) (orderId paymentId : value)
      (expected : string) :
  generatedSignature env orderId paymentId = Ok expected ->
  String.length expected = 64 /\ all_chars is_lower_hex expected = true.
Proof.
  unfold generatedSignature.
  destruct (RAZORPAY_SECRET env) as [secret|]; [|discriminate].
  unfold Js.bind.
  destruct (ToString orderId); [|discriminate].
  destruct (ToString paymentId); [|discriminate].
  intros [= <-]. apply createHmac_sha256_hex_shape.
Qed.

(** X10.  Whatever the secret and the identifiers, the digest the
    handler compares against is 64 characters long, each a digit or a
    letter from [a] to [f] in lower case.  A supplied signature of
    another length, or with a character outside that set (an upper-case
    digest, say), is therefore always answered 400. *)
Theorem signature_is_64_lowercase_hex
        (env : environ) (transport : trace -> mail -> option exn)
        (req_body : value) (expected : string) :
  computed_signature env req_body = Ok expected ->
  String.length expected = 64
  /\ all_chars is_lower_hex expected = true
  /\ (forall supplied,
         field req_body "razorpaySignature" = VStr supplied ->
         String.length supplied <> 64 \/ all_chars is_lower_hex supplied = false ->
         fst (run (payment_success env transport req_body))
         = Ok (Response 400 (VObj [ ("success", VBool false);
                                    ("message", VStr "Invalid signature") ]))).
Proof.
  intros Hsig.
  assert (Hshape : String.length expected = 64
                   /\ all_chars is_lower_hex expected = true).
  { assert (Hbody := computed_signature_body _ _ _ Hsig).
    rewrite (computed_signature_fields _ _ Hbody) in Hsig.
    exact (generatedSignature_shape _ _ _ _ Hsig). }
  destruct Hshape as [Hlen Hhex]. split; [exact Hlen|]. split; [exact Hhex|].
  intros supplied Hsupplied Hodd.
  rewrite payment_success_unfolded, Hsig. cbv zeta.
  assert (Hneq : field req_body "razorpaySignature" <> VStr expected).
  { rewrite Hsupplied. intros [= ->]. destruct Hodd as [H|H]; [now apply H|].
    rewrite Hhex in H. discriminate. }
  apply strict_differs_true in Hneq. rewrite Hneq. reflexivity.
Qed.


(** X11.  The signed message is the two identifiers joined by a pipe,
    so it does not tell where the order id ends when an identifier
    itself holds a pipe: order [a|b] with payment [c] and order [a] with
    payment [b|c] have the same digest, and a signature is accepted for
    the one exactly when it is accepted for the other. *)
Theorem pipe_in_an_identifier_moves_the_boundary
        (env : environ) (req_body1 req_body2 : value) (a b c : string) :
  field req_body1 "razorpayOrderId" = VStr (a ++ "|" ++ b) ->
  field req_body1 "razorpayPaymentId" = VStr c ->
  field req_body2 "razorpayOrderId" = VStr a ->
  field req_body2 "razorpayPaymentId" = VStr (b ++ "|" ++ c) ->
  field req_body1 "razorpaySignature" = field req_body2 "razorpaySignature" ->
  computed_signature env req_body1 = computed_signature env req_body2
  /\ signature_check env req_body1 = signature_check env req_body2.
Proof.
  intros Ho1 Hp1 Ho2 Hp2 Hsupplied.
  assert (Hbody1 : is_nullish req_body1 = false).
  { destruct req_body1; try reflexivity; discriminate. }
  assert (Hbody2 : is_nullish req_body2 = false).
  { destruct req_body2; try reflexivity; discriminate. }
  assert (Hsame : computed_signature env req_body1 = computed_signature env req_body2).
  { rewrite (computed_signature_fields _ _ Hbody1), (computed_signature_fields _ _ Hbody2).
    rewrite Ho1, Hp1, Ho2, Hp2. unfold generatedSignature.
    destruct (RAZORPAY_SECRET env); [|reflexivity].
    cbn [ToString Js.bind]. now rewrite !string_app_assoc. }
  split; [exact Hsame|].
  unfold signature_check. now rewrite Hsame, Hsupplied.
Qed.

(** *** Start-up *)


(** X13.  On a server that listens the gateway credentials are there for
    the handlers: the key endpoint answers 200 with a non-empty
    [key_id], and the payment handler always computes a digest for
    identifiers that are strings (its key is a non-empty string). *)
Theorem listening_server_has_gateway_credentials
        (rt : runtime) (port : string + nat) (routes : list route) :
  fst (startup rt) = Listening port routes ->
  exists key_id secret,
    key_id <> "" /\ secret <> ""
    /\ fst (run (razorpay_key (process_env rt)))
       = Ok (Response 200 (VObj [("key_id", VStr key_id)]))
    /\ snd (run (razorpay_key (process_env rt))) = []
    /\ forall orderId paymentId : string,
         generatedSignature (process_env rt) (VStr orderId) (VStr paymentId)
         = Ok (Crypto.createHmac_sha256_hex secret (orderId ++ "|" ++ paymentId)).
Proof.
  unfold startup. cbv zeta.
  destruct (gateway_credentials_missing (process_env rt)) eqn:Hgateway; [discriminate|].
  intros _. unfold gateway_credentials_missing in Hgateway.
  apply orb_false_iff in Hgateway. destruct Hgateway as [Hkey Hsecret].
  apply missing_false in Hkey. destruct Hkey as (key_id & Hkey & Hk).
  apply missing_false in Hsecret. destruct Hsecret as (secret & Hsecret & Hs).
  exists key_id, secret. split; [exact Hk|]. split; [exact Hs|].
  unfold razorpay_key, generatedSignature. rewrite Hkey, Hsecret.
  repeat split.
Qed.

(** *** Order creation *)

(** X14.  When the gateway call throws, the handler answers 500 with
    [{error: "Failed to create order", details}], [details] being the
    message of the gateway's error, and it has called the gateway once:
    there is no second attempt. *)
Theorem gateway_failure_is_answered_500
        (gateway : trace -> value -> result value) (req_body : value) (e : exn) :
  is_nullish req_body = false ->
  is_nullish (field req_body "customerDetails") = false ->
  gateway [creating_order req_body] (forwarded_options req_body) = Throw e ->
  let r := run (create_order gateway req_body) in
  fst r = Ok (Response 500 (VObj [ ("error", VStr "Failed to create order");
                                   ("details", message e) ]))
  /\ orders_requested (snd r) = [forwarded_options req_body].
Proof.
  intros Hbody Hcustomer Hgateway r. subst r.
  rewrite (create_order_run _ _ Hbody), order_options_cases, Hcustomer. cbv zeta.
  rewrite Hgateway. split; reflexivity.
Qed.

(** X15.  The id of the order is read, for the log line, inside the
    [try]: an order that is [null] or [undefined] turns a resolved
    gateway call into a 500, after the order has been requested. *)
Theorem order_without_object_is_answered_500
        (gateway : trace -> value -> result value) (req_body order : value) :
  is_nullish req_body = false ->
  is_nullish (field req_body "customerDetails") = false ->
  gateway [creating_order req_body] (forwarded_options req_body) = Ok order ->
  is_nullish order = true ->
  let r := run (create_order gateway req_body) in
  (exists e, Get order "id" = Throw e
             /\ fst r = Ok (Response 500 (VObj [ ("error", VStr "Failed to create order");
                                                 ("details", message e) ])))
  /\ orders_requested (snd r) = [forwarded_options req_body].
Proof.
  intros Hbody Hcustomer Hgateway Horder r. subst r.
  rewrite (create_order_run _ _ Hbody), order_options_cases, Hcustomer. cbv zeta.
  rewrite Hgateway.
  destruct order; try discriminate; (split; [eexists; split; reflexivity|reflexivity]).
Qed.

(** X16.  [cartItems] is bound from the body and never used: two
    requests from which the handler reads the same [amount],
    [currency], [receipt] and [customerDetails] run alike, console
    lines included, whatever their carts. *)
Theorem create_order_ignores_cart
        (gateway : trace -> value -> result value) (req_body1 req_body2 : value) :
  destructure req_body1 "amount" = destructure req_body2 "amount" ->
  destructure req_body1 "currency" = destructure req_body2 "currency" ->
  destructure req_body1 "receipt" = destructure req_body2 "receipt" ->
  destructure req_body1 "customerDetails" = destructure req_body2 "customerDetails" ->
  run (create_order gateway req_body1) = run (create_order gateway req_body2).
Proof.
  intros Hamount Hcurrency Hreceipt Hcustomer.
  destruct (is_nullish req_body1) eqn:Hbody1.
  - destruct req_body1; try discriminate;
      destruct req_body2; try discriminate; reflexivity.
  - assert (Hbody2 : is_nullish req_body2 = false).
    { destruct req_body1; try discriminate;
        destruct req_body2; try reflexivity; discriminate. }
    rewrite (create_order_run _ _ Hbody1), (create_order_run _ _ Hbody2).
    unfold creating_order, field.
    rewrite Hamount, Hcurrency, Hreceipt, Hcustomer. reflexivity.
Qed.

(** *** The contact form *)

(** X17.  When it is the confirmation to the user that throws, the admin
    notification has already been delivered: the trace holds both
    attempts, only the admin's resolved, and the caller is answered 500
    with the message of that error. *)
Theorem failed_confirmation_follows_a_delivered_notification
        (env : environ) (transport : trace -> mail -> option exn)
        (req_body : value) (user : mail) (e : exn) :
  user_mail env req_body = Ok user ->
  In (SendMail user (Some e)) (snd (run (contact env transport req_body))) ->
  let r := run (contact env transport req_body) in
  exists admin,
    admin_mail env req_body = Ok admin
    /\ mails_attempted (snd r) = [admin; user]
    /\ mails_delivered (snd r) = [admin]
    /\ fst r = Ok (Response 500 (VObj [ ("success", VBool false);
                                        ("message", VStr "Failed to send message");
                                        ("details", message e) ])).
Proof.
  intros Huser Hin r. subst r. revert Hin.
  destruct (is_nullish req_body) eqn:Hbody.
  { destruct req_body; try discriminate; simpl; intros [H|[]]; discriminate. }
  rewrite (contact_run _ _ _ Hbody). cbv zeta. rewrite Huser.
  destruct (admin_mail env req_body) as [admin|e0] eqn:Hadmin.
  2:{ rewrite contact_failed_run. simpl. intros [H|[H|[]]]; discriminate. }
  assert (Hdistinct := admin_mail_is_not_user_mail _ _ _ _ Hadmin Huser).
  destruct (transport _ admin) as [e1|].
  { rewrite contact_failed_run. simpl. intros [H|[H|[H|[]]]]; try discriminate.
    injection H as H _. contradiction. }
  destruct (transport _ user) as [e2|].
  - rewrite contact_failed_run. simpl.
    intros [H|[H|[H|[H|[H|[]]]]]]; try discriminate.
    injection H as ->. exists admin. repeat split.
  - simpl. intros [H|[H|[H|[H|[H|[]]]]]]; discriminate.
Qed.

Definition is_string (v : value) : bool :=
  match v with VStr _ => true | _ => false end.

(** X18.  Nothing checks the message before [replace] is called on it:
    when it is not a string (absent, a number, a list) no option object
    is built, no mail is handed to the transport and the answer is 500. *)
Theorem contact_without_text_message_sends_nothing
        (env : environ) (transport : trace -> mail -> option exn) (req_body : value) :
  is_string (field req_body "message") = false ->
  let r := run (contact env transport req_body) in
  mails_attempted (snd r) = []
  /\ exists e,
       fst r = Ok (Response 500 (VObj [ ("success", VBool false);
                                        ("message", VStr "Failed to send message");
                                        ("details", message e) ])).
Proof.
  intros Hmessage r. subst r.
  destruct (is_nullish req_body) eqn:Hbody.
  { destruct req_body; try discriminate; (split; [reflexivity|eexists; reflexivity]). }
  rewrite (contact_run _ _ _ Hbody). cbv zeta.
  assert (Hadmin : exists e, admin_mail env req_body = Throw e).
  { unfold admin_mail, contactMailOptions. rewrite sender_line. unfold Js.bind.
    destruct (ToString (field req_body "subject")); [|eexists; reflexivity].
    destruct (ToString (field req_body "name")); [|eexists; reflexivity].
    destruct (ToString (field req_body "email")); [|eexists; reflexivity].
    destruct (field req_body "message"); try discriminate; eexists; reflexivity. }
  destruct Hadmin as [e ->]. rewrite contact_failed_run.
  split; [reflexivity|]. exists e. reflexivity.
Qed.

(** X19.  Where the contact mails go: the notification to the configured
    [EMAIL_USER] with the submitted subject after "New Contact Form: ",
    the confirmation to whatever the body gave as [email], taken as it
    is, under a fixed subject. *)
Theorem contact_mail_recipients
        (env : environ) (transport : trace -> mail -> option exn)
        (req_body : value) (m : mail) :
  In m (mails_attempted (snd (run (contact env transport req_body)))) ->
  (admin_mail env req_body = Ok m
   /\ to m = env_value (EMAIL_USER env)
   /\ exists title,
        ToString (field req_body "subject") = Ok title
        /\ subject m = "New Contact Form: " ++ title)
  \/ (user_mail env req_body = Ok m
      /\ to m = field req_body "email"
      /\ subject m = "Thank You for Contacting Mrs. Shereen").
Proof.
  intros Hin. destruct (contact_mails _ _ _ _ Hin) as [H|H]; [left|right];
    (split; [exact H|]); revert H.
  - unfold admin_mail, contactMailOptions. rewrite sender_line. unfold Js.bind.
    destruct (ToString (field req_body "subject")) as [title|]; [|discriminate].
    destruct (ToString (field req_body "name")); [|discriminate].
    destruct (ToString (field req_body "email")); [|discriminate].
    destruct (replace _); [|discriminate].
    intros [= <-]. split; [reflexivity|]. exists title. split; reflexivity.
  - unfold user_mail, userConfirmationOptions. rewrite sender_line. unfold Js.bind.
    destruct (ToString (field req_body "name")); [|discriminate].
    destruct (ToString (field req_body "subject")); [|discriminate].
    destruct (replace _); [|discriminate].
    intros [= <-]. split; reflexivity.
Qed.

(** *** Mails of the payment handler *)

(** X20.  Where the payment mails go: the confirmation to whatever
    [customerDetails.email] is, taken as it is, the alert to the
    configured [EMAIL_USER]; each under its fixed subject. *)
Theorem payment_mail_recipients
        (env : environ) (transport : trace -> mail -> option exn)
        (req_body : value) (m : mail) :
  In m (mails_attempted (snd (run (payment_success env transport req_body)))) ->
  (to m = property (field req_body "customerDetails") "email"
   /\ subject m = "Booking Confirmation - Mrs. Shereen Life Coaching")
  \/ (to m = env_value (EMAIL_USER env)
      /\ subject m = "New Booking Alert - Life Coaching").
Proof.
  intros Hin.
  destruct (payment_success_mails _ _ _ _ Hin) as (expected & c & _ & _ & _ & [H|H]);
    [left|right]; revert H.
  - intros H. assert (Hto := mailOptions_to _ _ _ _ _ _ H). revert H.
    unfold mailOptions. rewrite sender_line. unfold Js.bind.
    unfold property. rewrite Hto.
    destruct (Get _ "email"); [|discriminate].
    destruct (Get _ "fullName"); [|discriminate].
    destruct (ToString _); [|discriminate].
    destruct (toFixed _ 2); [|discriminate].
    destruct (ToString _); [|discriminate].
    intros [= <-]. split; reflexivity.
  - unfold adminMailOptions. rewrite sender_line. unfold Js.bind.
    destruct (Get _ "fullName"); [|discriminate].
    destruct (ToString _); [|discriminate].
    destruct (Get _ "email"); [|discriminate].
    destruct (ToString _); [|discriminate].
    destruct (Get _ "phone"); [|discriminate].
    destruct (ToString _); [|discriminate].
    destruct (toFixed _ 2); [|discriminate].
    destruct (ToString _); [|discriminate].
    intros [= <-]. split; reflexivity.
Qed.

(** *** What the handlers read of the configuration *)

Lemma sender_reads_mail_user (env1 env2 : environ) (who : string) :
  EMAIL_USER env1 = EMAIL_USER env2 -> sender who env1 = sender who env2.
Proof. unfold sender. now intros ->. Qed.

(** X21.  Of the process environment the two mailing handlers read only
    [RAZORPAY_SECRET] and [EMAIL_USER]: under two configurations that
    agree on these, each runs alike on every body, whatever
    [EMAIL_PASSWORD], [RAZORPAY_KEY_ID] and [PORT] are. *)
Theorem handlers_read_only_secret_and_mail_user
        (env1 env2 : environ) (transport : trace -> mail -> option exn)
        (req_body : value) :
  RAZORPAY_SECRET env1 = RAZORPAY_SECRET env2 ->
  EMAIL_USER env1 = EMAIL_USER env2 ->
  run (payment_success env1 transport req_body)
  = run (payment_success env2 transport req_body)
  /\ run (contact env1 transport req_body) = run (contact env2 transport req_body).
Proof.
  intros Hsecret Huser. split.
  - rewrite !payment_success_unfolded.
    assert (Hsig : computed_signature env1 req_body = computed_signature env2 req_body).
    { unfold computed_signature, generatedSignature. now rewrite Hsecret. }
    assert (Hm1 : forall cd a p c, mailOptions env1 cd a p c = mailOptions env2 cd a p c).
    { intros. unfold mailOptions.
      now rewrite (sender_reads_mail_user env1 env2 _ Huser). }
    assert (Hm2 : forall cd a p c,
               adminMailOptions env1 cd a p c = adminMailOptions env2 cd a p c).
    { intros. unfold adminMailOptions.
      now rewrite (sender_reads_mail_user env1 env2 _ Huser), Huser. }
    rewrite Hsig. cbv zeta.
    destruct (computed_signature env2 req_body) as [expected|e]; [|reflexivity].
    destruct (strict_differs expected _); [reflexivity|].
    destruct (cartItemsHtml _) as [c|e]; [|reflexivity].
    rewrite Hm1. destruct (mailOptions env2 _ _ _ _) as [m1|e]; [|reflexivity].
    rewrite Hm2. reflexivity.
  - destruct (is_nullish req_body) eqn:Hbody.
    + destruct req_body; try discriminate; reflexivity.
    + rewrite !(contact_run _ _ _ Hbody).
      assert (Ha : admin_mail env1 req_body = admin_mail env2 req_body).
      { unfold admin_mail, contactMailOptions.
        now rewrite (sender_reads_mail_user env1 env2 _ Huser), Huser. }
      assert (Hu : user_mail env1 req_body = user_mail env2 req_body).
      { unfold user_mail, userConfirmationOptions.
        now rewrite (sender_reads_mail_user env1 env2 _ Huser). }
      rewrite Ha, Hu. reflexivity.
Qed.

Lemma mailOptions_built_alike (env1 env2 : environ) (cd a p : value) (c : string) :
  match mailOptions env1 cd a p c, mailOptions env2 cd a p c with
  | Ok _, Ok _ => True
  | Throw e1, Throw e2 => e1 = e2
  | _, _ => False
  end.
Proof.
  unfold mailOptions. rewrite !sender_line. unfold Js.bind.
  destruct (Get cd "email"); [|reflexivity].
  destruct (Get cd "fullName"); [|reflexivity].
  destruct (ToString _); [|reflexivity].
  destruct (toFixed a 2); [|reflexivity].
  destruct (ToString p); [exact I|reflexivity].
Qed.

Lemma adminMailOptions_built_alike (env1 env2 : environ) (cd a p : value) (c : string) :
  match adminMailOptions env1 cd a p c, adminMailOptions env2 cd a p c with
  | Ok _, Ok _ => True
  | Throw e1, Throw e2 => e1 = e2
  | _, _ => False
  end.
Proof.
  unfold adminMailOptions. rewrite !sender_line. unfold Js.bind.
  destruct (Get cd "fullName"); [|reflexivity].
  destruct (ToString _); [|reflexivity].
  destruct (Get cd "email"); [|reflexivity].
  destruct (ToString _); [|reflexivity].
  destruct (Get cd "phone"); [|reflexivity].
  destruct (ToString _); [|reflexivity].
  destruct (toFixed a 2); [|reflexivity].
  destruct (ToString p); [exact I|reflexivity].
Qed.

(** X22.  The mail settings never change what the payment handler
    answers, nor how many mails it hands to the transport: with
    [EMAIL_USER] unset the same sends are attempted (from an address
    printed as [undefined]) and the response is the same. *)
Theorem mail_settings_do_not_change_the_payment_response
        (env1 env2 : environ) (transport1 transport2 : trace -> mail -> option exn)
        (req_body : value) :
  RAZORPAY_SECRET env1 = RAZORPAY_SECRET env2 ->
  fst (run (payment_success env1 transport1 req_body))
  = fst (run (payment_success env2 transport2 req_body))
  /\ List.length (mails_attempted (snd (run (payment_success env1 transport1 req_body))))
     = List.length (mails_attempted (snd (run (payment_success env2 transport2 req_body)))).
Proof.
  intros Hsecret. rewrite !payment_success_unfolded.
  assert (Hsig : computed_signature env1 req_body = computed_signature env2 req_body).
  { unfold computed_signature, generatedSignature. now rewrite Hsecret. }
  rewrite Hsig. cbv zeta.
  destruct (computed_signature env2 req_body) as [expected|e]; [|split; reflexivity].
  destruct (strict_differs expected _); [split; reflexivity|].
  destruct (cartItemsHtml _) as [c|e]; [|split; reflexivity].
  pose proof (mailOptions_built_alike env1 env2 (field req_body "customerDetails")
                (field req_body "amount") (field req_body "razorpayPaymentId") c) as H1.
  destruct (mailOptions env1 _ _ _ _) as [m1|e1];
    destruct (mailOptions env2 _ _ _ _) as [m1'|e1']; try contradiction.
  2:{ subst. split; reflexivity. }
  pose proof (adminMailOptions_built_alike env1 env2 (field req_body "customerDetails")
                (field req_body "amount") (field req_body "razorpayPaymentId") c) as H2.
  destruct (adminMailOptions env1 _ _ _ _) as [m2|e2];
    destruct (adminMailOptions env2 _ _ _ _) as [m2'|e2']; try contradiction;
    subst; (split; [reflexivity|]); cbn [snd];
    rewrite !mails_attempted_app; cbn [mails_attempted];
    rewrite !customer_events_mails, ?admin_events_mails; reflexivity.
Qed.

(** *** The line breaks of a contact message *)

Fixpoint count_newlines (s : string) : nat :=
  match s with
  | EmptyString => 0
  | String c rest =>
      (if Ascii.eqb c (ascii_of_nat 10) then 1 else 0) + count_newlines rest
  end.

Lemma string_length_app (a b : string) :
  String.length (a ++ b) = String.length a + String.length b.
Proof. induction a as [|x a IH]; simpl; [reflexivity|now rewrite IH]. Qed.

(** X23.  The replacement works piecewise and once is enough: it
    distributes over concatenation, applying it again changes nothing,
    and the result is three characters longer per newline of the
    message. *)
Theorem replace_newlines_algebra (a b : string) :
  replace_newlines (a ++ b) = replace_newlines a ++ replace_newlines b
  /\ replace_newlines (replace_newlines a) = replace_newlines a
  /\ String.length (replace_newlines a) = String.length a + 3 * count_newlines a.
Proof.
  split; [|split].
  - induction a as [|c a IH]; [reflexivity|].
    cbn [append replace_newlines].
    destruct (Ascii.eqb c (ascii_of_nat 10)); rewrite IH; reflexivity.
  - apply replace_newlines_without_newline, replace_newlines_leaves_none.
  - induction a as [|c a IH]; [reflexivity|].
    cbn [replace_newlines count_newlines String.length].
    destruct (Ascii.eqb c (ascii_of_nat 10)); cbn [append String.length];
      rewrite IH; lia.
Qed.

(** *** Requests that follow one another *)

(** The payment handler started on a trace that is not empty: what
    happened before is kept and the handler's own events come after. *)
Lemma payment_success_from (env : environ) (transport : trace -> mail -> option exn)
      (req_body : value) (t : trace) :
  payment_success env transport req_body t =
  match computed_signature env req_body with
  | Throw e => payment_success_failed e (t ++ before_check req_body)%list
  | Ok expected =>
      if strict_differs expected (field req_body "razorpaySignature")
      then invalid_signature (t ++ [callback_received req_body])%list
      else try_catch
             (notify env transport
                     (field req_body "customerDetails")
                     (field req_body "cartItems")
                     (field req_body "amount")
                     (field req_body "razorpayPaymentId"))
             payment_success_failed
             (t ++ [callback_received req_body])%list
  end.
Proof.
  destruct (is_nullish req_body) eqn:Hbody.
  - unfold before_check. rewrite Hbody, app_nil_r.
    destruct req_body; try discriminate; reflexivity.
  - rewrite (computed_signature_fields _ _ Hbody).
    unfold before_check. rewrite Hbody.
    unfold payment_success, try_catch, mbind, pure.
    rewrite !(destructure_field _ _ Hbody).
    unfold console_log, emit, callback_received. simpl.
    destruct (generatedSignature _ _ _) as [expected|e]; [|reflexivity].
    destruct (strict_differs expected _); reflexivity.
Qed.

(** X24.  Nothing remembers a payment that was already confirmed: on a
    process that has handled any requests before (this very one
    included), a correctly signed request whose mails can be built is
    answered with success again and both mails are handed to the
    transport once more, after all the earlier ones. *)
Theorem repeated_confirmation_sends_again
        (env : environ) (transport : trace -> mail -> option exn)
        (req_body : value) (expected c : string) (m1 m2 : mail) (t : trace) :
  computed_signature env req_body = Ok expected ->
  field req_body "razorpaySignature" = VStr expected ->
  cartItemsHtml (field req_body "cartItems") = Ok c ->
  mailOptions env (field req_body "customerDetails") (field req_body "amount")
              (field req_body "razorpayPaymentId") c = Ok m1 ->
  adminMailOptions env (field req_body "customerDetails") (field req_body "amount")
                   (field req_body "razorpayPaymentId") c = Ok m2 ->
  let again := payment_success env transport req_body t in
  fst again = Ok (Response 200 (VObj [("success", VBool true)]))
  /\ mails_attempted (snd again) = (mails_attempted t ++ [m1; m2])%list
  /\ (t = snd (run (payment_success env transport req_body)) ->
      mails_attempted (snd again) = [m1; m2; m1; m2]).
Proof.
  intros Hsig Hsupplied Hc Hm1 Hm2 again. subst again.
  assert (Hagain :
    fst (payment_success env transport req_body t) = Ok success
    /\ mails_attempted (snd (payment_success env transport req_body t))
       = (mails_attempted t ++ [m1; m2])%list).
  { rewrite payment_success_from, Hsig.
    pose proof Hsupplied as Hcmp. apply strict_differs_false in Hcmp. rewrite Hcmp.
    unfold try_catch. rewrite notify_run, Hc, Hm1, Hm2. cbv zeta.
    split; [reflexivity|]. cbn [snd].
    rewrite !mails_attempted_app, customer_events_mails, admin_events_mails.
    simpl. rewrite app_nil_r, <- app_assoc. reflexivity. }
  destruct Hagain as [Hresponse Hmails].
  split; [exact Hresponse|]. split; [exact Hmails|].
  intros ->. rewrite Hmails.
  rewrite (proj2 (accepted_run _ _ _ _ _ _ _ Hsig Hsupplied Hc Hm1 Hm2)).
  reflexivity.
Qed.

(** X25.  Order creation keeps no memory either: whatever the process
    has done before, a request that carries customer details adds
    exactly one gateway call with its own options, so the same request
    sent twice asks the gateway for two orders. *)
Theorem every_order_request_reaches_the_gateway
        (gateway : trace -> value -> result value) (req_body : value) (t : trace) :
  is_nullish req_body = false ->
  is_nullish (field req_body "customerDetails") = false ->
  orders_requested (snd (create_order gateway req_body t))
  = (orders_requested t ++ [forwarded_options req_body])%list
  /\ (t = snd (run (create_order gateway req_body)) ->
      orders_requested (snd (create_order gateway req_body t))
      = [forwarded_options req_body; forwarded_options req_body]).
Proof.
  intros Hbody Hcustomer.
  assert (Hfrom : forall t0,
             orders_requested (snd (create_order gateway req_body t0))
             = (orders_requested t0 ++ [forwarded_options req_body])%list).
  { intros t0.
    unfold create_order, try_catch, mbind, pure.
    rewrite !(destructure_field _ _ Hbody).
    unfold console_log, emit. rewrite order_options_cases, Hcustomer.
    unfold orders_create.
    destruct (gateway _ (forwarded_options req_body)) as [order|e].
    - destruct (Get order "id") as [id|e]; cbn [snd ret create_order_failed];
        unfold create_order_failed, mbind, console_error, emit, ret; cbn [snd];
        rewrite !orders_requested_app; simpl; rewrite ?app_nil_r; reflexivity.
    - unfold create_order_failed, mbind, console_error, emit, ret; cbn [snd].
      rewrite !orders_requested_app. simpl. rewrite ?app_nil_r. reflexivity. }
  split; [apply Hfrom|].
  intros ->. rewrite Hfrom. unfold run. rewrite Hfrom. reflexivity.
Qed.

End FurtherProperties.

(* ================================================================== *)
(** ** Worked examples for the further properties                      *)
(* ================================================================== *)

Definition smtp_error : exn := Thrown (VStr "connect ECONNREFUSED").

Lemma paid_with_smtp_down_fails_the_confirmation :
  In (SendMail example_confirmation (Some smtp_error))
     (snd (run (payment_success example_env smtp_down paid))).
Proof.
  rewrite payment_success_unfolded. unfold paid.
  rewrite example_computed_signature. right. left. reflexivity.
Qed.

Lemma failed_payment_mail_is_logged_witness :
  In (SendMail example_confirmation (Some smtp_error))
     (snd (run (payment_success example_env smtp_down paid)))
  /\ (In (Console error "❌ Failed to send customer email:" [inr smtp_error])
         (snd (run (payment_success example_env smtp_down paid)))
      \/ In (Console error "❌ Failed to send admin email:" [inr smtp_error])
            (snd (run (payment_success example_env smtp_down paid)))).
Proof.
  split; [exact paid_with_smtp_down_fails_the_confirmation|].
  exact (failed_payment_mail_is_logged example_env smtp_down paid example_confirmation
           smtp_error paid_with_smtp_down_fails_the_confirmation).
Defined.

(** A payment whose customer gave a [phone] that cannot be printed: an
    object with a [toString] property of its own. *)
Definition paid_with_odd_phone : value :=
  signed example_signature
         [ ("customerDetails",
            VObj [ ("fullName", VStr "Ada"); ("email", VStr "ada@example.com");
                   ("phone", VObj [("toString", VStr "5550100")]) ]);
           ("amount", VNum 1000%Z) ].

Lemma customer_mail_can_precede_a_500_witness :
  exists c m1 e,
    computed_signature example_env paid_with_odd_phone = Ok example_signature
    /\ field paid_with_odd_phone "razorpaySignature" = VStr example_signature
    /\ cartItemsHtml (field paid_with_odd_phone "cartItems") = Ok c
    /\ mailOptions example_env (field paid_with_odd_phone "customerDetails")
                   (field paid_with_odd_phone "amount")
                   (field paid_with_odd_phone "razorpayPaymentId") c = Ok m1
    /\ adminMailOptions example_env (field paid_with_odd_phone "customerDetails")
                        (field paid_with_odd_phone "amount")
                        (field paid_with_odd_phone "razorpayPaymentId") c = Throw e
    /\ mails_attempted (snd (run (payment_success example_env delivers paid_with_odd_phone)))
       = [m1]
    /\ mails_delivered (snd (run (payment_success example_env delivers paid_with_odd_phone)))
       = [m1]
    /\ fst (run (payment_success example_env delivers paid_with_odd_phone))
       = Ok (Response 500 (VObj [ ("success", VBool false);
                                  ("error", VStr "Payment verification failed");
                                  ("details", message e) ])).
Proof.
  eexists. eexists. eexists.
  split; [apply example_computed_signature|].
  split; [reflexivity|]. split; [reflexivity|]. split; [reflexivity|].
  split; [reflexivity|].
  destruct (customer_mail_can_precede_a_500
              example_env delivers paid_with_odd_phone example_signature _ _ _
              (example_computed_signature _ _) eq_refl eq_refl eq_refl eq_refl)
    as (Hattempted & Hresponse & Hdelivered).
  split; [exact Hattempted|]. split; [exact (Hdelivered eq_refl)|exact Hresponse].
Defined.

(** A cart whose second entry is [null]. *)
Definition paid_with_null_item : value :=
  signed example_signature
         [ ("customerDetails", ada);
           ("cartItems",
            VArr [ VObj [("title", VStr "Session"); ("price", VNum 500%Z)]; VNull ]);
           ("amount", VNum 1000%Z) ].

Lemma unrenderable_cart_item_fails_the_payment_witness :
  computed_signature example_env paid_with_null_item = Ok example_signature
  /\ field paid_with_null_item "razorpaySignature" = VStr example_signature
  /\ field paid_with_null_item "cartItems"
     = VArr [ VObj [("title", VStr "Session"); ("price", VNum 500%Z)]; VNull ]
  /\ In VNull [ VObj [("title", VStr "Session"); ("price", VNum 500%Z)]; VNull ]
  /\ item_html VNull = Throw (TypeError (ReadOfNullish Null "title"))
  /\ mails_attempted (snd (run (payment_success example_env delivers paid_with_null_item)))
     = []
  /\ exists e',
       fst (run (payment_success example_env delivers paid_with_null_item))
       = Ok (Response 500 (VObj [ ("success", VBool false);
                                  ("error", VStr "Payment verification failed");
                                  ("details", message e') ])).
Proof.
  split; [apply example_computed_signature|].
  split; [reflexivity|]. split; [reflexivity|].
  split; [right; left; reflexivity|]. split; [reflexivity|].
  exact (unrenderable_cart_item_fails_the_payment
           example_env delivers paid_with_null_item example_signature _ VNull _
           (example_computed_signature _ _) eq_refl eq_refl
           (or_intror (or_introl eq_refl)) eq_refl).
Defined.

(** Two items that show alike: a [name] hidden by the title and a
    quantity of zero make no difference. *)
Definition session_item : value :=
  VObj [ ("title", VStr "Session"); ("price", VNum 500%Z) ].

Definition session_item_with_extras : value :=
  VObj [ ("title", VStr "Session"); ("name", VStr "Other");
         ("price", VNum 500%Z); ("quantity", VNum 0%Z) ].

Lemma cart_entry_depends_on_label_price_quantity_witness :
  is_nullish session_item = false
  /\ is_nullish session_item_with_extras = false
  /\ shown_label session_item = shown_label session_item_with_extras
  /\ property session_item "price" = property session_item_with_extras "price"
  /\ shown_quantity session_item = shown_quantity session_item_with_extras
  /\ item_html session_item = item_html session_item_with_extras.
Proof.
  do 5 (split; [reflexivity|]).
  exact (cart_entry_depends_on_label_price_quantity
           session_item session_item_with_extras
           eq_refl eq_refl eq_refl eq_refl eq_refl).
Defined.

(** The right digest in upper case. *)
Definition paid_in_upper_case : value :=
  signed "742A38A9B459999E738A2D54E89B9F64B144535A09EFAF21054DC143460D16C7"
         [ ("customerDetails", ada); ("amount", VNum 1000%Z) ].

Lemma signature_is_64_lowercase_hex_witness :
  computed_signature example_env paid_in_upper_case = Ok example_signature
  /\ String.length example_signature = 64
  /\ all_chars is_lower_hex example_signature = true
  /\ fst (run (payment_success example_env delivers paid_in_upper_case))
     = Ok (Response 400 (VObj [ ("success", VBool false);
                                ("message", VStr "Invalid signature") ])).
Proof.
  split; [apply example_computed_signature|].
  destruct (signature_is_64_lowercase_hex
              example_env delivers paid_in_upper_case example_signature
              (example_computed_signature _ _)) as (Hlength & Hhex & Hrejected).
  split; [exact Hlength|]. split; [exact Hhex|].
  exact (Hrejected _ eq_refl (or_intror eq_refl)).
Defined.

(** The same three pieces, cut before or after the middle one. *)
Definition order_with_pipe : value :=
  VObj [ ("razorpayOrderId", VStr "order_1|x"); ("razorpayPaymentId", VStr "pay_1");
         ("razorpaySignature", VStr "0f") ].

Definition payment_with_pipe : value :=
  VObj [ ("razorpayOrderId", VStr "order_1"); ("razorpayPaymentId", VStr "x|pay_1");
         ("razorpaySignature", VStr "0f") ].

Lemma pipe_in_an_identifier_moves_the_boundary_witness :
  field order_with_pipe "razorpayOrderId" = VStr ("order_1" ++ "|" ++ "x")
  /\ field order_with_pipe "razorpayPaymentId" = VStr "pay_1"
  /\ field payment_with_pipe "razorpayOrderId" = VStr "order_1"
  /\ field payment_with_pipe "razorpayPaymentId" = VStr ("x" ++ "|" ++ "pay_1")
  /\ field order_with_pipe "razorpaySignature"
     = field payment_with_pipe "razorpaySignature"
  /\ computed_signature example_env order_with_pipe
     = computed_signature example_env payment_with_pipe
  /\ signature_check example_env order_with_pipe
     = signature_check example_env payment_with_pipe.
Proof.
  do 5 (split; [reflexivity|]).
  exact (pipe_in_an_identifier_moves_the_boundary
           example_env order_with_pipe payment_with_pipe "order_1" "x" "pay_1"
           eq_refl eq_refl eq_refl eq_refl eq_refl).
Defined.

Definition listening_host : runtime := host example_env.

Lemma listening_server_has_gateway_credentials_witness :
  fst (startup listening_host)
  = Listening (inr 5000)
              [ (GET, "/api/razorpay-key"); (POST, "/api/create-order");
                (POST, "/api/payment-success"); (GET, "*"); (POST, "/api/contact") ]
  /\ exists key_id secret,
       key_id <> "" /\ secret <> ""
       /\ fst (run (razorpay_key (process_env listening_host)))
          = Ok (Response 200 (VObj [("key_id", VStr key_id)]))
       /\ snd (run (razorpay_key (process_env listening_host))) = []
       /\ forall orderId paymentId : string,
            generatedSignature (process_env listening_host) (VStr orderId)
                               (VStr paymentId)
            = Ok (Crypto.createHmac_sha256_hex secret (orderId ++ "|" ++ paymentId)).
Proof.
  split; [reflexivity|].
  exact (listening_server_has_gateway_credentials listening_host _ _ eq_refl).
Defined.


(** A gateway that refuses every order, and one that resolves with
    nothing. *)
Definition gateway_refuses : trace -> value -> result value :=
  fun _ _ => Throw (Thrown (VStr "Authentication failed")).

Definition gateway_resolves_null : trace -> value -> result value :=
  fun _ _ => Ok VNull.

Lemma gateway_failure_is_answered_500_witness :
  is_nullish order_request = false
  /\ is_nullish (field order_request "customerDetails") = false
  /\ gateway_refuses [creating_order order_request] (forwarded_options order_request)
     = Throw (Thrown (VStr "Authentication failed"))
  /\ fst (run (create_order gateway_refuses order_request))
     = Ok (Response 500 (VObj [ ("error", VStr "Failed to create order");
                                ("details", message (Thrown (VStr "Authentication failed")))
                              ]))
  /\ orders_requested (snd (run (create_order gateway_refuses order_request)))
     = [forwarded_options order_request].
Proof.
  do 3 (split; [reflexivity|]).
  exact (gateway_failure_is_answered_500 gateway_refuses order_request _
           eq_refl eq_refl eq_refl).
Defined.

Lemma order_without_object_is_answered_500_witness :
  is_nullish order_request = false
  /\ is_nullish (field order_request "customerDetails") = false
  /\ gateway_resolves_null [creating_order order_request]
                           (forwarded_options order_request) = Ok VNull
  /\ is_nullish VNull = true
  /\ (exists e,
         Get VNull "id" = Throw e
         /\ fst (run (create_order gateway_resolves_null order_request))
            = Ok (Response 500 (VObj [ ("error", VStr "Failed to create order");
                                       ("details", message e) ])))
  /\ orders_requested (snd (run (create_order gateway_resolves_null order_request)))
     = [forwarded_options order_request].
Proof.
  do 4 (split; [reflexivity|]).
  exact (order_without_object_is_answered_500 gateway_resolves_null order_request VNull
           eq_refl eq_refl eq_refl eq_refl).
Defined.

(** The specification's order with a cart beside it. *)
Definition order_request_with_cart : value :=
  VObj [ ("amount", VNum 50000%Z); ("currency", VStr "INR");
         ("receipt", VStr "rcpt_1"); ("customerDetails", ada);
         ("cartItems", one_session) ].

Lemma create_order_ignores_cart_witness :
  destructure order_request "amount" = destructure order_request_with_cart "amount"
  /\ destructure order_request "currency" = destructure order_request_with_cart "currency"
  /\ destructure order_request "receipt" = destructure order_request_with_cart "receipt"
  /\ destructure order_request "customerDetails"
     = destructure order_request_with_cart "customerDetails"
  /\ run (create_order gateway_accepts order_request)
     = run (create_order gateway_accepts order_request_with_cart).
Proof.
  do 4 (split; [reflexivity|]).
  exact (create_order_ignores_cart gateway_accepts order_request order_request_with_cart
           eq_refl eq_refl eq_refl eq_refl).
Defined.

(** A transport that delivers the first mail it is given and refuses
    every later one. *)
Definition delivers_once : trace -> mail -> option exn :=
  fun t _ =>
    match mails_attempted t with
    | [] => None
    | _ :: _ => Some smtp_error
    end.

Definition inquiry_notification : mail :=
  {| from := dq ++ "Contact Form" ++ dq ++ " <coach@example.com>";
     to := VStr "coach@example.com";
     subject := "New Contact Form: Booking";
     html := contact_admin_html "Ada" "ada@example.com" "Booking"
               "Hello<br>Is Tuesday free?" |}.

Definition inquiry_confirmation : mail :=
  {| from := dq ++ "Mrs. Shereen Life Coaching" ++ dq ++ " <coach@example.com>";
     to := VStr "ada@example.com";
     subject := "Thank You for Contacting Mrs. Shereen";
     html := contact_user_html "Ada" "Booking" "Hello<br>Is Tuesday free?" |}.

Lemma inquiry_confirmation_refused :
  In (SendMail inquiry_confirmation (Some smtp_error))
     (snd (run (contact example_env delivers_once inquiry))).
Proof. do 3 right. left. reflexivity. Qed.

Lemma failed_confirmation_follows_a_delivered_notification_witness :
  user_mail example_env inquiry = Ok inquiry_confirmation
  /\ In (SendMail inquiry_confirmation (Some smtp_error))
        (snd (run (contact example_env delivers_once inquiry)))
  /\ exists admin,
       admin_mail example_env inquiry = Ok admin
       /\ mails_attempted (snd (run (contact example_env delivers_once inquiry)))
          = [admin; inquiry_confirmation]
       /\ mails_delivered (snd (run (contact example_env delivers_once inquiry)))
          = [admin]
       /\ fst (run (contact example_env delivers_once inquiry))
          = Ok (Response 500 (VObj [ ("success", VBool false);
                                     ("message", VStr "Failed to send message");
                                     ("details", message smtp_error) ])).
Proof.
  split; [reflexivity|]. split; [exact inquiry_confirmation_refused|].
  exact (failed_confirmation_follows_a_delivered_notification
           example_env delivers_once inquiry inquiry_confirmation smtp_error
           eq_refl inquiry_confirmation_refused).
Defined.

(** A contact form sent without its message. *)
Definition inquiry_without_message : value :=
  VObj [ ("name", VStr "Ada"); ("email", VStr "ada@example.com");
         ("subject", VStr "Booking") ].

Lemma contact_without_text_message_sends_nothing_witness :
  is_string (field inquiry_without_message "message") = false
  /\ mails_attempted (snd (run (contact example_env delivers inquiry_without_message)))
     = []
  /\ exists e,
       fst (run (contact example_env delivers inquiry_without_message))
       = Ok (Response 500 (VObj [ ("success", VBool false);
                                  ("message", VStr "Failed to send message");
                                  ("details", message e) ])).
Proof.
  split; [reflexivity|].
  exact (contact_without_text_message_sends_nothing
           example_env delivers inquiry_without_message eq_refl).
Defined.

Lemma inquiry_notification_attempted :
  In inquiry_notification
     (mails_attempted (snd (run (contact example_env delivers inquiry)))).
Proof. left. reflexivity. Qed.

Lemma contact_mail_recipients_witness :
  In inquiry_notification
     (mails_attempted (snd (run (contact example_env delivers inquiry))))
  /\ ((admin_mail example_env inquiry = Ok inquiry_notification
       /\ to inquiry_notification = env_value (EMAIL_USER example_env)
       /\ exists title,
            ToString (field inquiry "subject") = Ok title
            /\ subject inquiry_notification = "New Contact Form: " ++ title)
      \/ (user_mail example_env inquiry = Ok inquiry_notification
          /\ to inquiry_notification = field inquiry "email"
          /\ subject inquiry_notification = "Thank You for Contacting Mrs. Shereen")).
Proof.
  split; [exact inquiry_notification_attempted|].
  exact (contact_mail_recipients example_env delivers inquiry inquiry_notification
           inquiry_notification_attempted).
Defined.

Lemma example_confirmation_attempted :
  In example_confirmation
     (mails_attempted (snd (run (payment_success example_env delivers paid)))).
Proof. rewrite example_mails. left. reflexivity. Qed.

Lemma payment_mail_recipients_witness :
  In example_confirmation
     (mails_attempted (snd (run (payment_success example_env delivers paid))))
  /\ ((to example_confirmation = property (field paid "customerDetails") "email"
       /\ subject example_confirmation
          = "Booking Confirmation - Mrs. Shereen Life Coaching")
      \/ (to example_confirmation = env_value (EMAIL_USER example_env)
          /\ subject example_confirmation = "New Booking Alert - Life Coaching")).
Proof.
  split; [exact example_confirmation_attempted|].
  exact (payment_mail_recipients example_env delivers paid example_confirmation
           example_confirmation_attempted).
Defined.

(** The example configuration with another key id, password and port,
    and the same without any mail setting. *)
Definition other_env : environ :=
  Environ (Some "rzp_live_key") (Some "s") (Some "coach@example.com")
          (Some "another-password") (Some "8080").

Definition env_without_mail : environ :=
  Environ (Some "rzp_test_key") (Some "s") None None None.

Lemma handlers_read_only_secret_and_mail_user_witness :
  RAZORPAY_SECRET example_env = RAZORPAY_SECRET other_env
  /\ EMAIL_USER example_env = EMAIL_USER other_env
  /\ run (payment_success example_env delivers paid)
     = run (payment_success other_env delivers paid)
  /\ run (contact example_env delivers inquiry) = run (contact other_env delivers inquiry).
Proof.
  do 2 (split; [reflexivity|]).
  split.
  - exact (proj1 (handlers_read_only_secret_and_mail_user
                    example_env other_env delivers paid eq_refl eq_refl)).
  - exact (proj2 (handlers_read_only_secret_and_mail_user
                    example_env other_env delivers inquiry eq_refl eq_refl)).
Defined.

Lemma mail_settings_do_not_change_the_payment_response_witness :
  RAZORPAY_SECRET example_env = RAZORPAY_SECRET env_without_mail
  /\ fst (run (payment_success example_env delivers paid))
     = fst (run (payment_success env_without_mail smtp_down paid))
  /\ List.length (mails_attempted (snd (run (payment_success example_env delivers paid))))
     = List.length
         (mails_attempted (snd (run (payment_success env_without_mail smtp_down paid)))).
Proof.
  split; [reflexivity|].
  exact (mail_settings_do_not_change_the_payment_response
           example_env env_without_mail delivers smtp_down paid eq_refl).
Defined.

Lemma repeated_confirmation_sends_again_witness :
  computed_signature example_env paid = Ok example_signature
  /\ field paid "razorpaySignature" = VStr example_signature
  /\ cartItemsHtml (field paid "cartItems") = Ok example_block
  /\ mailOptions example_env (field paid "customerDetails") (field paid "amount")
                 (field paid "razorpayPaymentId") example_block = Ok example_confirmation
  /\ adminMailOptions example_env (field paid "customerDetails") (field paid "amount")
                      (field paid "razorpayPaymentId") example_block = Ok example_alert
  /\ fst (payment_success example_env delivers paid
            (snd (run (payment_success example_env delivers paid))))
     = Ok (Response 200 (VObj [("success", VBool true)]))
  /\ mails_attempted
       (snd (payment_success example_env delivers paid
               (snd (run (payment_success example_env delivers paid)))))
     = [example_confirmation; example_alert; example_confirmation; example_alert].
Proof.
  split; [apply example_computed_signature|].
  do 4 (split; [reflexivity|]).
  destruct (repeated_confirmation_sends_again
              example_env delivers paid example_signature example_block
              example_confirmation example_alert
              (snd (run (payment_success example_env delivers paid)))
              (example_computed_signature _ _) eq_refl eq_refl eq_refl eq_refl)
    as (Hresponse & _ & Htwice).
  split; [exact Hresponse|exact (Htwice eq_refl)].
Defined.

Lemma every_order_request_reaches_the_gateway_witness :
  is_nullish order_request = false
  /\ is_nullish (field order_request "customerDetails") = false
  /\ orders_requested
       (snd (create_order gateway_accepts order_request
               (snd (run (create_order gateway_accepts order_request)))))
     = [forwarded_options order_request; forwarded_options order_request].
Proof.
  do 2 (split; [reflexivity|]).
  exact (proj2 (every_order_request_reaches_the_gateway
                  gateway_accepts order_request
                  (snd (run (create_order gateway_accepts order_request)))
                  eq_refl eq_refl) eq_refl).
Defined.
